(** * fair-mast-ingestion: the transforms of [src/archive/transforms.py]

    A shallow embedding of the dataset transforms (MapDict, RenameDimensions,
    DropZeroDimensions, StandardizeSignalDataset, MergeDatasets,
    TensorizeChannels) and of the fragment of xarray, [re] and [sorted] they
    call, followed by the properties of the natural-language specification;
    then DropDatasets, ASXTransform, Pipeline and the PipelineRegistry, with
    further properties of all of them.

    Conventions.
    - Python dictionaries keep insertion order, so a [dict V] is an
      association list whose keys are pairwise distinct ([unique_keys]).
    - A call either returns, raises a Python exception, or leaves the
      fragment of the libraries that is modelled here ([Unmodelled]); no
      theorem below counts [Unmodelled] as a failure or as a success.
    - Names are ASCII strings; array payloads are integers or strings
      (the transforms never compute on payloads, they only test [== 0]).
    - A transform is a function from its argument to its result. xarray
      lets a result share its attribute dictionary with the argument, so
      that [attrs[...] = ...] also shows on the argument; the properties
      below are about results only. DropDatasets, whose result is its
      argument, is modelled with the dictionary it leaves behind. *)

From Stdlib Require Import List String Ascii ZArith Bool Lia Arith.
From Stdlib Require Import Permutation Sorted.
Import ListNotations.
Open Scope string_scope.
Open Scope list_scope.

(** ** Exceptions and outcomes

    The exceptions the transforms can meet. The messages are abridged:
    below only the class of an exception matters, and for MapDict that the
    message of the cause is carried along. *)

Inductive exn : Type :=
| KeyError (msg : string)
| ValueError (msg : string)
| TypeError (msg : string)
| MergeError (msg : string)
| RuntimeError (msg : string).

Inductive outcome (A : Type) : Type :=
| Ok (a : A)
| Raise (e : exn)
| Unmodelled (why : string).
Arguments Ok {A} a.
Arguments Raise {A} e.
Arguments Unmodelled {A} why.

Definition bind {A B : Type} (m : outcome A) (k : A -> outcome B) : outcome B :=
  match m with
  | Ok a => k a
  | Raise e => Raise e
  | Unmodelled w => Unmodelled w
  end.

Notation "x <- m ;; k" := (bind m (fun x => k))
  (at level 61, m at next level, right associativity).

Definition raises {A : Type} (m : outcome A) : Prop := exists e, m = Raise e.
Definition returns {A : Type} (m : outcome A) : Prop := exists a, m = Ok a.

(** ** Insertion-ordered dictionaries *)

Definition dict (V : Type) : Type := list (string * V).

Section Dict.
Context {V : Type}.

Fixpoint dict_get (k : string) (d : dict V) : option V :=
  match d with
  | [] => None
  | (k', v) :: d' => if String.eqb k k' then Some v else dict_get k d'
  end.

Definition dict_mem (k : string) (d : dict V) : bool :=
  match dict_get k d with Some _ => true | None => false end.

(** [d[k] = v]: an existing key keeps its position. *)
Fixpoint dict_set (k : string) (v : V) (d : dict V) : dict V :=
  match d with
  | [] => [(k, v)]
  | (k', v') :: d' =>
      if String.eqb k k' then (k, v) :: d' else (k', v') :: dict_set k v d'
  end.

Definition dict_keys (d : dict V) : list string := map fst d.

Definition dict_del (k : string) (d : dict V) : dict V :=
  filter (fun kv => negb (String.eqb k (fst kv))) d.
End Dict.

Fixpoint mem (k : string) (l : list string) : bool :=
  match l with
  | [] => false
  | k' :: l' => String.eqb k k' || mem k l'
  end.

Fixpoint unique_keys (l : list string) : bool :=
  match l with
  | [] => true
  | k :: l' => negb (mem k l') && unique_keys l'
  end.

(** [sub in s] on strings. *)
Fixpoint contains (sub s : string) : bool :=
  String.prefix sub s ||
  match s with
  | EmptyString => false
  | String _ s' => contains sub s'
  end.

(** [repr(s)] for a string without backslashes: single quotes, unless the
    string has a single quote and no double quote. *)
Definition double_quote : string := String (ascii_of_nat 34) EmptyString.

Definition repr (s : string) : string :=
  if contains "'" s && negb (contains double_quote s)
  then (double_quote ++ s ++ double_quote)%string
  else ("'" ++ s ++ "'")%string.

(** [str(e)]: a [KeyError] prints the [repr] of its argument. *)
Definition str_exn (e : exn) : string :=
  match e with
  | KeyError m => repr m
  | ValueError m | TypeError m | MergeError m | RuntimeError m => m
  end.

(** ** MapDict *)

Section MapDict.
Context {A B : Type}.
Variable transform : A -> outcome B.

(** The [for] loop of [MapDict.__call__]. [calls] records, in order, the
    keys on which [self.transform] has been invoked. *)
Fixpoint MapDict_loop (items : list (string * A)) (out : dict B)
    (calls : list string) : list string * outcome (dict B) :=
  match items with
  | [] => (calls, Ok out)
  | (key, dataset) :: rest =>
      match transform dataset with
      | Ok v => MapDict_loop rest (dict_set key v out) (calls ++ [key])
      | Raise e =>
          (calls ++ [key],
           Raise (RuntimeError (key ++ ": " ++ str_exn e)%string))
      | Unmodelled w => (calls ++ [key], Unmodelled w)
      end
  end.

Definition MapDict (datasets : dict A) : outcome (dict B) :=
  snd (MapDict_loop datasets [] []).

End MapDict.

(** ** Regular expressions ([re.search], [re.split])

    Every pattern of the pipeline table has the shape
    [literal(\d+)literal], optionally closed by [$]: the default
    [stem + "(\d+)"] and the explicit ones such as [equil_s_seg(\d+)at$].
    A [pattern] is such a regular expression with its one capturing group. *)

Record pattern : Type := {
  prefix : string;    (* literal text before the group *)
  suffix : string;    (* literal text after the group *)
  anchored : bool     (* whether the pattern ends with [$] *)
}.

(** The characters that are operators in a regular expression. *)
Definition is_regex_operator (c : ascii) : bool :=
  existsb (Ascii.eqb c) (list_ascii_of_string ".^$*+?{}[]\|()").

(** A text that, read as a regular expression, matches itself and nothing
    else. *)
Fixpoint literal_text (s : string) : bool :=
  match s with
  | EmptyString => true
  | String c s' => negb (is_regex_operator c) && literal_text s'
  end.

(** The default [regex] of [TensorizeChannels.__init__]: [stem + "(\d+)"].
    The stem is pasted into the regular expression, so it is the literal
    text before the group only when it holds no operator; with an operator
    in the stem the expression is not of the shape of a [pattern]. *)
Definition default_regex (stem : string) : outcome pattern :=
  if literal_text stem
  then Ok {| prefix := stem; suffix := ""; anchored := false |}
  else Unmodelled "a stem with operators of regular expressions".

Definition is_digit (c : ascii) : bool :=
  (48 <=? nat_of_ascii c)%nat && (nat_of_ascii c <=? 57)%nat.

Fixpoint strip_prefix (pre s : string) : option string :=
  match pre, s with
  | EmptyString, _ => Some s
  | String a pre', String b s' =>
      if Ascii.eqb a b then strip_prefix pre' s' else None
  | String _ _, EmptyString => None
  end.

(** The longest run of digits at the head of [s], and what follows it. *)
Fixpoint span_digits (s : string) : string * string :=
  match s with
  | EmptyString => (EmptyString, EmptyString)
  | String c s' =>
      if is_digit c
      then let (run, rest) := span_digits s' in (String c run, rest)
      else (EmptyString, s)
  end.

(** [$] matches at the end of the string and just before a final newline. *)
Definition at_end (s : string) : bool :=
  match s with
  | EmptyString => true
  | String c EmptyString => Ascii.eqb c "010"%char
  | _ => false
  end.

Definition match_tail (p : pattern) (s : string) : option string :=
  match strip_prefix (suffix p) s with
  | Some r => if anchored p then (if at_end r then Some r else None) else Some r
  | None => None
  end.

(** [\d+] is greedy: the group first takes [k] digits of the run, then
    backtracks to [k-1], ..., [1] until the tail of the pattern matches. *)
Fixpoint match_group (p : pattern) (run rest : string) (k : nat)
    : option (string * string) :=
  match k with
  | O => None
  | S k' =>
      let after_group :=
        (substring k (String.length run - k) run ++ rest)%string in
      match match_tail p after_group with
      | Some r => Some (substring 0 k run, r)
      | None => match_group p run rest k'
      end
  end.

(** A match that starts at the head of [s]: the captured group and the
    text after the match. *)
Definition match_here (p : pattern) (s : string) : option (string * string) :=
  match strip_prefix (prefix p) s with
  | Some s1 =>
      let (run, rest) := span_digits s1 in
      match_group p run rest (String.length run)
  | None => None
  end.

(** The leftmost match: the text before it, the group, the text after. *)
Fixpoint re_find (p : pattern) (s : string) : option (string * string * string) :=
  match match_here p s with
  | Some (g, r) => Some (EmptyString, g, r)
  | None =>
      match s with
      | EmptyString => None
      | String c s' =>
          match re_find p s' with
          | Some (before, g, r) => Some (String c before, g, r)
          | None => None
          end
      end
  end.

(** [re.search(regex, key) is not None]. *)
Definition re_search (p : pattern) (s : string) : bool :=
  match re_find p s with Some _ => true | None => false end.

(** [re.split(regex, s)]: the pieces between successive matches, with the
    captured group after each piece. A match is never empty, so [length s]
    rounds are enough ([re_split_fuel_enough]). *)
Fixpoint re_split_fuel (fuel : nat) (p : pattern) (s : string) : list string :=
  match fuel with
  | O => [s]
  | S fuel' =>
      match re_find p s with
      | Some (before, g, r) => before :: g :: re_split_fuel fuel' p r
      | None => [s]
      end
  end.

Definition re_split (p : pattern) (s : string) : list string :=
  re_split_fuel (String.length s) p s.

(** ** Sort keys: [_parse_digits] *)

Inductive fragment : Type :=
| FInt (n : N)
| FStr (s : string).

(** [str.isdigit()] on an ASCII string. *)
Fixpoint all_digits (s : string) : bool :=
  match s with
  | EmptyString => true
  | String c s' => is_digit c && all_digits s'
  end.

Definition isdigit (s : string) : bool :=
  match s with
  | EmptyString => false
  | _ => all_digits s
  end.

(** [int(part)] on a string of decimal digits. *)
Fixpoint int_acc (acc : N) (s : string) : N :=
  match s with
  | EmptyString => acc
  | String c s' => int_acc (10 * acc + (N_of_ascii c - 48))%N s'
  end.

Definition int (s : string) : N := int_acc 0%N s.

Definition _parse_digits (regex : pattern) (s : string) : list fragment :=
  map (fun part => if isdigit part then FInt (int part) else FStr part)
      (re_split regex s).

(** Python's [==] and [<] on the elements of a key: an [int] and a [str]
    are never equal, and ordering them raises [TypeError]. *)
Definition fragment_eqb (a b : fragment) : bool :=
  match a, b with
  | FInt x, FInt y => N.eqb x y
  | FStr x, FStr y => String.eqb x y
  | _, _ => false
  end.

Definition fragment_lt (a b : fragment) : outcome bool :=
  match a, b with
  | FInt x, FInt y => Ok (N.ltb x y)
  | FStr x, FStr y => Ok (String.ltb x y)
  | FInt _, FStr _ =>
      Raise (TypeError "'<' not supported between instances of 'int' and 'str'")
  | FStr _, FInt _ =>
      Raise (TypeError "'<' not supported between instances of 'str' and 'int'")
  end.

(** [list.__lt__]: the first pair of unequal elements decides; a proper
    prefix is smaller. *)
Fixpoint key_lt (a b : list fragment) : outcome bool :=
  match a, b with
  | [], [] => Ok false
  | [], _ :: _ => Ok true
  | _ :: _, [] => Ok false
  | x :: a', y :: b' =>
      if fragment_eqb x y then key_lt a' b' else fragment_lt x y
  end.

(** ** [sorted(strings, key=...)]

    A stable sort that only asks [later < earlier]. On keys that are
    pairwise comparable every stable comparison sort returns this list;
    when a comparison raises, so does [sorted] (for two elements CPython
    makes exactly the comparison made here). *)
Section Sorted.
Context {A K : Type}.
Variable key : A -> K.
Variable lt : K -> K -> outcome bool.

Fixpoint insert (x : A) (l : list A) : outcome (list A) :=
  match l with
  | [] => Ok [x]
  | y :: l' =>
      b <- lt (key y) (key x) ;;
      if b then (r <- insert x l' ;; Ok (y :: r)) else Ok (x :: y :: l')
  end.

Fixpoint sorted (l : list A) : outcome (list A) :=
  match l with
  | [] => Ok []
  | x :: l' => r <- sorted l' ;; insert x r
  end.
End Sorted.

Definition _sort_numerically (regex : pattern) (strings : list string)
    : outcome (list string) :=
  sorted (_parse_digits regex) key_lt strings.

(** ** Labeled datasets: the data model of xarray

    A variable is an array with named axes: [axes] pairs each dimension name
    with its extent, [values] is the row-major payload. A dataset maps
    variable names to variables ([_variables]), tells which of them are
    coordinates ([_coord_names]) and carries attributes ([attrs]); its
    dimensions are computed from its variables, as xarray does. *)

Inductive scalar : Type :=
| Num (z : Z)
| Str (s : string).

Definition scalar_eqb (a b : scalar) : bool :=
  match a, b with
  | Num x, Num y => Z.eqb x y
  | Str x, Str y => String.eqb x y
  | _, _ => false
  end.

Inductive attr : Type :=
| AStr (s : string)
| AList (l : list string).

Record Var : Type := {
  axes : list (string * nat);
  values : list scalar;
  var_attrs : dict attr
}.

Definition var_dims (v : Var) : list string := map fst (axes v).
Definition var_shape (v : Var) : list nat := map snd (axes v).

Record Dataset : Type := {
  variables : dict Var;
  coord_names : list string;
  attrs : dict attr
}.

Definition data_vars (ds : Dataset) : dict Var :=
  filter (fun kv => negb (mem (fst kv) (coord_names ds))) (variables ds).

Definition coords (ds : Dataset) : dict Var :=
  filter (fun kv => mem (fst kv) (coord_names ds)) (variables ds).

(** Every (dimension, extent) pair of the variables, in variable order. *)
Definition dim_pairs (vars : dict Var) : list (string * nat) :=
  flat_map (fun kv => axes (snd kv)) vars.

(** Keeps the first entry of every key. *)
Fixpoint first_wins {V : Type} (l : list (string * V)) : dict V :=
  match l with
  | [] => []
  | (k, v) :: l' => (k, v) :: dict_del k (first_wins l')
  end.

(** [dataset.sizes]. *)
Definition sizes (ds : Dataset) : dict nat := first_wins (dim_pairs (variables ds)).

Definition dims_of (ds : Dataset) : list string := dict_keys (sizes ds).

(** [calculate_dimensions]: xarray recomputes the dimensions whenever it
    rebuilds a dataset from variables, and refuses a dimension that is also
    the name of a scalar variable, or that has two extents. *)
Definition is_scalar_var (kv : string * Var) : bool :=
  match axes (snd kv) with [] => true | _ => false end.

Definition sizes_agree (pairs : list (string * nat)) : bool :=
  forallb (fun dn => match dict_get (fst dn) pairs with
                     | Some n => Nat.eqb n (snd dn)
                     | None => false
                     end) pairs.

Definition calculate_dimensions (vars : dict Var) : outcome (dict nat) :=
  let scalar_vars := dict_keys (filter is_scalar_var vars) in
  if existsb (fun dn => mem (fst dn) scalar_vars) (dim_pairs vars)
  then Raise (ValueError "dimension already exists as a scalar variable")
  else if sizes_agree (dim_pairs vars)
  then Ok (first_wins (dim_pairs vars))
  else Raise (ValueError "conflicting sizes for dimension").

(** The invariant xarray keeps on a dataset: distinct variable names,
    dimensions that [calculate_dimensions] accepts, coordinate names that
    are variables, every variable named like a dimension a coordinate, and
    as many values in a variable as its shape says. *)
Definition well_shaped (v : Var) : bool :=
  Nat.eqb (List.length (values v)) (fold_right Nat.mul 1%nat (var_shape v)).

Definition consistent (ds : Dataset) : bool :=
  unique_keys (dict_keys (variables ds))
  && negb (existsb (fun dn => mem (fst dn)
                                (dict_keys (filter is_scalar_var (variables ds))))
                   (dim_pairs (variables ds)))
  && sizes_agree (dim_pairs (variables ds))
  && forallb (fun c => dict_mem c (variables ds)) (coord_names ds)
  && forallb (fun d => negb (dict_mem d (variables ds)) || mem d (coord_names ds))
             (dims_of ds)
  && forallb (fun kv => well_shaped (snd kv)) (variables ds).

(** *** [Dataset.squeeze(drop=...)]

    Selects index 0 along every dimension of extent 1. With [drop=True] a
    coordinate that this selection turns into a scalar is removed. *)
Definition squeeze_dims (ds : Dataset) : list string :=
  dict_keys (filter (fun dn => Nat.eqb (snd dn) 1) (sizes ds)).

Definition var_squeeze (sq : list string) (v : Var) : Var :=
  {| axes := filter (fun dn => negb (mem (fst dn) sq)) (axes v);
     values := values v;
     var_attrs := var_attrs v |}.

Definition squeeze_drops (drop : bool) (sq : list string) (cn : list string)
    (kv : string * Var) : bool :=
  drop
  && existsb (fun d => mem d sq) (var_dims (snd kv))
  && Nat.eqb (List.length (axes (var_squeeze sq (snd kv)))) 0
  && mem (fst kv) cn.

Definition squeeze (drop : bool) (ds : Dataset) : Dataset :=
  let sq := squeeze_dims ds in
  let kept := filter (fun kv => negb (squeeze_drops drop sq (coord_names ds) kv))
                     (variables ds) in
  let dropped := filter (squeeze_drops drop sq (coord_names ds)) (variables ds) in
  {| variables := map (fun kv => (fst kv, var_squeeze sq (snd kv))) kept;
     coord_names :=
       filter (fun c => negb (mem c (dict_keys dropped))) (coord_names ds);
     attrs := attrs ds |}.

(** *** Renaming *)

(** [name_dict.get(k, k)]. *)
Definition get_default (name_dict : dict string) (k : string) : string :=
  match dict_get k name_dict with Some v => v | None => k end.

Definition var_rename_dims (dims_dict : dict string) (v : Var) : Var :=
  {| axes := map (fun dn => (get_default dims_dict (fst dn), snd dn)) (axes v);
     values := values v;
     var_attrs := var_attrs v |}.

(** [_rename_vars]: the variables are rebuilt in order; a new name that is
    already taken raises. *)
Fixpoint _rename_vars (name_dict dims_dict : dict string) (vars acc : dict Var)
    : outcome (dict Var) :=
  match vars with
  | [] => Ok acc
  | (k, v) :: rest =>
      let name := get_default name_dict k in
      if dict_mem name acc
      then Raise (ValueError ("the new name '" ++ name ++ "' conflicts")%string)
      else _rename_vars name_dict dims_dict rest
             (acc ++ [(name, var_rename_dims dims_dict v)])
  end.

Definition _rename_all (name_dict dims_dict : dict string) (ds : Dataset)
    : outcome Dataset :=
  vars <- _rename_vars name_dict dims_dict (variables ds) [] ;;
  Ok {| variables := vars;
        coord_names := map (get_default name_dict) (coord_names ds);
        attrs := attrs ds |}.

(** The checks of [rename_dims]: every old name is a dimension, no new name
    is a dimension or a variable. *)
Fixpoint rename_dims_check (items : list (string * string)) (ds : Dataset)
    : outcome unit :=
  match items with
  | [] => Ok tt
  | (k, v) :: rest =>
      if negb (mem k (dims_of ds))
      then Raise (ValueError
             ("cannot rename '" ++ k ++
              "' because it is not found in the dimensions of this dataset")%string)
      else if mem v (dims_of ds) || dict_mem v (variables ds)
      then Raise (ValueError
             ("Cannot rename " ++ k ++ " to " ++ v ++ " because " ++ v ++
              " already exists. Try using swap_dims instead.")%string)
      else rename_dims_check rest ds
  end.

Definition rename_dims (dims_dict : dict string) (ds : Dataset) : outcome Dataset :=
  _ <- rename_dims_check dims_dict ds ;;
  _rename_all [] dims_dict ds.

Fixpoint rename_vars_check (items : list (string * string)) (ds : Dataset)
    : outcome unit :=
  match items with
  | [] => Ok tt
  | (k, _) :: rest =>
      if dict_mem k (variables ds) then rename_vars_check rest ds
      else Raise (ValueError
             ("cannot rename '" ++ k ++
              "' because it is not a variable or coordinate in this dataset")%string)
  end.

Definition rename_vars (name_dict : dict string) (ds : Dataset) : outcome Dataset :=
  _ <- rename_vars_check name_dict ds ;;
  _rename_all name_dict [] ds.

(** [Dataset.rename]: variables and dimensions alike. A new name that is
    not a string is unhashable; the lookups that meet it raise [TypeError]. *)
Fixpoint rename_check (items : list (string * attr)) (ds : Dataset)
    : outcome (dict string) :=
  match items with
  | [] => Ok []
  | (k, new_k) :: rest =>
      if dict_mem k (variables ds) || mem k (dims_of ds)
      then match new_k with
           | AStr s => r <- rename_check rest ds ;; Ok ((k, s) :: r)
           | AList _ => Raise (TypeError "unhashable type: 'list'")
           end
      else Raise (ValueError
             ("cannot rename '" ++ k ++
              "' because it is not a variable or dimension in this dataset")%string)
  end.

Definition rename (name_dict : dict attr) (ds : Dataset) : outcome Dataset :=
  names <- rename_check name_dict ds ;;
  _rename_all names names ds.

(** *** [drop_vars], item access, attributes *)

Definition drop_vars (names : list string) (ds : Dataset) : outcome Dataset :=
  if forallb (fun n => dict_mem n (variables ds)) names
  then
    let vars := filter (fun kv => negb (mem (fst kv) names)) (variables ds) in
    _ <- calculate_dimensions vars ;;
    Ok {| variables := vars;
          coord_names := filter (fun c => negb (mem c names)) (coord_names ds);
          attrs := attrs ds |}
  else Raise (ValueError "These variables cannot be found in this dataset").

(** [dataset[key]] yields the stored variable, or for the name of a
    dimension without a variable a virtual index [0 .. n-1]; the flag tells
    whether the variable is the stored one. *)
Definition virtual_index (key : string) (n : nat) : Var :=
  {| axes := [(key, n)];
     values := map (fun i => Num (Z.of_nat i)) (seq 0 n);
     var_attrs := [] |}.

Definition getitem (key : string) (ds : Dataset) : outcome (bool * Var) :=
  match dict_get key (variables ds) with
  | Some v => Ok (true, v)
  | None =>
      match dict_get key (sizes ds) with
      | Some n => Ok (false, virtual_index key n)
      | None => Raise (KeyError ("No variable named '" ++ key ++ "'")%string)
      end
  end.

(** [(values == 0).all()]; a string never equals [0]. *)
Definition all_zero (v : Var) : bool :=
  forallb (fun x => scalar_eqb x (Num 0)) (values v).

Definition attrs_getitem (key : string) (ds : Dataset) : outcome attr :=
  match dict_get key (attrs ds) with
  | Some a => Ok a
  | None => Raise (KeyError key)
  end.

Definition set_attr (key : string) (a : attr) (ds : Dataset) : Dataset :=
  {| variables := variables ds;
     coord_names := coord_names ds;
     attrs := dict_set key a (attrs ds) |}.

(** [dataset[name].attrs = new_attrs]: writes through to a stored variable;
    on a virtual index the assignment is lost with the temporary. *)
Definition set_var_attrs (name : string) (new_attrs : dict attr) (ds : Dataset)
    : outcome Dataset :=
  r <- getitem name ds ;;
  match r with
  | (true, v) =>
      Ok {| variables :=
              dict_set name {| axes := axes v; values := values v;
                               var_attrs := new_attrs |} (variables ds);
            coord_names := coord_names ds;
            attrs := attrs ds |}
  | (false, _) => Ok ds
  end.

(** ** RenameDimensions

    [dimension_mapping] is the table read from [mappings/dim_names.json]. *)

(** [name in self.dimension_mapping] hashes [name]. *)
Definition hashable (a : attr) : outcome string :=
  match a with
  | AStr s => Ok s
  | AList _ => Raise (TypeError "unhashable type: 'list'")
  end.

Fixpoint rename_coords (items : list (string * string)) (dataset : Dataset)
    : outcome Dataset :=
  match items with
  | [] => Ok dataset
  | (old_name, new_name) :: rest =>
      dataset' <- (if mem old_name (coord_names dataset)
                   then rename_vars [(old_name, new_name)] dataset
                   else Ok dataset) ;;
      rename_coords rest dataset'
  end.

Definition RenameDimensions (dimension_mapping : dict (dict string))
    (dataset : Dataset) : outcome Dataset :=
  name <- attrs_getitem "name" dataset ;;
  let dataset := squeeze false dataset in
  name <- hashable name ;;
  match dict_get name dimension_mapping with
  | Some dims =>
      dataset <- rename_dims dims dataset ;;
      dataset <- rename_coords dims dataset ;;
      Ok (set_attr "dims" (AList (dims_of dataset)) dataset)
  | None => Ok dataset
  end.

(** ** DropZeroDimensions

    The loop runs over the coordinates of the dataset it was given. *)
Fixpoint DropZeroDimensions_loop (items : list (string * Var)) (dataset : Dataset)
    : outcome Dataset :=
  match items with
  | [] => Ok dataset
  | (key, coord) :: rest =>
      dataset' <- (if all_zero coord then drop_vars [key] dataset
                   else Ok dataset) ;;
      DropZeroDimensions_loop rest dataset'
  end.

Definition DropZeroDimensions (dataset : Dataset) : outcome Dataset :=
  DropZeroDimensions_loop (coords dataset) dataset.

(** ** StandardizeSignalDataset *)

(** ["_".join([name, "error"])]. *)
Definition join_error (name : attr) : outcome string :=
  match name with
  | AStr s => Ok (s ++ "_" ++ "error")%string
  | AList _ =>
      Raise (TypeError "sequence item 0: expected str instance, list found")
  end.

(** [name + "_" if name == "time" else name]. *)
Definition time_rewrite (name : attr) : attr :=
  match name with
  | AStr s => if String.eqb s "time" then AStr (s ++ "_")%string else name
  | AList _ => name
  end.

Definition StandardizeSignalDataset (source : string) (dataset : Dataset)
    : outcome Dataset :=
  let dataset := squeeze true dataset in
  name <- attrs_getitem "name" dataset ;;
  error <- getitem "error" dataset ;;
  dataset <- (if all_zero (snd error) then drop_vars ["error"] dataset
              else Ok dataset) ;;
  new_names <- (if dict_mem "error" (variables dataset)
                then e <- join_error name ;;
                     Ok [("data", name); ("error", AStr e)]
                else Ok [("data", time_rewrite name)]) ;;
  dataset <- rename new_names dataset ;;
  match dict_get "data" new_names with
  | Some (AStr data_name) =>
      let dataset := set_attr "name" (AStr (source ++ "/" ++ data_name)%string)
                              dataset in
      set_var_attrs data_name (attrs dataset) dataset
  | _ => Raise (TypeError "can only concatenate str to str")
  end.

(** ** MergeDatasets: [xr.merge]

    The variables of the datasets are collected in order of first
    appearance. Two variables of one name with the same axes and values are
    one variable (the first); with different contents xarray aligns indexes
    by outer join or compares up to broadcasting, which is not modelled.
    The dimensions are then recomputed, and a name that would be both a
    coordinate and a data variable is refused. Which place a variable has
    in the merged dataset depends on the alignment in xarray, which can
    bring the index of a later dataset forward: the place is not part of
    the model, and the properties identify the merged variables by name. *)

Fixpoint list_eqb {A : Type} (eqb : A -> A -> bool) (l1 l2 : list A) : bool :=
  match l1, l2 with
  | [], [] => true
  | x :: l1', y :: l2' => eqb x y && list_eqb eqb l1' l2'
  | _, _ => false
  end.

Definition axis_eqb (x y : string * nat) : bool :=
  String.eqb (fst x) (fst y) && Nat.eqb (snd x) (snd y).

Definition var_same (a b : Var) : bool :=
  list_eqb axis_eqb (axes a) (axes b)
  && list_eqb scalar_eqb (values a) (values b).

Fixpoint collect (vars acc : dict Var) : outcome (dict Var) :=
  match vars with
  | [] => Ok acc
  | (k, v) :: rest =>
      match dict_get k acc with
      | None => collect rest (acc ++ [(k, v)])
      | Some v0 =>
          if var_same v0 v then collect rest acc
          else Unmodelled "variables of one name with different contents"
      end
  end.

Fixpoint collect_all (objects : list Dataset) (acc : dict Var) : outcome (dict Var) :=
  match objects with
  | [] => Ok acc
  | ds :: rest => acc' <- collect (variables ds) acc ;; collect_all rest acc'
  end.

Fixpoint dedup (l : list string) : list string :=
  match l with
  | [] => []
  | k :: l' => k :: filter (fun x => negb (String.eqb k x)) (dedup l')
  end.

(** The names that are coordinates after a merge: the coordinates of the
    inputs and every variable named like a dimension. *)
Definition merged_coord_names (coord_names : list string) (vars : dict Var)
    (dims : dict nat) : list string :=
  dedup (coord_names ++ filter (fun d => dict_mem d vars) (dict_keys dims)).

Definition xr_merge (objects : list Dataset) : outcome Dataset :=
  vars <- collect_all objects [] ;;
  dims <- calculate_dimensions vars ;;
  let cn := merged_coord_names
              (flat_map (fun ds => dict_keys (coords ds)) objects) vars dims in
  let noncoord_names := flat_map (fun ds => dict_keys (data_vars ds)) objects in
  if existsb (fun c => mem c noncoord_names) cn
  then Raise (MergeError
         "unable to determine if these variables should be coordinates or not in the merged result")
  else Ok {| variables := vars;
             coord_names := cn;
             attrs := match objects with [] => [] | ds :: _ => attrs ds end |}.

Definition MergeDatasets (dataset_dict : dict Dataset) : outcome Dataset :=
  dataset <- xr_merge (map snd dataset_dict) ;;
  Ok {| variables := variables dataset;
        coord_names := coord_names dataset;
        attrs := [] |}.

(** ** TensorizeChannels *)

(** A [DataArray]: a variable with the coordinates that live on its
    dimensions. *)
Record DataArray : Type := {
  da_var : Var;
  da_coords : dict Var
}.

(** The coordinates of the dataset that live on the dimensions of [v]. *)
Definition coords_on (ds : Dataset) (v : Var) : dict Var :=
  filter (fun kv => mem (fst kv) (coord_names ds)
                    && forallb (fun d => mem d (var_dims v)) (var_dims (snd kv)))
         (variables ds).

Definition getitem_da (key : string) (ds : Dataset) : outcome DataArray :=
  r <- getitem key ds ;;
  Ok {| da_var := snd r; da_coords := coords_on ds (snd r) |}.

(** What [xr.combine_nested] returns: the combined array, or for an empty
    list an empty [Dataset]. *)
Inductive combined : Type :=
| Combined (da : DataArray)
| EmptyDataset.

Definition coords_same (a b : dict Var) : bool :=
  list_eqb (fun x y => String.eqb (fst x) (fst y) && var_same (snd x) (snd y)) a b.

Definition same_layout (first c : DataArray) : bool :=
  list_eqb axis_eqb (axes (da_var first)) (axes (da_var c))
  && coords_same (da_coords first) (da_coords c).

(** [xr.combine_nested(channels, concat_dim=...)] on arrays with the same
    axes and coordinates stacks them along the new first axis
    [concat_dim]; the attributes are dropped ([combine_attrs="drop"]).
    Arrays of different axes are broadcast, and a [concat_dim] they already
    have is extended: neither is modelled. *)
Definition combine_nested (channels : list DataArray) (concat_dim : string)
    : outcome combined :=
  match channels with
  | [] => Ok EmptyDataset
  | first :: rest =>
      if forallb (same_layout first) rest
         && negb (mem concat_dim (var_dims (da_var first)))
         && negb (dict_mem concat_dim (da_coords first))
      then Ok (Combined
             {| da_var :=
                  {| axes := (concat_dim, List.length channels) :: axes (da_var first);
                     values := flat_map (fun c => values (da_var c)) channels;
                     var_attrs := [] |};
                da_coords := da_coords first |})
      else Unmodelled "broadcasting, or concatenation along an existing dimension"
  end.

(** [dataset[key] = value] with a [DataArray]: [Dataset.update]. The
    coordinates of [value] that are not on its dimensions and that the
    dataset already has are dropped; the others are merged with priority,
    after alignment onto the indexes of the dataset (modelled when nothing
    has to be reindexed). *)
Definition setitem (key : string) (value : DataArray) (ds : Dataset)
    : outcome Dataset :=
  let v := da_var value in
  let cs := filter (fun kv => negb (String.eqb (fst kv) key)
                              && (mem (fst kv) (var_dims v)
                                  || negb (mem (fst kv) (coord_names ds))))
                   (da_coords value) in
  if existsb (fun kv => match dict_get (fst kv) (variables ds) with
                        | Some v' => negb (var_same v' (snd kv))
                        | None => false
                        end) cs
  then Unmodelled "alignment onto the indexes of the dataset"
  else
    let vars := dict_set key v
                  (fold_left (fun acc kv => dict_set (fst kv) (snd kv) acc)
                             cs (variables ds)) in
    dims <- calculate_dimensions vars ;;
    if mem key (coord_names ds) || dict_mem key dims
    then Unmodelled "assignment under the name of a coordinate or dimension"
    else
      let cn := merged_coord_names
                  (dict_keys (coords ds) ++ dict_keys cs) vars dims in
      if existsb (fun c => dict_mem c (data_vars ds)) cn
      then Raise (MergeError
             "unable to determine if these variables should be coordinates or not in the merged result")
      else Ok {| variables := vars; coord_names := cn; attrs := attrs ds |}.

(** [dataset[key] = value] for what [combine_nested] returned. *)
Definition setitem_combined (key : string) (value : combined) (ds : Dataset)
    : outcome Dataset :=
  match value with
  | Combined da => setitem key da ds
  | EmptyDataset =>
      Raise (TypeError
        "Cannot assign a Dataset to a single key - only a DataArray or Variable object can be stored under a single key.")
  end.

(** [da.assign_coords({dim: labels})]. *)
Definition assign_coords_da (dim : string) (labels : list string) (da : DataArray)
    : outcome DataArray :=
  match dict_get dim (axes (da_var da)) with
  | Some n =>
      if Nat.eqb n (List.length labels)
      then Ok {| da_var := da_var da;
                 da_coords :=
                   dict_set dim {| axes := [(dim, n)];
                                   values := map Str labels;
                                   var_attrs := [] |} (da_coords da) |}
      else Raise (ValueError "conflicting sizes for dimension")
  | None =>
      Raise (ValueError "cannot add coordinates with new dimensions to a DataArray")
  end.

(** [da.chunk("auto")] only changes how the values are stored. *)
Definition chunk (da : DataArray) : DataArray := da.

Fixpoint mapM {A B : Type} (f : A -> outcome B) (l : list A) : outcome (list B) :=
  match l with
  | [] => Ok []
  | x :: l' => y <- f x ;; ys <- mapM f l' ;; Ok (y :: ys)
  end.

Record Tensorizer : Type := {
  stem : string;
  regex : pattern;
  dim_name : string;
  assign_coords : bool
}.

(** [TensorizeChannels.__init__]. *)
Definition TensorizeChannels_init (stem : string) (regex : option pattern)
    (dim_name : option string) (assign_coords : bool) : outcome Tensorizer :=
  regex <- match regex with Some r => Ok r | None => default_regex stem end ;;
  Ok {| stem := stem;
        regex := regex;
        dim_name := match dim_name with
                    | Some d => d
                    | None => (stem ++ "_channel")%string
                    end;
        assign_coords := assign_coords |}.

Definition _get_group_keys (self : Tensorizer) (dataset : Dataset)
    : outcome (list string) :=
  let group_keys := dict_keys (data_vars dataset) in
  let group_keys := filter (re_search (regex self)) group_keys in
  _sort_numerically (regex self) group_keys.

(** [TensorizeChannels.__call__]. *)
Definition TensorizeChannels (self : Tensorizer) (dataset : Dataset)
    : outcome Dataset :=
  group_keys <- _get_group_keys self dataset ;;
  channels <- mapM (fun key => getitem_da key dataset) group_keys ;;
  stacked <- combine_nested channels (dim_name self) ;;
  dataset <- setitem_combined (stem self) stacked dataset ;;
  dataset <- (if assign_coords self
              then da <- getitem_da (stem self) dataset ;;
                   da <- assign_coords_da (dim_name self) group_keys da ;;
                   setitem (stem self) da dataset
              else Ok dataset) ;;
  da <- getitem_da (stem self) dataset ;;
  dataset <- setitem (stem self) (chunk da) dataset ;;
  drop_vars group_keys dataset.

(** [da.isel({dim: i})] along the first axis: the [i]-th block of values. *)
Definition isel_first (i : nat) (v : Var) : Var :=
  let block := fold_right Nat.mul 1%nat (map snd (tl (axes v))) in
  {| axes := tl (axes v);
     values := firstn block (skipn (i * block) (values v));
     var_attrs := var_attrs v |}.

(** ** DropDatasets

    [datasets.pop(key)] removes [key] from the dictionary it is given and
    raises [KeyError] when the key is not there. The dictionary of the
    caller is changed in place, so a call is described by a pair: what that
    dictionary holds afterwards, and what the call returned. *)
Section DropDatasets.
Context {A : Type}.

Definition dict_pop (key : string) (d : dict A) : dict A * outcome A :=
  match dict_get key d with
  | Some v => (dict_del key d, Ok v)
  | None => (d, Raise (KeyError key))
  end.

Fixpoint DropDatasets (keys : list string) (datasets : dict A)
    : dict A * outcome (dict A) :=
  match keys with
  | [] => (datasets, Ok datasets)
  | key :: rest =>
      match dict_pop key datasets with
      | (datasets', Ok _) => DropDatasets rest datasets'
      | (datasets', Raise e) => (datasets', Raise e)
      | (datasets', Unmodelled w) => (datasets', Unmodelled w)
      end
  end.
End DropDatasets.

(** ** ASXTransform

    [dataset.drop(name)] with the name of a variable is the deprecated
    spelling of [drop_vars]; [dataset["data"] = dataset["time"]] stores the
    array found under [time], a virtual index when [time] is only a
    dimension. *)
Definition ASXTransform (dimension_mapping : dict (dict string))
    (dataset : Dataset) : outcome Dataset :=
  let dataset := squeeze false dataset in
  name <- attrs_getitem "name" dataset ;;
  name <- hashable name ;;
  match dict_get name dimension_mapping with
  | None => Ok dataset
  | Some dims =>
      dataset <- rename_dims dims dataset ;;
      dataset <- drop_vars ["data"] dataset ;;
      time <- getitem_da "time" dataset ;;
      dataset <- setitem "data" time dataset ;;
      drop_vars ["time"] dataset
  end.

(** ** Pipeline *)

Fixpoint Pipeline {X : Type} (transforms : list (X -> outcome X)) (x : X)
    : outcome X :=
  match transforms with
  | [] => Ok x
  | transform :: rest => x' <- transform x ;; Pipeline rest x'
  end.

(** ** PipelineRegistry

    What flows through a registered pipeline is a dictionary of datasets
    up to MergeDatasets and a single dataset after it. A stage is an
    instance of one of the transform classes: the class, with what its
    constructor was given. Both constructors that read
    [mappings/dim_names.json] are given the table they load. *)

Inductive value : Type :=
| Datasets (datasets : dict Dataset)
| Merged (dataset : Dataset).

Module Stage.
Inductive signal_transform : Type :=
| RenameDimensions (dimension_mapping : dict (dict string))
| DropZeroDimensions
| StandardizeSignalDataset (source : string)
| ASXTransform (dimension_mapping : dict (dict string)).

Inductive transform : Type :=
| MapDict (transform : signal_transform)
| DropDatasets (keys : list string)
| MergeDatasets
| TensorizeChannels (stem : string) (regex : option pattern)
    (dim_name : option string) (assign_coords : bool).
End Stage.

(** [transform(dataset)] for the transforms MapDict is given. *)
Definition call_signal (t : Stage.signal_transform) (dataset : Dataset)
    : outcome Dataset :=
  match t with
  | Stage.RenameDimensions dimension_mapping =>
      RenameDimensions dimension_mapping dataset
  | Stage.DropZeroDimensions => DropZeroDimensions dataset
  | Stage.StandardizeSignalDataset source =>
      StandardizeSignalDataset source dataset
  | Stage.ASXTransform dimension_mapping => ASXTransform dimension_mapping dataset
  end.

(** [transform(x)] for a stage. A stage written for a dictionary that is
    given a dataset, or the converse, leaves what is modelled here. *)
Definition call (t : Stage.transform) (x : value) : outcome value :=
  match t, x with
  | Stage.MapDict f, Datasets datasets =>
      out <- MapDict (call_signal f) datasets ;; Ok (Datasets out)
  | Stage.DropDatasets keys, Datasets datasets =>
      out <- snd (DropDatasets keys datasets) ;; Ok (Datasets out)
  | Stage.MergeDatasets, Datasets datasets =>
      dataset <- MergeDatasets datasets ;; Ok (Merged dataset)
  | Stage.TensorizeChannels stem regex dim_name assign_coords, Merged dataset =>
      self <- TensorizeChannels_init stem regex dim_name assign_coords ;;
      dataset <- TensorizeChannels self dataset ;; Ok (Merged dataset)
  | _, _ => Unmodelled "a transform applied to a value of the other kind"
  end.

(** [Pipeline(transforms)(x)] for a list of stages. *)
Definition run (transforms : list Stage.transform) (x : value) : outcome value :=
  Pipeline (map call transforms) x.

(** [TensorizeChannels(stem, regex=..., dim_name=..., assign_coords=...)]. *)
Definition tensorize (stem : string) (regex : option pattern)
    (dim_name : option string) (assign_coords : bool) : Stage.transform :=
  Stage.TensorizeChannels stem regex dim_name assign_coords.

(** [self.pipelines], as [PipelineRegistry.__init__] builds it. *)
Definition PipelineRegistry_init (dimension_mapping : dict (dict string))
    : dict (list Stage.transform) :=
  [("abm",
     [Stage.MapDict (Stage.RenameDimensions dimension_mapping);
      Stage.MapDict Stage.DropZeroDimensions;
      Stage.MapDict (Stage.StandardizeSignalDataset "abm");
      Stage.MergeDatasets]);
   ("ada",
     [Stage.MapDict (Stage.RenameDimensions dimension_mapping);
      Stage.MapDict (Stage.StandardizeSignalDataset "ada");
      Stage.MergeDatasets]);
   ("aga",
     [Stage.MapDict (Stage.RenameDimensions dimension_mapping);
      Stage.MapDict (Stage.StandardizeSignalDataset "aga");
      Stage.MergeDatasets]);
   ("adg",
     [Stage.MapDict (Stage.StandardizeSignalDataset "adg");
      Stage.MergeDatasets]);
   ("ahx",
     [Stage.MapDict (Stage.StandardizeSignalDataset "ahx");
      Stage.MergeDatasets]);
   ("aim",
     [Stage.MapDict (Stage.StandardizeSignalDataset "aim");
      Stage.MergeDatasets]);
   ("air",
     [Stage.MapDict (Stage.StandardizeSignalDataset "air");
      Stage.MergeDatasets]);
   ("ait",
     [Stage.MapDict (Stage.StandardizeSignalDataset "ait");
      Stage.MergeDatasets]);
   ("alp",
     [Stage.MapDict Stage.DropZeroDimensions;
      Stage.MapDict (Stage.RenameDimensions dimension_mapping);
      Stage.MapDict (Stage.StandardizeSignalDataset "alp");
      Stage.MergeDatasets]);
   ("ama",
     [Stage.MapDict (Stage.StandardizeSignalDataset "ama");
      Stage.MergeDatasets]);
   ("amb",
     [Stage.MapDict (Stage.StandardizeSignalDataset "abm");
      Stage.MergeDatasets;
      tensorize "ccbv" None None true;
      tensorize "obr" None None true;
      tensorize "obv" None None true;
      tensorize "fl_cc" None None true;
      tensorize "fl_p" None None true]);
   ("amc",
     [Stage.MapDict (Stage.StandardizeSignalDataset "amc");
      Stage.MergeDatasets]);
   ("amh",
     [Stage.MapDict (Stage.StandardizeSignalDataset "amh");
      Stage.MergeDatasets]);
   ("amm",
     [Stage.MapDict (Stage.StandardizeSignalDataset "amm");
      Stage.MergeDatasets;
      tensorize "incon" None None true;
      tensorize "mid" None None true;
      tensorize "ring" None None true;
      tensorize "rodgr" None None true;
      tensorize "vertw" None None true;
      tensorize "lhorw" None None true;
      tensorize "uhorw" None None true]);
   ("ams",
     [Stage.MapDict (Stage.StandardizeSignalDataset "ams");
      Stage.MergeDatasets]);
   ("anb",
     [Stage.MapDict (Stage.StandardizeSignalDataset "amb");
      Stage.MergeDatasets]);
   ("ane",
     [Stage.MapDict (Stage.StandardizeSignalDataset "ane");
      Stage.MergeDatasets]);
   ("ant",
     [Stage.MapDict (Stage.StandardizeSignalDataset "ant");
      Stage.MergeDatasets]);
   ("anu",
     [Stage.MapDict (Stage.StandardizeSignalDataset "anu");
      Stage.MergeDatasets]);
   ("aoe",
     [Stage.MapDict (Stage.RenameDimensions dimension_mapping);
      Stage.MapDict (Stage.StandardizeSignalDataset "aoe");
      Stage.MergeDatasets]);
   ("arp",
     [Stage.MapDict (Stage.StandardizeSignalDataset "arp");
      Stage.MergeDatasets]);
   ("asb",
     [Stage.MapDict (Stage.StandardizeSignalDataset "asb");
      Stage.MergeDatasets]);
   ("asm",
     [Stage.MapDict (Stage.StandardizeSignalDataset "asm");
      Stage.MergeDatasets;
      tensorize "sad_m" None None true]);
   ("asx",
     [Stage.MapDict (Stage.ASXTransform dimension_mapping);
      Stage.MapDict (Stage.StandardizeSignalDataset "asx");
      Stage.MergeDatasets]);
   ("ayc",
     [Stage.MapDict (Stage.StandardizeSignalDataset "ayc");
      Stage.MergeDatasets]);
   ("aye",
     [Stage.MapDict (Stage.StandardizeSignalDataset "aye");
      Stage.MergeDatasets]);
   ("efm",
     [Stage.DropDatasets
        ["fcoil_n"; "fcoil_segs_n"; "limitern"; "magpr_n"; "silop_n"; "shot_number"];
      Stage.MapDict (Stage.RenameDimensions dimension_mapping);
      Stage.MapDict Stage.DropZeroDimensions;
      Stage.MapDict (Stage.StandardizeSignalDataset "efm");
      Stage.MergeDatasets]);
   ("esm",
     [Stage.MapDict (Stage.RenameDimensions dimension_mapping);
      Stage.MapDict Stage.DropZeroDimensions;
      Stage.MapDict (Stage.StandardizeSignalDataset "esm");
      Stage.MergeDatasets]);
   ("esx",
     [Stage.MapDict (Stage.StandardizeSignalDataset "esx");
      Stage.MergeDatasets]);
   ("xdc",
     [Stage.MapDict (Stage.StandardizeSignalDataset "xdc");
      Stage.MergeDatasets;
      tensorize "ai_cpu1_ccbv" None (Some "ai_ccbv_channel") false;
      tensorize "ai_cpu1_flcc" None (Some "ai_flcc_channel") false;
      tensorize "ai_cpu1_incon" None (Some "ai_incon_channel") false;
      tensorize "ai_cpu1_lhorw" None (Some "ai_lhorw_channel") false;
      tensorize "ai_cpu1_mid" None (Some "ai_mid_channel") false;
      tensorize "ai_cpu1_obr" None (Some "ai_obr_channel") false;
      tensorize "ai_cpu1_obv" None (Some "ai_obv_channel") false;
      tensorize "ai_cpu1_ring" None (Some "ai_ring_channel") false;
      tensorize "ai_cpu1_rodgr" None (Some "ai_rodgr_channel") false;
      tensorize "ai_cpu1_uhorw" None (Some "ai_uhorw_channel") false;
      tensorize "ai_cpu1_vertw" None (Some "ai_vertw_channel") false;
      tensorize "ai_cpu2_ccbv" None (Some "ai_ccbv_channel") false;
      tensorize "ai_cpu2_flcc" None (Some "ai_flcc_channel") false;
      tensorize "ai_cpu2_incon" None (Some "ai_incon_channel") false;
      tensorize "ai_cpu2_lhorw" None (Some "ai_lhorw_channel") false;
      tensorize "ai_cpu2_mid" None (Some "ai_mid_channel") false;
      tensorize "ai_cpu2_obr" None (Some "ai_obr_channel") false;
      tensorize "ai_cpu2_obv" None (Some "ai_obv_channel") false;
      tensorize "ai_cpu2_ring" None (Some "ai_ring_channel") false;
      tensorize "ai_cpu2_rodgr" None (Some "ai_rodgr_channel") false;
      tensorize "ai_cpu2_uhorw" None (Some "ai_uhorw_channel") false;
      tensorize "ai_cpu2_vertw" None (Some "ai_vertw_channel") false;
      tensorize "ai_cpu3_ccbv" None (Some "ai_ccbv_channel") false;
      tensorize "ai_cpu3_flcc" None (Some "ai_flcc_channel") false;
      tensorize "ai_cpu3_incon" None (Some "ai_incon_channel") false;
      tensorize "ai_cpu3_lhorw" None (Some "ai_lhorw_channel") false;
      tensorize "ai_cpu3_mid" None (Some "ai_mid_channel") false;
      tensorize "ai_cpu3_obr" None (Some "ai_obr_channel") false;
      tensorize "ai_cpu3_obv" None (Some "ai_obv_channel") false;
      tensorize "ai_cpu3_ring" None (Some "ai_ring_channel") false;
      tensorize "ai_cpu3_rodgr" None (Some "ai_rodgr_channel") false;
      tensorize "ai_cpu3_uhorw" None (Some "ai_uhorw_channel") false;
      tensorize "ai_cpu3_vertw" None (Some "ai_vertw_channel") false;
      tensorize "ai_cpu4_ccbv" None (Some "ai_ccbv_channel") false;
      tensorize "ai_cpu4_flcc" None (Some "ai_flcc_channel") false;
      tensorize "ai_cpu4_incon" None (Some "ai_incon_channel") false;
      tensorize "ai_cpu4_lhorw" None (Some "ai_lhorw_channel") false;
      tensorize "ai_cpu4_mid" None (Some "ai_mid_channel") false;
      tensorize "ai_cpu4_obr" None (Some "ai_obr_channel") false;
      tensorize "ai_cpu4_obv" None (Some "ai_obv_channel") false;
      tensorize "ai_cpu4_ring" None (Some "ai_ring_channel") false;
      tensorize "ai_cpu4_rodgr" None (Some "ai_rodgr_channel") false;
      tensorize "ai_cpu4_uhorw" None (Some "ai_uhorw_channel") false;
      tensorize "ai_cpu4_vertw" None (Some "ai_vertw_channel") false;
      tensorize "ai_raw_ccbv" None (Some "ai_ccbv") false;
      tensorize "ai_raw_flcc" None (Some "ai_flcc_channel") false;
      tensorize "ai_raw_obv" None (Some "ai_obv_channel") false;
      tensorize "ai_raw_obr" None (Some "ai_obr_channel") false;
      tensorize "equil_s_seg"
        (Some {| prefix := "equil_s_seg"; suffix := ""; anchored := true |})
        (Some "equil_seg_channel") false;
      tensorize "equil_s_seg_at"
        (Some {| prefix := "equil_s_seg"; suffix := "at"; anchored := true |})
        (Some "equil_seg_channel") false;
      tensorize "equil_s_seg_rt"
        (Some {| prefix := "equil_s_seg"; suffix := "rt"; anchored := true |})
        (Some "equil_seg_channel") false;
      tensorize "equil_s_seg_zt"
        (Some {| prefix := "equil_s_seg"; suffix := "zt"; anchored := true |})
        (Some "equil_seg_channel") false;
      tensorize "equil_s_segb" None (Some "equil_seg_channel") false;
      tensorize "equil_t_seg"
        (Some {| prefix := "equil_t_seg"; suffix := ""; anchored := true |})
        (Some "equil_seg_channel") false;
      tensorize "equil_t_seg_u"
        (Some {| prefix := "equil_t_seg"; suffix := "u"; anchored := true |})
        (Some "equil_seg_channel") false;
      tensorize "isoflux_e_seg" None None true;
      tensorize "isoflux_t_rpsh_n"
        (Some {| prefix := "isoflux_t_rpsh"; suffix := "n"; anchored := false |})
        None true;
      tensorize "isoflux_t_rpsh_p"
        (Some {| prefix := "isoflux_t_rpsh"; suffix := "p"; anchored := false |})
        None true;
      tensorize "isoflux_t_seg"
        (Some {| prefix := "isoflux_t_seg"; suffix := ""; anchored := true |})
        None true;
      tensorize "isoflux_t_seg_gd"
        (Some {| prefix := "isoflux_t_seg"; suffix := "gd"; anchored := true |})
        None true;
      tensorize "isoflux_t_seg_gi"
        (Some {| prefix := "isoflux_t_seg"; suffix := "gi"; anchored := true |})
        None true;
      tensorize "isoflux_t_seg_gp"
        (Some {| prefix := "isoflux_t_seg"; suffix := "gp"; anchored := true |})
        None true;
      tensorize "isoflux_t_seg_td"
        (Some {| prefix := "isoflux_t_seg"; suffix := "td"; anchored := true |})
        None true;
      tensorize "isoflux_t_seg_ti"
        (Some {| prefix := "isoflux_t_seg"; suffix := "ti"; anchored := true |})
        None true;
      tensorize "isoflux_t_seg_tp"
        (Some {| prefix := "isoflux_t_seg"; suffix := "tp"; anchored := true |})
        None true;
      tensorize "isoflux_t_seg_u"
        (Some {| prefix := "isoflux_t_seg"; suffix := "u"; anchored := true |})
        None true;
      tensorize "isoflux_t_zpsh_n"
        (Some {| prefix := "isoflux_t_zpsh"; suffix := "n"; anchored := false |})
        None true;
      tensorize "isoflux_t_zpsh_p"
        (Some {| prefix := "isoflux_t_zpsh"; suffix := "p"; anchored := false |})
        None true]);
   ("xpc",
     [Stage.MapDict (Stage.RenameDimensions dimension_mapping);
      Stage.MapDict (Stage.StandardizeSignalDataset "xpc");
      Stage.MergeDatasets]);
   ("xsx",
     [Stage.MapDict (Stage.StandardizeSignalDataset "xsx");
      Stage.MergeDatasets;
      tensorize "hcam_l"
        (Some {| prefix := "hcam_l_"; suffix := ""; anchored := false |})
        None true;
      tensorize "hcam_u"
        (Some {| prefix := "hcam_u_"; suffix := ""; anchored := false |})
        None true;
      tensorize "tcam"
        (Some {| prefix := "tcam_"; suffix := ""; anchored := false |})
        None true])].

(** [PipelineRegistry.get]. *)
Definition PipelineRegistry_get (pipelines : dict (list Stage.transform))
    (name : string) : outcome (list Stage.transform) :=
  match dict_get name pipelines with
  | Some pipeline => Ok pipeline
  | None => Raise (RuntimeError (name ++ " is not a registered source!")%string)
  end.

(** ** Notions used to state the properties *)

(** The values of [out] are the transforms of the values of [items], key
    by key. *)
Definition transformed {A B : Type} (transform : A -> outcome B)
    (items : dict A) (out : dict B) : Prop :=
  Forall2 (fun kd kv => fst kd = fst kv /\ transform (snd kd) = Ok (snd kv))
          items out.

Definition is_ok {A : Type} (m : outcome A) : bool :=
  match m with Ok _ => true | _ => false end.

(** The comparisons [sorted] may ask all return: no [int] meets a [str]. *)
Definition comparable (regex : pattern) (strings : list string) : bool :=
  forallb (fun a =>
    forallb (fun b => is_ok (key_lt (_parse_digits regex a) (_parse_digits regex b)))
            strings) strings.

(** The order that [<] computes where it is defined, made total by placing
    every integer before every string. *)
Definition fragment_cmp (a b : fragment) : comparison :=
  match a, b with
  | FInt x, FInt y => N.compare x y
  | FStr x, FStr y => String.compare x y
  | FInt _, FStr _ => Lt
  | FStr _, FInt _ => Gt
  end.

Fixpoint key_cmp (a b : list fragment) : comparison :=
  match a, b with
  | [], [] => Eq
  | [], _ :: _ => Lt
  | _ :: _, [] => Gt
  | x :: a', y :: b' =>
      match fragment_cmp x y with
      | Eq => key_cmp a' b'
      | c => c
      end
  end.

(** [a == b] on keys. *)
Definition key_eqb (a b : list fragment) : bool := list_eqb fragment_eqb a b.

(** The data variables whose name the pattern matches, in dataset order. *)
Definition matching_names (self : Tensorizer) (dataset : Dataset) : list string :=
  filter (re_search (regex self)) (dict_keys (data_vars dataset)).

(** Sortedness by a key and a three-way comparison of keys. *)
Definition le_by {A K : Type} (key : A -> K) (cmp : K -> K -> comparison)
    (x y : A) : Prop :=
  cmp (key x) (key y) <> Gt.

Definition lt_by {A K : Type} (key : A -> K) (cmp : K -> K -> comparison)
    (x y : A) : Prop :=
  cmp (key x) (key y) = Lt.

Definition has_key {A K : Type} (key : A -> K) (cmp : K -> K -> comparison)
    (k : K) (x : A) : bool :=
  match cmp (key x) k with Eq => true | _ => false end.

(** [b] does not sort before [a]. *)
Definition not_before (regex : pattern) (a b : string) : Prop :=
  key_lt (_parse_digits regex b) (_parse_digits regex a) = Ok false.

(** The names of the coordinates whose values are all zero. *)
Definition zero_names (items : dict Var) : list string :=
  dict_keys (filter (fun kc => all_zero (snd kc)) items).

(** [key] is neither a variable nor a dimension of the dataset. *)
Definition absent (key : string) (ds : Dataset) : bool :=
  negb (dict_mem key (variables ds)) && negb (mem key (dims_of ds)).

(** All the variables of a list of datasets, in order. *)
Definition all_variables (objects : list Dataset) : dict Var :=
  flat_map variables objects.



(** Some dimension of the datasets is also the name of a data variable or
    of a scalar variable. *)
Definition axis_name_clash (objects : list Dataset) : bool :=
  existsb (fun dn =>
             mem (fst dn) (flat_map (fun ds => dict_keys (data_vars ds)) objects)
             || mem (fst dn)
                    (dict_keys (filter is_scalar_var (all_variables objects))))
          (dim_pairs (all_variables objects)).

(** The invariant of a dataset, as propositions. *)
Definition Inv (ds : Dataset) : Prop :=
  NoDup (dict_keys (variables ds))
  /\ returns (calculate_dimensions (variables ds))
  /\ (forall c, In c (coord_names ds) -> In c (dict_keys (variables ds)))
  /\ (forall d, In d (dims_of ds) -> In d (dict_keys (variables ds)) ->
        In d (coord_names ds)).

(** The axes of the variable called [key]. *)
Definition channel_axes (ds : Dataset) (key : string) : list (string * nat) :=
  match dict_get key (variables ds) with
  | Some v => axes v
  | None => []
  end.

(** The matching variables all have the axes of the first of them. *)
Definition share_axes (self : Tensorizer) (ds : Dataset) : bool :=
  match matching_names self ds with
  | [] => true
  | k0 :: rest =>
      forallb (fun k => list_eqb axis_eqb (channel_axes ds k0) (channel_axes ds k))
              rest
  end.

(** [dim_name] is a new axis, and [stem] a name free to hold the result:
    neither a channel, nor a coordinate, nor a dimension. *)
Definition fresh_names (self : Tensorizer) (ds : Dataset) : bool :=
  negb (mem (dim_name self) (dims_of ds))
  && negb (dict_mem (dim_name self) (variables ds))
  && negb (String.eqb (stem self) (dim_name self))
  && negb (mem (stem self) (matching_names self ds))
  && negb (mem (stem self) (coord_names ds))
  && negb (mem (stem self) (dims_of ds)).

(** The pattern matches at least one data variable. *)
Definition has_channels (self : Tensorizer) (ds : Dataset) : bool :=
  match matching_names self ds with [] => false | _ => true end.

(** The variable called [key], as [dataset[key]] returns it. *)
Definition channel_var (ds : Dataset) (key : string) : Var :=
  match dict_get key (variables ds) with
  | Some v => v
  | None => virtual_index key 0
  end.

Definition channel_da (ds : Dataset) (key : string) : DataArray :=
  {| da_var := channel_var ds key;
     da_coords := coords_on ds (channel_var ds key) |}.

(** [stem] is a name free to hold the result: it is not [dim_name], and
    neither a channel, nor a coordinate, nor a dimension. *)
Definition free_stem (self : Tensorizer) (ds : Dataset) : bool :=
  negb (String.eqb (stem self) (dim_name self))
  && negb (mem (stem self) (matching_names self ds))
  && negb (mem (stem self) (coord_names ds))
  && negb (mem (stem self) (dims_of ds)).

(** [dim_name] can be the axis of the stack: it is not a data variable, and
    neither an axis nor a coordinate of the channels; a dimension of that
    name, if the dataset has one, is as long as there are channels; and
    where the channel names are to become its coordinate, no variable has
    the name yet. *)
Definition fitting_axis (self : Tensorizer) (ds : Dataset) : bool :=
  negb (dict_mem (dim_name self) (data_vars ds))
  && negb (mem (dim_name self)
             (var_dims (channel_var ds (hd EmptyString (matching_names self ds)))))
  && negb (dict_mem (dim_name self)
             (coords_on ds
                (channel_var ds (hd EmptyString (matching_names self ds)))))
  && match dict_get (dim_name self) (sizes ds) with
     | Some n => Nat.eqb n (List.length (matching_names self ds))
     | None => true
     end
  && negb (assign_coords self && dict_mem (dim_name self) (variables ds)).

(** The fused variable: the channels of [group_keys] stacked in order. *)
Definition stacked_var (ds : Dataset) (dim : string) (group_keys : list string)
    : Var :=
  {| axes := (dim, List.length group_keys)
             :: channel_axes ds (hd EmptyString group_keys);
     values := flat_map (fun key => values (channel_var ds key)) group_keys;
     var_attrs := [] |}.

(** What holds of a dataset [x] obtained from [ds] by storing the fused
    variable [sv] under [stem], possibly with a coordinate on [dim]. *)
Definition stored (ds : Dataset) (stem dim : string) (sv : Var) (x : Dataset)
    : Prop :=
  Inv x
  /\ dict_get stem (variables x) = Some sv
  /\ (forall c, In c (coord_names x) -> In c (coord_names ds) \/ c = dim)
  /\ (forall d, In d (dims_of x) -> In d (var_dims sv) \/ In d (dims_of ds))
  /\ (forall k v, In (k, v) (variables ds) -> k <> stem ->
        dict_get k (variables x) = Some v)
  /\ (forall k, In k (dict_keys (variables x)) ->
        k = stem \/ k = dim \/ In k (dict_keys (variables ds))).

(** ** Example datasets *)

Definition x_digits : pattern :=
  {| prefix := "x"; suffix := ""; anchored := false |}.

Definition mkvar (ax : list (string * nat)) (vals : list Z) : Var :=
  {| axes := ax; values := map Num vals; var_attrs := [] |}.

(** Three channels [x2], [x10], [x1] over a time axis. *)
Definition three_channels : Dataset :=
  {| variables :=
       [("t", mkvar [("t", 2%nat)] [0; 1]%Z);
        ("x2", mkvar [("t", 2%nat)] [3; 4]%Z);
        ("x10", mkvar [("t", 2%nat)] [5; 6]%Z);
        ("x1", mkvar [("t", 2%nat)] [7; 8]%Z);
        ("other", mkvar [] [9]%Z)];
     coord_names := ["t"];
     attrs := [("name", AStr "amb")] |}.

(** Two channels, one of which has a purely numeric text before the match. *)
Definition mixed_channels : Dataset :=
  {| variables :=
       [("1x2", mkvar [("t", 2%nat)] [3; 4]%Z);
        ("x3", mkvar [("t", 2%nat)] [5; 6]%Z)];
     coord_names := [];
     attrs := [] |}.

(** A data variable on an axis whose coordinate is all zero. *)
Definition zero_axis : Dataset :=
  {| variables :=
       [("x", mkvar [("x", 2%nat)] [0; 0]%Z);
        ("data", mkvar [("x", 2%nat)] [3; 4]%Z)];
     coord_names := ["x"];
     attrs := [("name", AStr "foo")] |}.

(** A signal [foo] over an axis [dim_0] that the table renames to [time]. *)
Definition dim_names : dict (dict string) := [("foo", [("dim_0", "time")])].

Definition raw_signal : Dataset :=
  {| variables :=
       [("dim_0", mkvar [("dim_0", 3%nat)] [0; 1; 2]%Z);
        ("data", mkvar [("dim_0", 3%nat)] [5; 6; 7]%Z);
        ("error", mkvar [("dim_0", 3%nat)] [0; 0; 0]%Z)];
     coord_names := ["dim_0"];
     attrs := [("name", AStr "foo")] |}.

(** A signal the table does not mention, with an axis of extent 1. *)
Definition unmapped_signal : Dataset :=
  {| variables :=
       [("data", mkvar [("time", 1%nat); ("x", 3%nat)] [5; 6; 7]%Z)];
     coord_names := [];
     attrs := [("name", AStr "bar")] |}.

(** What RenameDimensions returns on [raw_signal]. *)
Definition renamed_signal : Dataset :=
  {| variables :=
       [("time", mkvar [("time", 3%nat)] [0; 1; 2]%Z);
        ("data", mkvar [("time", 3%nat)] [5; 6; 7]%Z);
        ("error", mkvar [("time", 3%nat)] [0; 0; 0]%Z)];
     coord_names := ["time"];
     attrs := [("name", AStr "foo"); ("dims", AList ["time"])] |}.

(** A signal called [time] whose error is not zero. *)
Definition time_signal : Dataset :=
  {| variables :=
       [("data", mkvar [("dim_0", 2%nat)] [10; 20]%Z);
        ("error", mkvar [("dim_0", 2%nat)] [1; 1]%Z)];
     coord_names := [];
     attrs := [("name", AStr "time")] |}.

(** The same signal with an all-zero error. *)
Definition time_signal_zero_error : Dataset :=
  {| variables :=
       [("data", mkvar [("dim_0", 2%nat)] [10; 20]%Z);
        ("error", mkvar [("dim_0", 2%nat)] [0; 0]%Z)];
     coord_names := [];
     attrs := [("name", AStr "time")] |}.

(** The same signal over a [time] axis that has a coordinate. *)
Definition time_signal_on_time : Dataset :=
  {| variables :=
       [("time", mkvar [("time", 2%nat)] [0; 1]%Z);
        ("data", mkvar [("time", 2%nat)] [10; 20]%Z);
        ("error", mkvar [("time", 2%nat)] [1; 1]%Z)];
     coord_names := ["time"];
     attrs := [("name", AStr "time")] |}.

(** A signal with a [data] variable and no [error] variable. *)
Definition data_only : Dataset :=
  {| variables := [("data", mkvar [("dim_0", 2%nat)] [10; 20]%Z)];
     coord_names := [];
     attrs := [("name", AStr "ip")] |}.

(** Two signals with different variables over a shared time axis. *)
Definition signal_a : Dataset :=
  {| variables := [("ip", {| axes := [("time", 2%nat)];
                             values := [Num 1; Num 2];
                             var_attrs := [("name", AStr "amc/ip")] |})];
     coord_names := [];
     attrs := [("name", AStr "amc/ip")] |}.

Definition signal_b : Dataset :=
  {| variables := [("vloop", {| axes := [("time", 2%nat)];
                                values := [Num 3; Num 4];
                                var_attrs := [("name", AStr "amc/vloop")] |})];
     coord_names := [];
     attrs := [("name", AStr "amc/vloop")] |}.



(** Two channels [b1], [b2] beside a variable on an axis [ch] of extent 3. *)
Definition reused_axis : Dataset :=
  {| variables :=
       [("a", mkvar [("ch", 3%nat)] [1; 2; 3]%Z);
        ("b1", mkvar [("t", 2%nat)] [4; 5]%Z);
        ("b2", mkvar [("t", 2%nat)] [6; 7]%Z)];
     coord_names := [];
     attrs := [] |}.

(** Two channels [b1], [b2] beside a variable that already has an axis
    [ch] of extent 2, as a tensorizer with the same axis name leaves it. *)
Definition shared_axis : Dataset :=
  {| variables :=
       [("t", mkvar [("t", 2%nat)] [0; 1]%Z);
        ("a", mkvar [("ch", 2%nat); ("t", 2%nat)] [1; 2; 3; 4]%Z);
        ("b1", mkvar [("t", 2%nat)] [5; 6]%Z);
        ("b2", mkvar [("t", 2%nat)] [7; 8]%Z)];
     coord_names := ["t"];
     attrs := [] |}.

(** ** Notions used to state the further properties *)

(** What a call returned, if it returned. *)
Definition returned {A : Type} (m : outcome A) : option A :=
  match m with Ok a => Some a | _ => None end.

(** The values and attributes of the variables, in order. *)
Definition payload (vars : dict Var) : list (list scalar * dict attr) :=
  map (fun kv => (values (snd kv), var_attrs (snd kv))) vars.

(** The new names StandardizeSignalDataset gives when the error is kept. *)
Definition error_names (name : string) : dict string :=
  [("data", name); ("error", (name ++ "_" ++ "error")%string)].

(** The new name of [data] when the error has been dropped. *)
Definition data_name (name : string) : string :=
  if String.eqb name "time" then (name ++ "_")%string else name.

(** Every variable has the axes and the values of the first variable of
    its name. *)
Definition agree_on_shared (vars : dict Var) : bool :=
  forallb (fun kv => match dict_get (fst kv) vars with
                     | Some first => var_same first (snd kv)
                     | None => false
                     end) vars.

(** The same, as a proposition. *)
Definition coherent (l : dict Var) : Prop :=
  forall k v first, In (k, v) l -> dict_get k l = Some first ->
    var_same first v = true.

(** Some name is a coordinate of one dataset and a data variable of
    another. *)
Definition coordinate_as_data (objects : list Dataset) : bool :=
  existsb (fun c => mem c (flat_map (fun ds => dict_keys (data_vars ds)) objects))
          (flat_map (fun ds => dict_keys (coords ds)) objects).

(** The name of the channel with number [digits] under a pattern. *)
Definition channel_name (regex : pattern) (digits : string) : string :=
  (prefix regex ++ digits ++ suffix regex)%string.

Definition starts_with_digit (s : string) : bool :=
  match s with
  | EmptyString => false
  | String c _ => is_digit c
  end.

(** Whether a value is a single dataset, whether a stage is written for
    one, and whether it returns one. *)
Definition is_merged (x : value) : bool :=
  match x with Merged _ => true | Datasets _ => false end.

Definition takes_merged (t : Stage.transform) : bool :=
  match t with Stage.TensorizeChannels _ _ _ _ => true | _ => false end.

Definition gives_merged (t : Stage.transform) : bool :=
  match t with
  | Stage.MergeDatasets | Stage.TensorizeChannels _ _ _ _ => true
  | _ => false
  end.

(** The stages fit together from a value of the given kind on; the kind of
    what the last one returns. *)
Fixpoint well_staged (merged : bool) (transforms : list Stage.transform)
    : option bool :=
  match transforms with
  | [] => Some merged
  | t :: rest =>
      if Bool.eqb (takes_merged t) merged
      then well_staged (gives_merged t) rest
      else None
  end.

(** The sources under which the stages of a pipeline standardise, and its
    tensorizers, as their constructor builds them. *)
Definition sources (transforms : list Stage.transform) : list string :=
  flat_map (fun t => match t with
                     | Stage.MapDict (Stage.StandardizeSignalDataset source) => [source]
                     | _ => []
                     end) transforms.

Definition tensorizers (transforms : list Stage.transform) : list Tensorizer :=
  flat_map (fun t => match t with
                     | Stage.TensorizeChannels stem regex dim_name assign_coords =>
                         match TensorizeChannels_init stem regex dim_name
                                 assign_coords with
                         | Ok self => [self]
                         | _ => []
                         end
                     | _ => []
                     end) transforms.

(** The source a registered name standardises under. *)
Definition source_of (name : string) : string :=
  if String.eqb name "amb" then "abm"
  else if String.eqb name "anb" then "amb"
  else name.

(** No tensorizer of the pipeline has a pattern that matches the stem or
    the axis name of a tensorizer of the pipeline, and no pattern has a
    suffix that starts with a digit. *)
Definition outputs_spared (transforms : list Stage.transform) : bool :=
  forallb (fun self =>
             negb (starts_with_digit (suffix (regex self)))
             && forallb (fun other =>
                           negb (re_search (regex self) (stem other))
                           && negb (re_search (regex self) (dim_name other)))
                        (tensorizers transforms))
          (tensorizers transforms).

(** The dataset without variables. *)
Definition empty_dataset : Dataset :=
  {| variables := []; coord_names := []; attrs := [] |}.

(** A signal as the pipelines receive it: a name, and values and errors
    sampled at the time points of a coordinate [time]. *)
Record Signal : Type := {
  signal_name : string;
  signal_data : list scalar;
  signal_error : list scalar
}.

(** A variable over the axis [time]. *)
Definition on_time (time values : list scalar) (var_attrs : dict attr) : Var :=
  {| axes := [("time", List.length time)];
     values := values;
     var_attrs := var_attrs |}.

Definition signal_dataset (time : list scalar) (s : Signal) : Dataset :=
  {| variables := [("time", on_time time time []);
                   ("data", on_time time (signal_data s) []);
                   ("error", on_time time (signal_error s) [])];
     coord_names := ["time"];
     attrs := [("name", AStr (signal_name s))] |}.

(** The variables a signal contributes to the merged dataset: its data
    under its name and, unless it is all zero, its error. *)
Definition signal_vars (source : string) (time : list scalar) (s : Signal)
    : dict Var :=
  (signal_name s,
   on_time time (signal_data s)
     [("name", AStr (source ++ "/" ++ signal_name s)%string)])
  :: (if forallb (fun x => scalar_eqb x (Num 0)) (signal_error s)
      then []
      else [((signal_name s ++ "_" ++ "error")%string,
             on_time time (signal_error s) [])]).

(** The names the signals may claim in the merged dataset. *)
Definition claimed_names (signals : dict Signal) : list string :=
  flat_map (fun ks => [signal_name (snd ks);
                       (signal_name (snd ks) ++ "_" ++ "error")%string])
           signals.

(** ** Further example datasets *)

(** A signal [foo] with a single sample: its axis [dim_0] has extent 1. *)
Definition single_sample : Dataset :=
  {| variables :=
       [("dim_0", mkvar [("dim_0", 1%nat)] [0]%Z);
        ("data", mkvar [("dim_0", 1%nat)] [5]%Z);
        ("error", mkvar [("dim_0", 1%nat)] [0]%Z)];
     coord_names := ["dim_0"];
     attrs := [("name", AStr "foo")] |}.

(** A signal over a time axis with a coordinate, with an error. *)
Definition ip_signal : Dataset :=
  {| variables :=
       [("time", mkvar [("time", 2%nat)] [0; 1]%Z);
        ("data", {| axes := [("time", 2%nat)]; values := [Num 10; Num 20];
                    var_attrs := [("units", AStr "A")] |});
        ("error", mkvar [("time", 2%nat)] [1; 1]%Z)];
     coord_names := ["time"];
     attrs := [("name", AStr "ip"); ("units", AStr "A")] |}.

(** The same signal with an all-zero error. *)
Definition ip_signal_zero_error : Dataset :=
  {| variables :=
       [("time", mkvar [("time", 2%nat)] [0; 1]%Z);
        ("data", mkvar [("time", 2%nat)] [10; 20]%Z);
        ("error", mkvar [("time", 2%nat)] [0; 0]%Z)];
     coord_names := ["time"];
     attrs := [("name", AStr "ip")] |}.

(** Two signals that share their time coordinate. *)
Definition ip_on_time : Dataset :=
  {| variables :=
       [("time", mkvar [("time", 2%nat)] [0; 1]%Z);
        ("ip", {| axes := [("time", 2%nat)]; values := [Num 1; Num 2];
                  var_attrs := [("name", AStr "amc/ip")] |})];
     coord_names := ["time"];
     attrs := [("name", AStr "amc/ip")] |}.

Definition vloop_on_time : Dataset :=
  {| variables :=
       [("time", mkvar [("time", 2%nat)] [0; 1]%Z);
        ("vloop", {| axes := [("time", 2%nat)]; values := [Num 3; Num 4];
                     var_attrs := [("name", AStr "amc/vloop")] |})];
     coord_names := ["time"];
     attrs := [("name", AStr "amc/vloop")] |}.

(** A signal with three samples over an axis [time] without coordinate. *)
Definition signal_c : Dataset :=
  {| variables := [("te", mkvar [("time", 3%nat)] [5; 6; 7]%Z)];
     coord_names := [];
     attrs := [("name", AStr "amc/te")] |}.

(** [raw_signal] after [rename_dims] with the entry of [dim_names]: the
    axis is called [time], and no variable is. *)
Definition raw_renamed : Dataset :=
  {| variables :=
       [("dim_0", mkvar [("time", 3%nat)] [0; 1; 2]%Z);
        ("data", mkvar [("time", 3%nat)] [5; 6; 7]%Z);
        ("error", mkvar [("time", 3%nat)] [0; 0; 0]%Z)];
     coord_names := ["dim_0"];
     attrs := [("name", AStr "foo")] |}.

(** A table that renames the axis [time] of the signal [asx], and a
    signal whose time points are the measurements. *)
Definition asx_names : dict (dict string) := [("asx", [("time", "major_radius")])].

Definition asx_signal : Dataset :=
  {| variables :=
       [("time", mkvar [("time", 3%nat)] [11; 12; 13]%Z);
        ("data", mkvar [("time", 3%nat)] [0; 0; 0]%Z);
        ("error", mkvar [("time", 3%nat)] [0; 0; 0]%Z)];
     coord_names := ["time"];
     attrs := [("name", AStr "asx")] |}.

(** What [rename_dims] makes of it. *)
Definition asx_renamed : Dataset :=
  {| variables :=
       [("time", mkvar [("major_radius", 3%nat)] [11; 12; 13]%Z);
        ("data", mkvar [("major_radius", 3%nat)] [0; 0; 0]%Z);
        ("error", mkvar [("major_radius", 3%nat)] [0; 0; 0]%Z)];
     coord_names := ["time"];
     attrs := [("name", AStr "asx")] |}.

(** Two signals over one time base: the error of the first is all zero. *)
Definition two_signals : dict Signal :=
  [("ip", {| signal_name := "ip"; signal_data := [Num 5; Num 6];
             signal_error := [Num 0; Num 0] |});
   ("vloop", {| signal_name := "vloop"; signal_data := [Num 7; Num 8];
                signal_error := [Num 1; Num 0] |})].

(** * Properties *)

(** ** Outcomes, strings, dictionaries *)

Lemma bind_Ok {A B : Type} (m : outcome A) (k : A -> outcome B) (b : B) :
  bind m k = Ok b -> exists a, m = Ok a /\ k a = Ok b.
Proof. destruct m; simpl; intro H; try discriminate. eauto. Qed.






Lemma mem_In (k : string) (l : list string) : mem k l = true <-> In k l.
Proof.
  induction l as [|x l IH]; simpl.
  - split; [discriminate | tauto].
  - rewrite orb_true_iff, IH, String.eqb_eq. split; intros [H|H]; auto.
Qed.

Lemma mem_false (k : string) (l : list string) : mem k l = false <-> ~ In k l.
Proof.
  rewrite <- mem_In. destruct (mem k l); split; congruence.
Qed.

Lemma mem_app (k : string) (l1 l2 : list string) :
  mem k (l1 ++ l2) = mem k l1 || mem k l2.
Proof.
  induction l1 as [|x l1 IH]; simpl; [reflexivity|].
  rewrite IH, orb_assoc. reflexivity.
Qed.

Lemma unique_keys_NoDup (l : list string) : unique_keys l = true <-> NoDup l.
Proof.
  induction l as [|x l IH]; simpl.
  - split; [constructor | reflexivity].
  - rewrite andb_true_iff, negb_true_iff, mem_false, IH.
    split; [intros [H1 H2]; constructor; assumption
           | intro H; inversion H; subst; tauto].
Qed.

Section DictFacts.
Context {V : Type}.
Implicit Types (d : dict V) (k : string) (v : V).

Lemma dict_get_In k v d : dict_get k d = Some v -> In (k, v) d.
Proof.
  induction d as [|[k' v'] d IH]; simpl; [discriminate|].
  destruct (String.eqb_spec k k') as [->|Hne].
  - intros [= ->]. now left.
  - intro H. right. auto.
Qed.

Lemma dict_get_None k d : dict_get k d = None <-> ~ In k (dict_keys d).
Proof.
  induction d as [|[k' v'] d IH]; simpl; [tauto|].
  destruct (String.eqb_spec k k') as [->|Hne].
  - split; [discriminate | intro H; exfalso; apply H; now left].
  - rewrite IH. split; intros H; [intros [E|E]; [congruence | tauto] | tauto].
Qed.

Lemma dict_mem_keys k d : dict_mem k d = mem k (dict_keys d).
Proof.
  unfold dict_mem. induction d as [|[k' v'] d IH]; simpl; [reflexivity|].
  destruct (String.eqb k k'); simpl; [reflexivity | exact IH].
Qed.

Lemma In_dict_get k v d :
  NoDup (dict_keys d) -> In (k, v) d -> dict_get k d = Some v.
Proof.
  induction d as [|[k' v'] d IH]; simpl; [tauto|].
  intros Hnd [E|Hin]; inversion Hnd as [|? ? Hnotin Hnd']; subst.
  - inversion E; subst. now rewrite String.eqb_refl.
  - destruct (String.eqb_spec k k') as [->|Hne]; [|auto].
    exfalso. apply Hnotin. apply (in_map fst) in Hin. exact Hin.
Qed.

Lemma dict_set_fresh k v d :
  mem k (dict_keys d) = false -> dict_set k v d = d ++ [(k, v)].
Proof.
  induction d as [|[k' v'] d IH]; simpl; [reflexivity|].
  rewrite orb_false_iff. intros [H1 H2]. rewrite H1, IH by assumption.
  reflexivity.
Qed.

Lemma dict_get_app k d1 d2 :
  dict_get k (d1 ++ d2) =
  match dict_get k d1 with Some v => Some v | None => dict_get k d2 end.
Proof.
  induction d1 as [|[k' v'] d1 IH]; simpl; [reflexivity|].
  destruct (String.eqb k k'); [reflexivity | exact IH].
Qed.
End DictFacts.

(** ** MapDict *)

Section MapDictFacts.
Context {A B : Type}.
Variable transform : A -> outcome B.

Lemma transformed_keys items out :
  transformed transform items out -> dict_keys out = dict_keys items.
Proof.
  induction 1 as [|[k d] [k' v] items out [Hk _] _ IH]; simpl in *;
    [reflexivity | congruence].
Qed.

Lemma MapDict_loop_ok (items : dict A) : forall out calls,
  unique_keys (dict_keys out ++ dict_keys items) = true ->
  (forall k d, In (k, d) items -> returns (transform d)) ->
  exists res, transformed transform items res /\
    MapDict_loop transform items out calls
    = (calls ++ dict_keys items, Ok (out ++ res)).
Proof.
  induction items as [|[k d] items IH]; intros out calls Hu Hok; simpl.
  - exists []. split; [constructor | now rewrite !app_nil_r].
  - destruct (Hok k d (or_introl eq_refl)) as [v Hv]. rewrite Hv.
    assert (Hfresh : mem k (dict_keys out) = false).
    { apply unique_keys_NoDup in Hu. apply mem_false. intro Hin.
      apply NoDup_remove_2 in Hu. apply Hu. apply in_or_app. now left. }
    rewrite (dict_set_fresh _ _ _ Hfresh).
    destruct (IH (out ++ [(k, v)]) (calls ++ [k])) as (res & Hres & Heq).
    + unfold dict_keys in *. rewrite map_app, <- app_assoc. exact Hu.
    + intros k' d' Hin. apply (Hok k' d'). now right.
    + exists ((k, v) :: res). split.
      * constructor; [split; [reflexivity | exact Hv] | exact Hres].
      * rewrite Heq, <- !app_assoc. reflexivity.
Qed.

End MapDictFacts.


(** C8. When the transform returns on every entry, MapDict returns a
    collection with exactly the keys of the input (in the same order), and
    the value under each key is the transform of the input dataset under
    that key. *)
Theorem MapDict_preserves_keys :
  forall (A B : Type) (transform : A -> outcome B) (datasets : dict A),
    unique_keys (dict_keys datasets) = true ->
    (forall k d, In (k, d) datasets -> returns (transform d)) ->
    exists out,
      MapDict transform datasets = Ok out
      /\ dict_keys out = dict_keys datasets
      /\ (forall k d, dict_get k datasets = Some d ->
            exists v, transform d = Ok v /\ dict_get k out = Some v)
      /\ (forall k v, dict_get k out = Some v ->
            exists d, dict_get k datasets = Some d /\ transform d = Ok v).
Proof.
  intros A B transform datasets Hu Hok.
  destruct (MapDict_loop_ok transform datasets [] [] Hu Hok) as (res & Hres & Heq).
  exists res. unfold MapDict. rewrite Heq. simpl.
  split; [reflexivity|]. split; [exact (transformed_keys transform _ _ Hres)|].
  clear Heq Hu Hok. split.
  - induction Hres as [|[k0 d0] [k1 v1] items out [Hk Hv] _ IH]; simpl in *;
      intros k d Hget; [discriminate|]. subst k1.
    destruct (String.eqb k k0); [inversion Hget; subst; eauto | auto].
  - induction Hres as [|[k0 d0] [k1 v1] items out [Hk Hv] _ IH]; simpl in *;
      intros k v Hget; [discriminate|]. subst k1.
    destruct (String.eqb k k0); [inversion Hget; subst; eauto | auto].
Qed.



Lemma MapDict_preserves_keys_witness :
  exists out,
    MapDict (StandardizeSignalDataset "src")
      [("a", time_signal); ("b", time_signal_zero_error)] = Ok out
    /\ dict_keys out = dict_keys [("a", time_signal); ("b", time_signal_zero_error)]
    /\ (forall k d,
          dict_get k [("a", time_signal); ("b", time_signal_zero_error)] = Some d ->
          exists v, StandardizeSignalDataset "src" d = Ok v
                    /\ dict_get k out = Some v)
    /\ (forall k v,
          dict_get k out = Some v ->
          exists d,
            dict_get k [("a", time_signal); ("b", time_signal_zero_error)] = Some d
            /\ StandardizeSignalDataset "src" d = Ok v).
Proof.
  apply (MapDict_preserves_keys Dataset Dataset (StandardizeSignalDataset "src")
           [("a", time_signal); ("b", time_signal_zero_error)]).
  - reflexivity.
  - intros k d [H|[H|[]]]; inversion H; subst; eexists; reflexivity.
Defined.

(** ** The order of the sort keys *)

Lemma string_compare_refl (s : string) : String.compare s s = Eq.
Proof.
  induction s as [|a s IH]; simpl; [reflexivity|].
  unfold Ascii.compare. now rewrite N.compare_refl.
Qed.

Lemma ascii_compare_trans (a b c : ascii) :
  Ascii.compare a b = Lt -> Ascii.compare b c = Lt -> Ascii.compare a c = Lt.
Proof.
  unfold Ascii.compare. rewrite !N.compare_lt_iff. apply N.lt_trans.
Qed.

Lemma ascii_compare_eq (a b : ascii) : Ascii.compare a b = Eq -> a = b.
Proof.
  unfold Ascii.compare. rewrite N.compare_eq_iff. intro H.
  rewrite <- (ascii_N_embedding a), <- (ascii_N_embedding b). now f_equal.
Qed.

Lemma string_compare_trans (a : string) : forall b c,
  String.compare a b = Lt -> String.compare b c = Lt -> String.compare a c = Lt.
Proof.
  induction a as [|x a IH]; intros [|y b] [|z c]; simpl; try congruence.
  destruct (Ascii.compare x y) eqn:Exy; try discriminate;
    destruct (Ascii.compare y z) eqn:Eyz; try discriminate; intros H1 H2.
  - apply ascii_compare_eq in Exy, Eyz. subst.
    replace (Ascii.compare z z) with Eq
      by (symmetry; unfold Ascii.compare; apply N.compare_refl).
    eauto.
  - apply ascii_compare_eq in Exy. subst. now rewrite Eyz.
  - apply ascii_compare_eq in Eyz. subst. now rewrite Exy.
  - now rewrite (ascii_compare_trans x y z).
Qed.

Lemma fragment_eqb_eq (a b : fragment) : fragment_eqb a b = true <-> a = b.
Proof.
  destruct a, b; simpl; try (split; congruence).
  - rewrite N.eqb_eq. split; congruence.
  - rewrite String.eqb_eq. split; congruence.
Qed.

Lemma fragment_cmp_eq (a b : fragment) : fragment_cmp a b = Eq <-> a = b.
Proof.
  destruct a, b; simpl; try (split; congruence).
  - rewrite N.compare_eq_iff. split; congruence.
  - split; [intro H; f_equal; now apply String.compare_eq_iff|].
    intros [= ->]. apply string_compare_refl.
Qed.

Lemma fragment_cmp_antisym (a b : fragment) :
  fragment_cmp b a = CompOpp (fragment_cmp a b).
Proof.
  destruct a, b; simpl; try reflexivity.
  - apply N.compare_antisym.
  - apply String.compare_antisym.
Qed.

Lemma fragment_cmp_trans (a b c : fragment) :
  fragment_cmp a b = Lt -> fragment_cmp b c = Lt -> fragment_cmp a c = Lt.
Proof.
  destruct a, b, c; simpl; try congruence.
  - rewrite !N.compare_lt_iff. apply N.lt_trans.
  - apply string_compare_trans.
Qed.

Lemma fragment_lt_cmp (a b : fragment) (r : bool) :
  fragment_lt a b = Ok r -> (r = true <-> fragment_cmp a b = Lt).
Proof.
  destruct a, b; simpl; intros [= <-].
  - rewrite N.ltb_lt, N.compare_lt_iff. reflexivity.
  - unfold String.ltb. destruct (String.compare s s0); split; congruence.
Qed.

Lemma key_cmp_eq (a : list fragment) : forall b, key_cmp a b = Eq <-> a = b.
Proof.
  induction a as [|x a IH]; intros [|y b]; simpl; try (split; congruence).
  destruct (fragment_cmp x y) eqn:E.
  - apply fragment_cmp_eq in E. subst. rewrite IH. split; congruence.
  - split; [discriminate|]. intros [= -> _].
    rewrite (proj2 (fragment_cmp_eq y y) eq_refl) in E. discriminate.
  - split; [discriminate|]. intros [= -> _].
    rewrite (proj2 (fragment_cmp_eq y y) eq_refl) in E. discriminate.
Qed.

Lemma key_cmp_antisym (a : list fragment) : forall b,
  key_cmp b a = CompOpp (key_cmp a b).
Proof.
  induction a as [|x a IH]; intros [|y b]; simpl; try reflexivity.
  rewrite (fragment_cmp_antisym x y).
  destruct (fragment_cmp x y); simpl; auto.
Qed.

Lemma key_cmp_trans (a : list fragment) : forall b c,
  key_cmp a b = Lt -> key_cmp b c = Lt -> key_cmp a c = Lt.
Proof.
  induction a as [|x a IH]; intros [|y b] [|z c]; simpl; try congruence.
  destruct (fragment_cmp x y) eqn:Exy; try discriminate;
    destruct (fragment_cmp y z) eqn:Eyz; try discriminate; intros H1 H2.
  - apply fragment_cmp_eq in Exy, Eyz. subst.
    rewrite (proj2 (fragment_cmp_eq z z) eq_refl). eauto.
  - apply fragment_cmp_eq in Exy. subst. now rewrite Eyz.
  - apply fragment_cmp_eq in Eyz. subst. now rewrite Exy.
  - now rewrite (fragment_cmp_trans x y z).
Qed.

Lemma key_lt_cmp (a : list fragment) : forall b r,
  key_lt a b = Ok r -> (r = true <-> key_cmp a b = Lt).
Proof.
  induction a as [|x a IH]; intros [|y b] r; simpl.
  - intros [= <-]. split; congruence.
  - intros [= <-]. tauto.
  - intros [= <-]. split; congruence.
  - destruct (fragment_eqb x y) eqn:E.
    + apply fragment_eqb_eq in E. subst.
      rewrite (proj2 (fragment_cmp_eq y y) eq_refl). apply IH.
    + intro H. pose proof (fragment_lt_cmp x y r H) as Hr.
      destruct (fragment_cmp x y) eqn:Ec; try exact Hr.
      apply fragment_cmp_eq in Ec. subst.
      rewrite (proj2 (fragment_eqb_eq y y) eq_refl) in E. discriminate.
Qed.

Lemma key_eqb_eq (a : list fragment) : forall b, key_eqb a b = true <-> a = b.
Proof.
  unfold key_eqb.
  induction a as [|x a IH]; intros [|y b]; simpl; try (split; congruence).
  rewrite andb_true_iff, fragment_eqb_eq, IH. split; [intros []|intros [=]]; subst; auto.
Qed.

(** ** [sorted] on comparable keys *)

Section SortedFacts.
Context {A K : Type}.
Variable key : A -> K.
Variable lt : K -> K -> outcome bool.
Variable cmp : K -> K -> comparison.
Hypothesis cmp_eq : forall a b, cmp a b = Eq <-> a = b.
Hypothesis cmp_antisym : forall a b, cmp b a = CompOpp (cmp a b).
Hypothesis cmp_trans : forall a b c, cmp a b = Lt -> cmp b c = Lt -> cmp a c = Lt.
Hypothesis lt_cmp : forall a b r, lt a b = Ok r -> (r = true <-> cmp a b = Lt).

Local Abbreviation le := (le_by key cmp).
Local Abbreviation slt := (lt_by key cmp).

Lemma le_by_trans (x y z : A) : le x y -> le y z -> le x z.
Proof.
  unfold le_by. intros Hxy Hyz.
  destruct (cmp (key x) (key y)) eqn:E1; [| |congruence].
  - apply cmp_eq in E1. now rewrite E1.
  - destruct (cmp (key y) (key z)) eqn:E2; [| |congruence].
    + apply cmp_eq in E2. rewrite <- E2, E1. discriminate.
    + rewrite (cmp_trans _ _ _ E1 E2). discriminate.
Qed.

Lemma insert_spec (x : A) (l : list A) :
  (forall y, In y l -> returns (lt (key y) (key x))) ->
  exists r, insert key lt x l = Ok r
    /\ Permutation (x :: l) r
    /\ (forall k, filter (has_key key cmp k) r = filter (has_key key cmp k) (x :: l))
    /\ (StronglySorted le l -> StronglySorted le r).
Proof.
  induction l as [|y l IH]; intro Hc; simpl.
  - exists [x]. repeat split; auto. intros _. repeat constructor.
  - destruct (Hc y (or_introl eq_refl)) as [b Hb]. rewrite Hb. simpl.
    pose proof (lt_cmp _ _ _ Hb) as Hlt. destruct b.
    + destruct IH as (r & Hr & Hperm & Hstab & Hsort);
        [intros z Hz; apply Hc; now right|].
      rewrite Hr. simpl. exists (y :: r).
      assert (Eyx : cmp (key y) (key x) = Lt) by now apply Hlt.
      split; [reflexivity|]. split; [|split].
      * rewrite perm_swap. now constructor.
      * intro k. simpl. rewrite Hstab. simpl.
        destruct (has_key key cmp k x) eqn:Ex; [|reflexivity].
        unfold has_key in Ex.
        destruct (cmp (key x) k) eqn:Ek; try discriminate.
        apply cmp_eq in Ek. subst k.
        replace (has_key key cmp (key x) y) with false;
          [reflexivity | unfold has_key; now rewrite Eyx].
      * intro Hs. inversion Hs as [|? ? Hs' Hall]; subst.
        constructor; [auto|].
        apply (Permutation_Forall Hperm). constructor; [|exact Hall].
        unfold le_by. rewrite Eyx. discriminate.
    + exists (x :: y :: l). repeat split; auto. intro Hs.
      assert (Hxy : le x y).
      { unfold le_by. rewrite cmp_antisym.
        destruct (cmp (key y) (key x)) eqn:E; simpl; try discriminate.
        destruct Hlt as [_ Hlt]. now specialize (Hlt eq_refl). }
      constructor; [exact Hs|]. constructor; [exact Hxy|].
      inversion Hs as [|? ? _ Hall]; subst.
      eapply Forall_impl; [|exact Hall]. intros z Hz.
      now apply (le_by_trans x y z).
Qed.

Lemma sorted_spec (l : list A) :
  (forall x y, In x l -> In y l -> returns (lt (key x) (key y))) ->
  exists r, sorted key lt l = Ok r
    /\ Permutation l r
    /\ (forall k, filter (has_key key cmp k) r = filter (has_key key cmp k) l)
    /\ StronglySorted le r.
Proof.
  induction l as [|x l IH]; intro Hc; simpl.
  - exists []. repeat split; auto. constructor.
  - destruct IH as (r & Hr & Hperm & Hstab & Hsort);
      [intros a b Ha Hb; apply Hc; now right|].
    rewrite Hr. simpl.
    destruct (insert_spec x r) as (r' & Hr' & Hperm' & Hstab' & Hsort').
    { intros y Hy. apply Hc; [right|now left].
      apply (Permutation_in _ (Permutation_sym Hperm) Hy). }
    exists r'. split; [exact Hr'|]. split; [|split].
    + rewrite <- Hperm'. now constructor.
    + intro k. rewrite Hstab'. simpl. now rewrite Hstab.
    + auto.
Qed.

Lemma sorted_distinct_keys (r : list A) :
  StronglySorted le r -> NoDup (map key r) -> StronglySorted slt r.
Proof.
  induction 1 as [|x r Hs IH Hall]; simpl; intro Hnd; [constructor|].
  inversion Hnd as [|? ? Hnotin Hnd']; subst.
  constructor; [auto|].
  rewrite Forall_forall in *. intros y Hy. specialize (Hall y Hy).
  unfold le_by, lt_by in *.
  destruct (cmp (key x) (key y)) eqn:E; [|reflexivity|congruence].
  apply cmp_eq in E. exfalso. apply Hnotin. rewrite E. now apply in_map.
Qed.

Lemma strictly_sorted_unique (r1 : list A) : forall r2,
  StronglySorted slt r1 -> StronglySorted slt r2 -> Permutation r1 r2 ->
  r1 = r2.
Proof.
  assert (Hasym : forall x y, slt x y -> slt y x -> False).
  { unfold lt_by. intros x y H1 H2. rewrite cmp_antisym, H1 in H2. discriminate. }
  induction r1 as [|a r1 IH]; intros r2 H1 H2 Hp.
  - apply Permutation_nil in Hp. now subst.
  - destruct r2 as [|b r2];
      [apply Permutation_sym, Permutation_nil in Hp; discriminate|].
    inversion H1 as [|? ? H1' Ha]; inversion H2 as [|? ? H2' Hb]; subst.
    rewrite Forall_forall in Ha, Hb.
    assert (Eab : a = b).
    { assert (Hina : In a (b :: r2))
        by (apply (Permutation_in _ Hp); now left).
      assert (Hinb : In b (a :: r1))
        by (apply (Permutation_in _ (Permutation_sym Hp)); now left).
      destruct Hina as [->|Hina]; [reflexivity|].
      destruct Hinb as [->|Hinb]; [reflexivity|].
      exfalso. exact (Hasym a b (Ha b Hinb) (Hb a Hina)). }
    subst b. f_equal. apply IH; auto. now apply Permutation_cons_inv in Hp.
Qed.

Lemma sorted_of_permutation (l l' : list A) :
  (forall x y, In x l -> In y l -> returns (lt (key x) (key y))) ->
  NoDup (map key l) -> Permutation l l' ->
  sorted key lt l' = sorted key lt l.
Proof.
  intros Hc Hnd Hp.
  destruct (sorted_spec l Hc) as (r & Hr & Hperm & _ & Hs).
  destruct (sorted_spec l') as (r' & Hr' & Hperm' & _ & Hs').
  { intros x y Hx Hy.
    apply Hc; apply (Permutation_in _ (Permutation_sym Hp)); assumption. }
  rewrite Hr, Hr'. f_equal.
  apply strictly_sorted_unique.
  - apply sorted_distinct_keys; [exact Hs'|].
    apply (Permutation_NoDup (l := map key l)); [|exact Hnd].
    apply Permutation_map. now rewrite <- Hperm', <- Hp.
  - apply sorted_distinct_keys; [exact Hs|].
    apply (Permutation_NoDup (l := map key l)); [|exact Hnd].
    now apply Permutation_map.
  - now rewrite <- Hperm', <- Hp, Hperm.
Qed.
End SortedFacts.

(** ** C1: the numeric order of the channel names *)

Lemma is_ok_returns {A : Type} (m : outcome A) : is_ok m = true -> returns m.
Proof. destruct m; simpl; try discriminate. intros _. now exists a. Qed.

Lemma comparable_returns (regex : pattern) (strings : list string) :
  comparable regex strings = true ->
  forall x y, In x strings -> In y strings ->
    returns (key_lt (_parse_digits regex x) (_parse_digits regex y)).
Proof.
  unfold comparable. rewrite forallb_forall. intros H x y Hx Hy.
  specialize (H x Hx). rewrite forallb_forall in H.
  apply is_ok_returns. now apply H.
Qed.

Lemma StronglySorted_impl_in {A : Type} (R R' : A -> A -> Prop) (l : list A) :
  (forall x y, In x l -> In y l -> R x y -> R' x y) ->
  StronglySorted R l -> StronglySorted R' l.
Proof.
  intros Himp Hs. induction Hs as [|x l Hs IH Hall]; constructor.
  - apply IH. intros a b Ha Hb. apply Himp; now right.
  - rewrite Forall_forall in *. intros y Hy.
    apply Himp; [now left | now right | auto].
Qed.

Lemma has_key_key_eqb (regex : pattern) (k : list fragment) (s : string) :
  has_key (_parse_digits regex) key_cmp k s = key_eqb (_parse_digits regex s) k.
Proof.
  unfold has_key.
  destruct (key_cmp (_parse_digits regex s) k) eqn:E;
    destruct (key_eqb (_parse_digits regex s) k) eqn:E'; try reflexivity.
  - apply key_cmp_eq in E. apply (proj2 (key_eqb_eq _ _)) in E. congruence.
  - apply key_eqb_eq in E'. apply (proj2 (key_cmp_eq _ _)) in E'. congruence.
  - apply key_eqb_eq in E'. apply (proj2 (key_cmp_eq _ _)) in E'. congruence.
Qed.

Lemma _sort_numerically_spec (regex : pattern) (strings : list string) :
  comparable regex strings = true ->
  exists r,
    _sort_numerically regex strings = Ok r
    /\ Permutation strings r
    /\ StronglySorted (not_before regex) r
    /\ (forall k,
          filter (fun s => key_eqb (_parse_digits regex s) k) r
          = filter (fun s => key_eqb (_parse_digits regex s) k) strings)
    /\ (forall names,
          Permutation strings names ->
          NoDup (map (_parse_digits regex) names) ->
          _sort_numerically regex names = Ok r).
Proof.
  intro Hc. pose proof (comparable_returns regex strings Hc) as Hret.
  destruct (sorted_spec (_parse_digits regex) key_lt key_cmp
              key_cmp_eq key_cmp_antisym key_cmp_trans key_lt_cmp strings Hret)
    as (r & Hr & Hperm & Hstab & Hs).
  exists r. unfold _sort_numerically. split; [exact Hr|].
  split; [exact Hperm|]. split; [|split].
  - apply (StronglySorted_impl_in (le_by (_parse_digits regex) key_cmp)); [|exact Hs].
    intros a b Ha Hb Hle. unfold not_before, le_by in *.
    destruct (Hret b a) as [res Hres];
      try (apply (Permutation_in _ (Permutation_sym Hperm)); assumption).
    rewrite Hres. f_equal. destruct res; [|reflexivity].
    exfalso. apply Hle.
    rewrite key_cmp_antisym.
    now rewrite (proj1 (key_lt_cmp _ _ _ Hres) eq_refl).
  - intro k.
    rewrite <- (filter_ext _ _ (has_key_key_eqb regex k)), Hstab.
    apply filter_ext. apply has_key_key_eqb.
  - intros names Hp Hnd. rewrite <- Hr.
    apply (sorted_of_permutation (_parse_digits regex) key_lt key_cmp
             key_cmp_eq key_cmp_antisym key_cmp_trans key_lt_cmp); auto.
    apply (Permutation_NoDup (l := map (_parse_digits regex) names));
      [|exact Hnd].
    apply Permutation_map. now apply Permutation_sym.
Qed.

(** C1 (as amended). With the pattern [x(\d+)] the channels [x2], [x10],
    [x1] are ordered [x1], [x2], [x10]. For every pattern and dataset whose
    matching names have pairwise comparable keys, [_get_group_keys] returns
    the matching names reordered so that no name sorts before an earlier
    one (the keys are the name split on the pattern, digit fragments as
    integers, compared lexicographically); names of equal keys keep their
    dataset order, and when the keys are pairwise distinct the result
    depends only on the set of names, not on their order in the dataset. *)
Theorem group_keys_numeric_order :
  (self <- TensorizeChannels_init "x" None None true ;;
   _get_group_keys self three_channels)
  = Ok ["x1"; "x2"; "x10"]
  /\ forall (self : Tensorizer) (dataset : Dataset),
       comparable (regex self) (matching_names self dataset) = true ->
       exists group_keys,
         _get_group_keys self dataset = Ok group_keys
         /\ Permutation (matching_names self dataset) group_keys
         /\ StronglySorted (not_before (regex self)) group_keys
         /\ (forall k,
               filter (fun s => key_eqb (_parse_digits (regex self) s) k) group_keys
               = filter (fun s => key_eqb (_parse_digits (regex self) s) k)
                        (matching_names self dataset))
         /\ (forall names,
               Permutation (matching_names self dataset) names ->
               NoDup (map (_parse_digits (regex self)) names) ->
               _sort_numerically (regex self) names = Ok group_keys).
Proof.
  split; [reflexivity|].
  intros self dataset Hc. unfold _get_group_keys.
  exact (_sort_numerically_spec (regex self) (matching_names self dataset) Hc).
Qed.

Lemma group_keys_numeric_order_witness :
  exists self,
    TensorizeChannels_init "x" None None true = Ok self
    /\ exists group_keys,
         _get_group_keys self three_channels = Ok group_keys
         /\ Permutation (matching_names self three_channels) group_keys
         /\ StronglySorted (not_before x_digits) group_keys
         /\ (forall k,
               filter (fun s => key_eqb (_parse_digits x_digits s) k) group_keys
               = filter (fun s => key_eqb (_parse_digits x_digits s) k)
                   (matching_names self three_channels))
         /\ (forall names,
               Permutation (matching_names self three_channels) names ->
               NoDup (map (_parse_digits x_digits) names) ->
               _sort_numerically x_digits names = Ok group_keys).
Proof.
  eexists. split; [reflexivity|].
  match goal with
  | |- context [_get_group_keys ?self three_channels] =>
      apply (proj2 group_keys_numeric_order self three_channels)
  end.
  reflexivity.
Defined.

(** C1, as stated, fails: the keys of [1x2] and [x3] start with an integer
    and with a string, so ordering them raises [TypeError]; and two names of
    equal keys ([x1], [x01]) come out in the order the dataset lists them. *)
Lemma group_keys_not_always_ordered :
  (self <- TensorizeChannels_init "x" None None true ;;
   _get_group_keys self mixed_channels)
  = Raise (TypeError "'<' not supported between instances of 'str' and 'int'")
  /\ _sort_numerically x_digits ["x1"; "x01"] = Ok ["x1"; "x01"]
  /\ _sort_numerically x_digits ["x01"; "x1"] = Ok ["x01"; "x1"].
Proof. repeat split; reflexivity. Qed.

(** ** Dimensions *)

Lemma sizes_agree_iff (pairs : list (string * nat)) :
  sizes_agree pairs = true <->
  (forall d n m, In (d, n) pairs -> In (d, m) pairs -> n = m).
Proof.
  unfold sizes_agree. rewrite forallb_forall. split.
  - intros H d n m Hn Hm.
    pose proof (H _ Hn) as H1. pose proof (H _ Hm) as H2. simpl in *.
    destruct (dict_get d pairs) as [k|]; [|discriminate].
    apply Nat.eqb_eq in H1, H2. congruence.
  - intros H [d n] Hin. simpl.
    destruct (dict_get d pairs) as [k|] eqn:E.
    + apply Nat.eqb_eq. apply dict_get_In in E. eauto.
    + apply dict_get_None in E. exfalso. apply E.
      apply (in_map fst) in Hin. exact Hin.
Qed.

Lemma in_dim_pairs (vars : dict Var) (d : string) (n : nat) :
  In (d, n) (dim_pairs vars) <->
  exists k v, In (k, v) vars /\ In (d, n) (axes v).
Proof.
  unfold dim_pairs. rewrite in_flat_map. split.
  - intros [[k v] [H1 H2]]. eauto.
  - intros (k & v & H1 & H2). exists (k, v). auto.
Qed.

Lemma calculate_dimensions_returns (vars : dict Var) :
  returns (calculate_dimensions vars) <->
  (forall d n k v, In (d, n) (dim_pairs vars) -> In (k, v) vars ->
     axes v = [] -> d <> k)
  /\ sizes_agree (dim_pairs vars) = true.
Proof.
  unfold calculate_dimensions.
  destruct (existsb _ (dim_pairs vars)) eqn:E.
  - split; [intros [? H]; discriminate|]. intros [H _]. exfalso.
    apply existsb_exists in E. destruct E as ([d n] & Hin & Hm). simpl in Hm.
    apply mem_In in Hm. unfold dict_keys in Hm. apply in_map_iff in Hm.
    destruct Hm as ([k v] & Hk & Hf). simpl in Hk. subst k.
    apply filter_In in Hf. destruct Hf as [Hv Hs].
    unfold is_scalar_var in Hs. simpl in Hs.
    destruct (axes v) eqn:Ea; [|discriminate].
    exact (H d n d v Hin Hv Ea eq_refl).
  - destruct (sizes_agree (dim_pairs vars)) eqn:Es.
    + split; [|intros _; eexists; reflexivity]. intros _. split; [|reflexivity].
      intros d n k v Hin Hv Ea ->.
      assert (Hex : existsb (fun dn => mem (fst dn)
                      (dict_keys (filter is_scalar_var vars))) (dim_pairs vars) = true).
      { apply existsb_exists. exists (k, n). split; [exact Hin|]. simpl.
        apply mem_In. unfold dict_keys. apply in_map_iff. exists (k, v).
        split; [reflexivity|]. apply filter_In. split; [exact Hv|].
        unfold is_scalar_var. simpl. now rewrite Ea. }
      congruence.
    + split; [intros [? H]; discriminate | intros [_ H]; discriminate].
Qed.

Lemma calculate_dimensions_value (vars : dict Var) (dims : dict nat) :
  calculate_dimensions vars = Ok dims -> dims = first_wins (dim_pairs vars).
Proof.
  unfold calculate_dimensions.
  destruct (existsb _ _); [discriminate|].
  destruct (sizes_agree _); [|discriminate]. congruence.
Qed.

Lemma calculate_dimensions_sub (vars vars' : dict Var) :
  (forall kv, In kv vars' -> In kv vars) ->
  returns (calculate_dimensions vars) -> returns (calculate_dimensions vars').
Proof.
  intros Hsub. rewrite !calculate_dimensions_returns.
  assert (Hp : forall d n, In (d, n) (dim_pairs vars') -> In (d, n) (dim_pairs vars)).
  { intros d n. rewrite !in_dim_pairs. intros (k & v & H1 & H2). eauto. }
  intros [H1 H2]. split.
  - intros d n k v Hin Hv. apply (H1 d n k v); auto.
  - rewrite sizes_agree_iff in *. intros d n m Hn Hm. apply (H2 d); auto.
Qed.

Lemma dict_del_keys {V : Type} (k : string) (d : dict V) (x : string) :
  In x (dict_keys (dict_del k d)) <-> In x (dict_keys d) /\ x <> k.
Proof.
  unfold dict_keys, dict_del. rewrite !in_map_iff. split.
  - intros ([k' v] & <- & Hf). apply filter_In in Hf. destruct Hf as [Hin Hne].
    simpl in *. apply negb_true_iff, String.eqb_neq in Hne.
    split; [exists (k', v); auto | congruence].
  - intros [([k' v] & <- & Hin) Hne]. exists (k', v). split; [reflexivity|].
    apply filter_In. split; [exact Hin|]. simpl in *.
    apply negb_true_iff, String.eqb_neq. congruence.
Qed.

Lemma first_wins_keys {V : Type} (l : list (string * V)) (x : string) :
  In x (dict_keys (first_wins l)) <-> In x (map fst l).
Proof.
  induction l as [|[k v] l IH]; simpl; [tauto|].
  rewrite dict_del_keys, IH.
  destruct (String.eqb_spec x k) as [->|Hne]; [tauto|].
  split; [intros [H|[H _]]; auto | intros [H|H]; [congruence | auto]].
Qed.

Lemma in_dims_of (ds : Dataset) (d : string) :
  In d (dims_of ds) <->
  exists k v, In (k, v) (variables ds) /\ In d (var_dims v).
Proof.
  unfold dims_of, sizes. rewrite first_wins_keys, in_map_iff. split.
  - intros ([d' n] & <- & Hin). apply in_dim_pairs in Hin.
    destruct Hin as (k & v & H1 & H2). exists k, v. split; [exact H1|].
    unfold var_dims. apply in_map_iff. exists (d', n). auto.
  - intros (k & v & H1 & H2). unfold var_dims in H2. apply in_map_iff in H2.
    destruct H2 as ([d' n] & <- & H2). exists (d', n). split; [reflexivity|].
    apply in_dim_pairs. eauto.
Qed.

(** ** C3: DropZeroDimensions *)

Lemma filter_true {A : Type} (f : A -> bool) (l : list A) :
  (forall x, In x l -> f x = true) -> filter f l = l.
Proof.
  induction l as [|x l IH]; simpl; intro H; [reflexivity|].
  rewrite (H x (or_introl eq_refl)), IH; auto.
Qed.

Lemma filter_filter {A : Type} (f g : A -> bool) (l : list A) :
  filter f (filter g l) = filter (fun x => g x && f x) l.
Proof.
  induction l as [|x l IH]; simpl; [reflexivity|].
  destruct (g x); simpl; [destruct (f x)|]; now rewrite IH.
Qed.

Lemma in_keys_filter {V : Type} (g : string -> bool) (d : dict V) (k : string) :
  In k (dict_keys (filter (fun kv => g (fst kv)) d)) <->
  In k (dict_keys d) /\ g k = true.
Proof.
  unfold dict_keys. rewrite !in_map_iff. split.
  - intros ([k' v] & <- & Hf). apply filter_In in Hf. destruct Hf as [H1 H2].
    split; [exists (k', v); auto | exact H2].
  - intros [([k' v] & <- & H1) H2]. exists (k', v). split; [reflexivity|].
    apply filter_In. auto.
Qed.

Lemma NoDup_keys_filter {V : Type} (f : string * V -> bool) (d : dict V) :
  NoDup (dict_keys d) -> NoDup (dict_keys (filter f d)).
Proof.
  unfold dict_keys. induction d as [|[k v] d IH]; simpl; intro H; [constructor|].
  inversion H as [|? ? Hnotin Hnd]; subst.
  destruct (f (k, v)); simpl; [|auto]. constructor; [|auto].
  intro Hin. apply Hnotin. apply in_map_iff in Hin.
  destruct Hin as (kv & <- & Hf). apply filter_In in Hf. apply in_map. tauto.
Qed.

Lemma mem_filter (g : string -> bool) (l : list string) (k : string) :
  mem k (filter g l) = mem k l && g k.
Proof.
  induction l as [|x l IH]; simpl; [reflexivity|].
  destruct (g x) eqn:Eg; simpl; rewrite IH.
  - destruct (String.eqb_spec k x) as [->|]; simpl; [now rewrite Eg|reflexivity].
  - destruct (String.eqb_spec k x) as [->|]; simpl; [|reflexivity].
    rewrite Eg. now rewrite andb_false_r.
Qed.

Lemma drop_vars_one (k : string) (cur : Dataset) :
  dict_mem k (variables cur) = true ->
  returns (calculate_dimensions (variables cur)) ->
  drop_vars [k] cur =
  Ok {| variables := filter (fun kv => negb (mem (fst kv) [k])) (variables cur);
        coord_names := filter (fun c => negb (mem c [k])) (coord_names cur);
        attrs := attrs cur |}.
Proof.
  intros Hk Hd. unfold drop_vars. simpl forallb. rewrite Hk. simpl andb.
  cbv iota.
  destruct (calculate_dimensions_sub (variables cur)
              (filter (fun kv => negb (mem (fst kv) [k])) (variables cur)))
    as [dims Hdims]; [|exact Hd|].
  - intros kv Hin. apply filter_In in Hin. tauto.
  - rewrite Hdims. reflexivity.
Qed.

Lemma DropZeroDimensions_loop_spec (items : dict Var) : forall cur,
  NoDup (dict_keys items) ->
  (forall k, In k (dict_keys items) -> dict_mem k (variables cur) = true) ->
  returns (calculate_dimensions (variables cur)) ->
  DropZeroDimensions_loop items cur =
  Ok {| variables :=
          filter (fun kv => negb (mem (fst kv) (zero_names items))) (variables cur);
        coord_names :=
          filter (fun c => negb (mem c (zero_names items))) (coord_names cur);
        attrs := attrs cur |}.
Proof.
  induction items as [|[k c] items IH]; intros cur Hnd Hin Hd.
  - simpl. destruct cur as [vars cn at_]. simpl.
    rewrite !filter_true; auto.
  - simpl in Hnd. inversion Hnd as [|? ? Hnotin Hnd']; subst.
    simpl DropZeroDimensions_loop. unfold zero_names. simpl filter.
    destruct (all_zero c) eqn:Ez.
    + rewrite (drop_vars_one k cur); [|apply Hin; now left|exact Hd].
      simpl bind. rewrite IH; [| exact Hnd' | |].
      * simpl. rewrite !filter_filter. f_equal. f_equal.
        -- apply filter_ext. intros [k' v']. simpl.
           rewrite orb_false_r, negb_orb. reflexivity.
        -- apply filter_ext. intros k'. simpl.
           rewrite orb_false_r, negb_orb. reflexivity.
      * intros k' Hk'. simpl. rewrite dict_mem_keys. apply mem_In.
        apply (in_keys_filter (fun x => negb (mem x [k]))). split.
        -- apply mem_In. rewrite <- dict_mem_keys. apply Hin. now right.
        -- simpl. rewrite orb_false_r. apply negb_true_iff, String.eqb_neq.
           intros ->. contradiction.
      * simpl. apply (calculate_dimensions_sub (variables cur)); [|exact Hd].
        intros kv Hkv. apply filter_In in Hkv. tauto.
    + simpl bind. apply IH; auto. intros k' Hk'. apply Hin. now right.
Qed.

Lemma consistent_facts (ds : Dataset) :
  consistent ds = true ->
  NoDup (dict_keys (variables ds))
  /\ returns (calculate_dimensions (variables ds))
  /\ (forall c, In c (coord_names ds) -> In c (dict_keys (variables ds)))
  /\ (forall d, In d (dims_of ds) -> In d (dict_keys (variables ds)) ->
        In d (coord_names ds))
  /\ (forall k v, In (k, v) (variables ds) -> well_shaped v = true).
Proof.
  unfold consistent. rewrite !andb_true_iff.
  intros [[[[[H1 H2] H3] H4] H5] H6]. split; [now apply unique_keys_NoDup|].
  split; [|split; [|split]].
  - unfold calculate_dimensions. apply negb_true_iff in H2. rewrite H2, H3.
    eexists; reflexivity.
  - rewrite forallb_forall in H4. intros c Hc. specialize (H4 c Hc).
    rewrite dict_mem_keys in H4. now apply mem_In.
  - rewrite forallb_forall in H5. intros d Hd Hv. specialize (H5 d Hd).
    apply orb_true_iff in H5. destruct H5 as [H5|H5].
    + apply negb_true_iff in H5. rewrite dict_mem_keys in H5.
      apply mem_false in H5. contradiction.
    + now apply mem_In.
  - rewrite forallb_forall in H6. intros k v Hin. exact (H6 (k, v) Hin).
Qed.

Lemma DropZeroDimensions_closed_form (dataset : Dataset) :
  consistent dataset = true ->
  DropZeroDimensions dataset =
  Ok {| variables :=
          filter (fun kv => negb (mem (fst kv) (zero_names (coords dataset))))
                 (variables dataset);
        coord_names :=
          filter (fun c => negb (mem c (zero_names (coords dataset))))
                 (coord_names dataset);
        attrs := attrs dataset |}.
Proof.
  intro Hc. destruct (consistent_facts dataset Hc) as (Hnd & Hd & _ & _).
  unfold DropZeroDimensions. apply DropZeroDimensions_loop_spec.
  - unfold coords. now apply NoDup_keys_filter.
  - intros k Hk. rewrite dict_mem_keys. apply mem_In.
    unfold coords in Hk.
    apply (in_keys_filter (fun x => mem x (coord_names dataset))) in Hk. tauto.
  - exact Hd.
Qed.

Lemma in_zero_names (dataset : Dataset) (k : string) :
  In k (zero_names (coords dataset)) <->
  exists c, In (k, c) (variables dataset)
            /\ mem k (coord_names dataset) = true /\ all_zero c = true.
Proof.
  unfold zero_names, coords, dict_keys. rewrite in_map_iff. split.
  - intros ([k' c] & <- & Hf). apply filter_In in Hf. destruct Hf as [Hf Hz].
    apply filter_In in Hf. destruct Hf as [Hin Hm]. exists c. auto.
  - intros (c & Hin & Hm & Hz). exists (k, c). split; [reflexivity|].
    apply filter_In. split; [|exact Hz]. apply filter_In. auto.
Qed.

(** C3 (as amended). On every consistent dataset DropZeroDimensions
    returns a dataset in which every coordinate whose values are all zero
    is gone, as a variable and as a coordinate name; every other variable,
    in particular every coordinate with a non-zero value and every data
    variable, is kept unchanged; and an axis is still an axis of the result
    exactly when a kept variable is defined on it. *)
Theorem DropZeroDimensions_drops_zero_coordinates :
  forall dataset : Dataset,
    consistent dataset = true ->
    exists result,
      DropZeroDimensions dataset = Ok result
      /\ (forall key coord,
            In (key, coord) (coords dataset) -> all_zero coord = true ->
            dict_get key (variables result) = None
            /\ mem key (coord_names result) = false)
      /\ (forall key v,
            In (key, v) (variables dataset) ->
            mem key (coord_names dataset) = false \/ all_zero v = false ->
            dict_get key (variables result) = Some v
            /\ mem key (coord_names result) = mem key (coord_names dataset))
      /\ (forall d,
            In d (dims_of result) <->
            exists key v,
              In (key, v) (variables dataset)
              /\ (mem key (coord_names dataset) = false \/ all_zero v = false)
              /\ In d (var_dims v))
      /\ attrs result = attrs dataset.
Proof.
  intros dataset Hc. eexists. split; [now apply DropZeroDimensions_closed_form|].
  destruct (consistent_facts dataset Hc) as (Hnd & _ & _ & _).
  assert (Hkeep : forall key v,
            In (key, v) (variables dataset) ->
            mem key (coord_names dataset) = false \/ all_zero v = false ->
            mem key (zero_names (coords dataset)) = false).
  { intros key v Hin Hor. apply mem_false. intro Hz.
    apply in_zero_names in Hz. destruct Hz as (c & Hc' & Hm & Hzc).
    assert (c = v).
    { apply (In_dict_get _ _ _ Hnd) in Hc'. apply (In_dict_get _ _ _ Hnd) in Hin.
      congruence. }
    subst c. destruct Hor; congruence. }
  simpl. split; [|split; [|split; [|reflexivity]]].
  - intros key coord Hin Hz.
    assert (Hzn : mem key (zero_names (coords dataset)) = true).
    { apply mem_In. apply in_zero_names. unfold coords in Hin.
      apply filter_In in Hin. destruct Hin as [Hin Hm]. exists coord. auto. }
    split.
    + apply dict_get_None. intro Hk.
      apply (in_keys_filter (fun x => negb (mem x (zero_names (coords dataset)))))
        in Hk.
      destruct Hk as [_ Hk]. rewrite Hzn in Hk. discriminate.
    + rewrite mem_filter, Hzn. apply andb_false_r.
  - intros key v Hin Hor. pose proof (Hkeep key v Hin Hor) as Hk. split.
    + apply In_dict_get; [now apply NoDup_keys_filter|].
      apply filter_In. split; [exact Hin|]. simpl. now rewrite Hk.
    + rewrite mem_filter, Hk. apply andb_true_r.
  - intro d. rewrite in_dims_of. simpl. split.
    + intros (key & v & Hf & Hd). apply filter_In in Hf. destruct Hf as [Hin Hm].
      simpl in Hm. apply negb_true_iff in Hm. exists key, v.
      split; [exact Hin|]. split; [|exact Hd].
      destruct (mem key (coord_names dataset)) eqn:Em; [|now left].
      destruct (all_zero v) eqn:Ez; [|now right].
      exfalso. apply mem_false in Hm. apply Hm. apply in_zero_names.
      exists v. auto.
    + intros (key & v & Hin & Hor & Hd). exists key, v. split; [|exact Hd].
      apply filter_In. split; [exact Hin|]. simpl.
      now rewrite (Hkeep key v Hin Hor).
Qed.

Lemma DropZeroDimensions_drops_zero_coordinates_witness :
  exists result,
    DropZeroDimensions zero_axis = Ok result
    /\ (forall key coord,
          In (key, coord) (coords zero_axis) -> all_zero coord = true ->
          dict_get key (variables result) = None
          /\ mem key (coord_names result) = false)
    /\ (forall key v,
          In (key, v) (variables zero_axis) ->
          mem key (coord_names zero_axis) = false \/ all_zero v = false ->
          dict_get key (variables result) = Some v
          /\ mem key (coord_names result) = mem key (coord_names zero_axis))
    /\ (forall d,
          In d (dims_of result) <->
          exists key v,
            In (key, v) (variables zero_axis)
            /\ (mem key (coord_names zero_axis) = false \/ all_zero v = false)
            /\ In d (var_dims v))
    /\ attrs result = attrs zero_axis.
Proof.
  apply (DropZeroDimensions_drops_zero_coordinates zero_axis). reflexivity.
Defined.

(** C3, as stated, fails: the coordinate [x] of [zero_axis] is all zero,
    yet after DropZeroDimensions the axis [x] is still an axis of the
    dataset and the variable [data], defined on [x] alone, is still there. *)
Lemma DropZeroDimensions_keeps_the_axis :
  match DropZeroDimensions zero_axis with
  | Ok result =>
      dims_of result = ["x"]
      /\ dict_get "data" (variables result) = Some (mkvar [("x", 2%nat)] [3; 4]%Z)
      /\ dict_get "x" (variables result) = None
  | _ => False
  end.
Proof. simpl. repeat split. Qed.

(** ** Squeezing *)

Lemma dict_get_del_other {V : Type} (k k' : string) (d : dict V) :
  k <> k' -> dict_get k (dict_del k' d) = dict_get k d.
Proof.
  intro Hne. unfold dict_del. induction d as [|[k0 v0] d IH]; simpl; [reflexivity|].
  destruct (String.eqb_spec k' k0) as [->|Hne']; simpl.
  - destruct (String.eqb_spec k k0); [congruence | exact IH].
  - destruct (String.eqb k k0); [reflexivity | exact IH].
Qed.

Lemma dict_get_first_wins {V : Type} (k : string) (l : list (string * V)) :
  dict_get k (first_wins l) = dict_get k l.
Proof.
  induction l as [|[k' v] l IH]; simpl; [reflexivity|].
  destruct (String.eqb_spec k k') as [->|Hne]; [reflexivity|].
  now rewrite dict_get_del_other.
Qed.

Lemma first_wins_NoDup {V : Type} (l : list (string * V)) :
  NoDup (dict_keys (first_wins l)).
Proof.
  induction l as [|[k v] l IH]; simpl; constructor.
  - intro Hin. apply dict_del_keys in Hin. tauto.
  - unfold dict_del. now apply NoDup_keys_filter.
Qed.

Lemma In_first_wins {V : Type} (k : string) (v : V) (l : list (string * V)) :
  In (k, v) (first_wins l) -> dict_get k l = Some v.
Proof.
  intro Hin. rewrite <- dict_get_first_wins.
  apply In_dict_get; [apply first_wins_NoDup | exact Hin].
Qed.

Lemma dict_get_filter_key {V : Type} (g : string -> bool) (k : string)
    (d : dict V) :
  dict_get k (filter (fun kv => g (fst kv)) d) =
  if g k then dict_get k d else None.
Proof.
  induction d as [|[k' v] d IH]; simpl; [now destruct (g k)|].
  destruct (g k') eqn:Eg; simpl.
  - destruct (String.eqb_spec k k') as [->|Hne]; [now rewrite Eg | exact IH].
  - destruct (String.eqb_spec k k') as [->|Hne]; [now rewrite IH, Eg | exact IH].
Qed.

Lemma squeeze_false_eq (ds : Dataset) :
  squeeze false ds =
  {| variables :=
       map (fun kv => (fst kv, var_squeeze (squeeze_dims ds) (snd kv)))
           (variables ds);
     coord_names := coord_names ds;
     attrs := attrs ds |}.
Proof.
  unfold squeeze, squeeze_drops. simpl. f_equal.
  - f_equal. now apply filter_true.
  - replace (filter (fun _ : string * Var => false) (variables ds)) with (@nil (string * Var)).
    + now apply filter_true.
    + induction (variables ds); simpl; auto.
Qed.

Lemma dim_pairs_squeezed (sq : list string) (vars : dict Var) :
  dim_pairs (map (fun kv => (fst kv, var_squeeze sq (snd kv))) vars) =
  filter (fun dn => negb (mem (fst dn) sq)) (dim_pairs vars).
Proof.
  unfold dim_pairs. induction vars as [|[k v] vars IH]; simpl; [reflexivity|].
  now rewrite filter_app, IH.
Qed.

Lemma squeeze_dims_nil_iff (vars : dict Var) (cn : list string) (at_ : dict attr) :
  squeeze_dims {| variables := vars; coord_names := cn; attrs := at_ |} = [] <->
  (forall d, dict_get d (dim_pairs vars) <> Some 1%nat).
Proof.
  unfold squeeze_dims, sizes. simpl. split.
  - intros H d Hd. rewrite <- dict_get_first_wins in Hd.
    apply dict_get_In in Hd.
    assert (Hin : In d (dict_keys (filter (fun dn : string * nat => Nat.eqb (snd dn) 1)
                                     (first_wins (dim_pairs vars))))).
    { unfold dict_keys. apply in_map_iff. exists (d, 1%nat). split; [reflexivity|].
      apply filter_In. auto. }
    rewrite H in Hin. contradiction.
  - intro H.
    destruct (filter _ (first_wins (dim_pairs vars))) as [|[d n] l] eqn:E;
      [reflexivity|].
    exfalso. assert (Hin : In (d, n) ((d, n) :: l)) by now left.
    rewrite <- E in Hin. apply filter_In in Hin. destruct Hin as [Hin Hn].
    simpl in Hn. apply Nat.eqb_eq in Hn. subst n.
    apply In_first_wins in Hin. exact (H d Hin).
Qed.

Lemma squeeze_dims_squeezed (ds x : Dataset) :
  variables x = variables (squeeze false ds) -> squeeze_dims x = [].
Proof.
  intro Hx. destruct x as [vars cn at_]. cbn [variables] in Hx.
  rewrite squeeze_false_eq in Hx. cbn [variables] in Hx. subst vars.
  apply squeeze_dims_nil_iff. intros d Hd.
  rewrite dim_pairs_squeezed in Hd.
  rewrite (dict_get_filter_key (fun x => negb (mem x (squeeze_dims ds)))) in Hd.
  destruct (mem d (squeeze_dims ds)) eqn:Em; simpl in Hd; [discriminate|].
  apply mem_false in Em. apply Em.
  unfold squeeze_dims, sizes, dict_keys. apply in_map_iff.
  exists (d, 1%nat). split; [reflexivity|]. apply filter_In. split; [|reflexivity].
  rewrite <- dict_get_first_wins in Hd. now apply dict_get_In.
Qed.

Lemma var_squeeze_nil (v : Var) : var_squeeze [] v = v.
Proof.
  destruct v as [ax vals at_]. unfold var_squeeze. simpl.
  rewrite filter_true; [reflexivity | intros; reflexivity].
Qed.

Lemma squeeze_id (x : Dataset) : squeeze_dims x = [] -> squeeze false x = x.
Proof.
  intro H. rewrite squeeze_false_eq, H. destruct x as [vars cn at_].
  cbn [variables coord_names attrs]. f_equal. clear H.
  induction vars as [|[k v] vars IH]; cbn [map fst snd]; [reflexivity|].
  rewrite var_squeeze_nil. f_equal. apply IH.
Qed.

Lemma squeeze_idempotent (ds : Dataset) :
  squeeze false (squeeze false ds) = squeeze false ds.
Proof. apply squeeze_id. now apply (squeeze_dims_squeezed ds). Qed.

(** ** C4: RenameDimensions *)

Lemma _rename_vars_spec (nd dd : dict string) (vars : dict Var) :
  forall acc r,
    _rename_vars nd dd vars acc = Ok r ->
    r = acc ++ map (fun kv => (get_default nd (fst kv),
                               var_rename_dims dd (snd kv))) vars.
Proof.
  induction vars as [|[k v] vars IH]; intros acc r; simpl.
  - intros [= <-]. now rewrite app_nil_r.
  - destruct (dict_mem (get_default nd k) acc); [discriminate|].
    intro H. apply IH in H. now rewrite <- app_assoc in H.
Qed.

Lemma var_rename_dims_nil (v : Var) : var_rename_dims [] v = v.
Proof.
  destruct v as [ax vals at_]. unfold var_rename_dims. simpl. f_equal.
  induction ax as [|[d n] ax IH]; simpl; [reflexivity | now rewrite IH].
Qed.

Lemma map_rename_nil (vars : dict Var) :
  map (fun kv => (get_default [] (fst kv), var_rename_dims [] (snd kv))) vars
  = vars.
Proof.
  induction vars as [|[k v] vars IH]; simpl; [reflexivity|].
  now rewrite var_rename_dims_nil, IH.
Qed.

Lemma map_get_default_nil (l : list string) : map (get_default []) l = l.
Proof. induction l; simpl; [reflexivity | now f_equal]. Qed.

Lemma dict_get_set_other {V : Type} (k k' : string) (v : V) (d : dict V) :
  k <> k' -> dict_get k (dict_set k' v d) = dict_get k d.
Proof.
  intro Hne. induction d as [|[k0 v0] d IH]; simpl.
  - destruct (String.eqb_spec k k'); [congruence | reflexivity].
  - destruct (String.eqb_spec k' k0) as [->|Hne']; simpl.
    + destruct (String.eqb_spec k k0); [congruence | reflexivity].
    + destruct (String.eqb k k0); [reflexivity | exact IH].
Qed.

Lemma dict_set_twice {V : Type} (k : string) (v : V) (d : dict V) :
  dict_set k v (dict_set k v d) = dict_set k v d.
Proof.
  induction d as [|[k0 v0] d IH]; simpl.
  - now rewrite String.eqb_refl.
  - destruct (String.eqb k k0) eqn:E; simpl.
    + now rewrite String.eqb_refl.
    + now rewrite E, IH.
Qed.

Lemma rename_dims_check_spec (items : list (string * string)) (ds : Dataset) :
  rename_dims_check items ds = Ok tt ->
  forall k v, In (k, v) items -> In k (dims_of ds) /\ ~ In v (dims_of ds).
Proof.
  induction items as [|[k0 v0] items IH]; simpl; [tauto|].
  destruct (mem k0 (dims_of ds)) eqn:Ek; simpl; [|discriminate].
  destruct (mem v0 (dims_of ds)) eqn:Ev; simpl; [discriminate|].
  destruct (dict_mem v0 (variables ds)); [discriminate|].
  intros H k v [[= <- <-]|Hin]; [|auto].
  split; [now apply mem_In | now apply mem_false].
Qed.

Lemma dims_of_same_axes (x y : Dataset) :
  map (fun kv => axes (snd kv)) (variables y)
  = map (fun kv => axes (snd kv)) (variables x) ->
  dims_of y = dims_of x.
Proof.
  intro H. unfold dims_of, sizes, dim_pairs.
  rewrite !flat_map_concat_map. now rewrite H.
Qed.

Lemma _rename_all_vars (nd dd : dict string) (x y : Dataset) :
  _rename_all nd dd x = Ok y ->
  variables y = map (fun kv => (get_default nd (fst kv),
                                var_rename_dims dd (snd kv))) (variables x)
  /\ coord_names y = map (get_default nd) (coord_names x)
  /\ attrs y = attrs x.
Proof.
  unfold _rename_all. intro H. apply bind_Ok in H.
  destruct H as (vars & Hv & [= <-]). apply _rename_vars_spec in Hv.
  simpl in *. auto.
Qed.

Lemma rename_vars_dims (nd : dict string) (x y : Dataset) :
  rename_vars nd x = Ok y -> dims_of y = dims_of x /\ attrs y = attrs x.
Proof.
  unfold rename_vars. intro H. apply bind_Ok in H. destruct H as (_ & _ & H).
  apply _rename_all_vars in H. destruct H as (Hv & _ & Ha).
  split; [|exact Ha]. apply dims_of_same_axes. rewrite Hv, map_map.
  apply map_ext. intros [k v]. cbn [fst snd]. now rewrite var_rename_dims_nil.
Qed.

Lemma rename_coords_dims (items : list (string * string)) :
  forall x y, rename_coords items x = Ok y ->
    dims_of y = dims_of x /\ attrs y = attrs x.
Proof.
  induction items as [|[o n] items IH]; intros x y; simpl.
  - intros [= <-]. auto.
  - intro H. apply bind_Ok in H. destruct H as (x' & Hx' & H).
    apply IH in H. destruct H as [Hd Ha].
    destruct (mem o (coord_names x)).
    + apply rename_vars_dims in Hx'. destruct Hx' as [Hd' Ha']. split; congruence.
    + inversion Hx'; subst. auto.
Qed.

Lemma dims_of_renamed (m : dict string) (x y : Dataset) (d : string) :
  variables y = map (fun kv => (fst kv, var_rename_dims m (snd kv))) (variables x) ->
  In d (dims_of y) -> exists d0, In d0 (dims_of x) /\ d = get_default m d0.
Proof.
  intros Hv Hd. apply in_dims_of in Hd. destruct Hd as (k & v & Hin & Hdv).
  rewrite Hv in Hin. apply in_map_iff in Hin.
  destruct Hin as ([k0 v0] & [= <- <-] & Hin0).
  unfold var_dims, var_rename_dims in Hdv. simpl in Hdv.
  rewrite map_map in Hdv. apply in_map_iff in Hdv.
  destruct Hdv as ([d0 n0] & <- & Hax). exists d0. split; [|reflexivity].
  apply in_dims_of. exists k0, v0. split; [exact Hin0|].
  unfold var_dims. apply in_map_iff. exists (d0, n0). auto.
Qed.

Lemma dims_of_squeeze (x : Dataset) (d : string) :
  In d (dims_of (squeeze false x)) -> In d (dims_of x).
Proof.
  rewrite squeeze_false_eq, !in_dims_of. simpl.
  intros (k & v & Hin & Hd). apply in_map_iff in Hin.
  destruct Hin as ([k0 v0] & [= <- <-] & Hin0). exists k0, v0.
  split; [exact Hin0|]. unfold var_dims, var_squeeze in *. simpl in Hd.
  apply in_map_iff in Hd. destruct Hd as (dn & <- & Hf).
  apply filter_In in Hf. apply in_map. tauto.
Qed.

Lemma hashable_Ok (a : attr) (s : string) : hashable a = Ok s -> a = AStr s.
Proof. destruct a; simpl; congruence. Qed.

Lemma RenameDimensions_unmapped (table : dict (dict string))
    (dataset : Dataset) (name : string) :
  dict_get "name" (attrs dataset) = Some (AStr name) ->
  dict_get name table = None ->
  RenameDimensions table dataset = Ok (squeeze false dataset).
Proof.
  intros Hn Ht. unfold RenameDimensions, attrs_getitem. rewrite Hn. simpl.
  now rewrite Ht.
Qed.

Lemma rename_dims_nil (x y : Dataset) : rename_dims [] x = Ok y -> y = x.
Proof.
  unfold rename_dims. simpl. intro H. apply _rename_all_vars in H.
  destruct H as (Hv & Hc & Ha). rewrite map_rename_nil in Hv.
  rewrite map_get_default_nil in Hc.
  destruct x, y. simpl in *. congruence.
Qed.

Lemma rename_dims_same_variables (m : dict string) (x x' y : Dataset) :
  variables x' = variables x -> rename_dims [] x = Ok y ->
  rename_dims [] x' =
  Ok {| variables := variables y;
        coord_names := coord_names x';
        attrs := attrs x' |}.
Proof.
  unfold rename_dims, _rename_all. simpl. intros Hv H.
  apply bind_Ok in H. destruct H as (vars & Hvars & [= <-]).
  rewrite Hv, Hvars. simpl. now rewrite map_get_default_nil.
Qed.

(** C4 (as amended). Whenever one application of RenameDimensions returns,
    the dataset has a [name]; if the table has no entry for that name, or
    an empty one, a second application returns the very same dataset; if
    the table renames at least one axis, a second application raises,
    because the old axis name is no longer a dimension. *)
Theorem RenameDimensions_twice :
  forall (dimension_mapping : dict (dict string)) (dataset once : Dataset),
    RenameDimensions dimension_mapping dataset = Ok once ->
    exists name,
      dict_get "name" (attrs dataset) = Some (AStr name)
      /\ match dict_get name dimension_mapping with
         | Some (_ :: _) => raises (RenameDimensions dimension_mapping once)
         | _ => RenameDimensions dimension_mapping once = Ok once
         end.
Proof.
  intros table dataset once H. unfold RenameDimensions in H.
  apply bind_Ok in H. destruct H as (a & Ha & H).
  unfold attrs_getitem in Ha.
  destruct (dict_get "name" (attrs dataset)) as [a'|] eqn:En; [|discriminate].
  injection Ha as ->.
  apply bind_Ok in H. destruct H as (name & Hh & H).
  apply hashable_Ok in Hh. subst a. exists name. split; [reflexivity|].
  destruct (dict_get name table) as [[|[k v] rest]|] eqn:Et.
  - (* an empty rename map *)
    apply bind_Ok in H. destruct H as (y1 & Hy1 & H).
    pose proof (rename_dims_nil _ _ Hy1) as ->.
    simpl in H. injection H as <-.
    unfold RenameDimensions, attrs_getitem. simpl attrs.
    rewrite dict_get_set_other by discriminate.
    rewrite En. simpl bind. rewrite Et.
    rewrite (squeeze_id (set_attr _ _ _))
      by (apply (squeeze_dims_squeezed dataset); reflexivity).
    rewrite (rename_dims_same_variables [] (squeeze false dataset)
               (set_attr "dims" (AList (dims_of (squeeze false dataset)))
                  (squeeze false dataset))
               (squeeze false dataset) eq_refl Hy1).
    simpl. unfold set_attr. simpl. rewrite dict_set_twice.
    f_equal.
  - (* a rename map with a first entry [k -> v] *)
    apply bind_Ok in H. destruct H as (y1 & Hy1 & H).
    apply bind_Ok in H. destruct H as (y2 & Hy2 & H). injection H as <-.
    unfold rename_dims in Hy1. apply bind_Ok in Hy1.
    destruct Hy1 as ([] & Hchk & Hall).
    pose proof (rename_dims_check_spec _ _ Hchk) as Hspec.
    apply _rename_all_vars in Hall. destruct Hall as (Hv & _ & Hat).
    apply rename_coords_dims in Hy2. destruct Hy2 as [Hd2 Ha2].
    assert (Hk : ~ In k (dims_of (squeeze false (set_attr "dims"
                                    (AList (dims_of y2)) y2)))).
    { intro Hin. apply dims_of_squeeze in Hin.
      assert (Hin' : In k (dims_of y1)) by (rewrite <- Hd2; exact Hin).
      apply (dims_of_renamed ((k, v) :: rest) (squeeze false dataset)) in Hin'.
      - destruct Hin' as (d0 & Hd0 & Hk). unfold get_default in Hk.
        destruct (dict_get d0 ((k, v) :: rest)) as [v'|] eqn:Eg.
        + apply dict_get_In in Eg. apply Hspec in Eg. destruct Eg as [_ Hv'].
          subst v'. apply Hv'. apply (proj1 (Hspec k v (or_introl eq_refl))).
        + subst d0. simpl in Eg. rewrite String.eqb_refl in Eg. discriminate.
      - rewrite Hv. apply map_ext. intros [k0 v0]. reflexivity. }
    unfold RenameDimensions, attrs_getitem. simpl attrs.
    rewrite dict_get_set_other by discriminate.
    rewrite Ha2, Hat, squeeze_false_eq at 1. simpl attrs. rewrite En.
    simpl bind. rewrite Et.
    unfold rename_dims. simpl rename_dims_check.
    apply mem_false in Hk. rewrite Hk. simpl. eexists. reflexivity.
  - (* no entry *)
    simpl in H. injection H as <-.
    rewrite (RenameDimensions_unmapped table _ name).
    + now rewrite squeeze_idempotent.
    + rewrite squeeze_false_eq. exact En.
    + exact Et.
Qed.

Lemma RenameDimensions_twice_witness :
  exists name,
    dict_get "name" (attrs unmapped_signal) = Some (AStr name)
    /\ match dict_get name dim_names with
       | Some (_ :: _) =>
           raises (RenameDimensions dim_names (squeeze false unmapped_signal))
       | _ =>
           RenameDimensions dim_names (squeeze false unmapped_signal)
           = Ok (squeeze false unmapped_signal)
       end.
Proof.
  apply (RenameDimensions_twice dim_names unmapped_signal
           (squeeze false unmapped_signal)).
  reflexivity.
Defined.

(** C4, as stated, fails: RenameDimensions returns [renamed_signal] on
    [raw_signal], whose axis [dim_0] the table renames to [time]; applied
    to [renamed_signal] it raises, for [dim_0] is not a dimension any more. *)
Lemma RenameDimensions_not_idempotent :
  RenameDimensions dim_names raw_signal = Ok renamed_signal
  /\ RenameDimensions dim_names renamed_signal
     = Raise (ValueError
         "cannot rename 'dim_0' because it is not found in the dimensions of this dataset").
Proof. split; reflexivity. Qed.

(** ** C5 and C6: StandardizeSignalDataset *)

(** C5. The code departs from the claim: on a signal called [time] whose
    error is not all zero, [data] is renamed to [time], not [time_], and
    [error] to [time_error]; over a [time] axis with a coordinate the
    renaming even raises. The rewrite to [time_] is made only when the
    error has been dropped. *)
Theorem StandardizeSignalDataset_time_with_error :
  match StandardizeSignalDataset "src" time_signal with
  | Ok result =>
      dict_keys (variables result) = ["time"; "time_error"]
      /\ dict_get "name" (attrs result) = Some (AStr "src/time")
  | _ => False
  end
  /\ StandardizeSignalDataset "src" time_signal_on_time
     = Raise (ValueError "the new name 'time' conflicts")
  /\ match StandardizeSignalDataset "src" time_signal_zero_error with
     | Ok result =>
         dict_keys (variables result) = ["time_"]
         /\ dict_get "name" (attrs result) = Some (AStr "src/time_")
     | _ => False
     end.
Proof. simpl. repeat split. Qed.

Lemma squeeze_sub (drop : bool) (ds : Dataset) :
  (forall k, In k (dict_keys (variables (squeeze drop ds))) ->
             In k (dict_keys (variables ds)))
  /\ (forall d, In d (dims_of (squeeze drop ds)) -> In d (dims_of ds)).
Proof.
  unfold squeeze. split.
  - intros k. simpl. unfold dict_keys. rewrite map_map. simpl.
    rewrite !in_map_iff. intros (kv & <- & Hf). apply filter_In in Hf.
    exists kv. tauto.
  - intros d. rewrite !in_dims_of. simpl.
    intros (k & v & Hin & Hd). apply in_map_iff in Hin.
    destruct Hin as ([k0 v0] & [= <- <-] & Hf). apply filter_In in Hf.
    exists k0, v0. split; [tauto|].
    unfold var_dims, var_squeeze in *. simpl in Hd.
    apply in_map_iff in Hd. destruct Hd as (dn & <- & Hf').
    apply filter_In in Hf'. apply in_map. tauto.
Qed.

Lemma drop_vars_sub (names : list string) (x y : Dataset) :
  drop_vars names x = Ok y ->
  (forall k, In k (dict_keys (variables y)) -> In k (dict_keys (variables x)))
  /\ (forall d, In d (dims_of y) -> In d (dims_of x)).
Proof.
  unfold drop_vars. destruct (forallb _ names); [|discriminate].
  intro H. apply bind_Ok in H. destruct H as (_ & _ & [= <-]). split.
  - intros k. simpl. unfold dict_keys. rewrite !in_map_iff.
    intros (kv & <- & Hf). apply filter_In in Hf. exists kv. tauto.
  - intros d. rewrite !in_dims_of. simpl. intros (k & v & Hf & Hd).
    apply filter_In in Hf. exists k, v. tauto.
Qed.

Lemma absent_sub (key : string) (x y : Dataset) :
  (forall k, In k (dict_keys (variables y)) -> In k (dict_keys (variables x))) ->
  (forall d, In d (dims_of y) -> In d (dims_of x)) ->
  absent key x = true -> absent key y = true.
Proof.
  unfold absent. rewrite !andb_true_iff, !negb_true_iff, !dict_mem_keys, !mem_false.
  intros H1 H2 [Ha Hb]. split; intro H; auto.
Qed.

Lemma getitem_absent (key : string) (ds : Dataset) :
  absent key ds = true -> raises (getitem key ds).
Proof.
  unfold absent, getitem, dims_of.
  rewrite andb_true_iff, !negb_true_iff, <- dict_mem_keys. unfold dict_mem.
  intros [H1 H2].
  destruct (dict_get key (variables ds)); [discriminate|].
  destruct (dict_get key (sizes ds)); [discriminate|].
  eexists. reflexivity.
Qed.

Lemma rename_absent (key : string) (new_k : attr) (rest : dict attr)
    (ds : Dataset) :
  absent key ds = true -> raises (rename ((key, new_k) :: rest) ds).
Proof.
  unfold absent, rename. simpl.
  rewrite andb_true_iff, !negb_true_iff. intros [-> ->]. simpl.
  eexists. reflexivity.
Qed.

Lemma raises_bind {A B : Type} (m : outcome A) (k : A -> outcome B) :
  (forall a, m = Ok a -> raises (k a)) ->
  (forall w, m <> Unmodelled w) ->
  raises (bind m k).
Proof.
  destruct m as [a|e|w]; simpl; intros H1 H2.
  - now apply H1.
  - now exists e.
  - exfalso. now apply (H2 w).
Qed.

Lemma drop_vars_modelled (names : list string) (ds : Dataset) (w : string) :
  drop_vars names ds <> Unmodelled w.
Proof.
  unfold drop_vars. destruct (forallb _ names); [|discriminate].
  unfold calculate_dimensions.
  destruct (existsb _ _); [discriminate|].
  destruct (sizes_agree _); discriminate.
Qed.

(** C6 (as amended). StandardizeSignalDataset raises whenever [data] is
    absent and also whenever [error] is absent (neither a variable nor a
    dimension of the dataset): the all-zero test reads [error] before
    anything else is decided, so [error] is required, not optional. *)
Theorem StandardizeSignalDataset_requires_data_and_error :
  forall (source : string) (dataset : Dataset),
    absent "data" dataset || absent "error" dataset = true ->
    raises (StandardizeSignalDataset source dataset).
Proof.
  intros source dataset H.
  destruct (squeeze_sub true dataset) as [Hs1 Hs2].
  unfold StandardizeSignalDataset.
  apply raises_bind; [|unfold attrs_getitem; destruct (dict_get _ _); discriminate].
  intros name _.
  destruct (absent "error" dataset) eqn:Ee.
  - (* [error] is absent: the first access raises *)
    destruct (getitem_absent "error" (squeeze true dataset)) as [e He].
    { now apply (absent_sub "error" dataset). }
    rewrite He. now exists e.
  - (* [data] is absent: the renaming raises *)
    rewrite orb_false_r in H.
    pose proof (absent_sub "data" dataset _ Hs1 Hs2 H) as Hd.
    apply raises_bind;
      [|unfold getitem; destruct (dict_get _ (variables _));
        [|destruct (dict_get _ (sizes _))]; discriminate].
    intros error _.
    apply raises_bind;
      [|intro w; destruct (all_zero (snd error));
        [apply drop_vars_modelled | discriminate]].
    intros ds1 Hds1.
    assert (Hd1 : absent "data" ds1 = true).
    { destruct (all_zero (snd error)).
      - destruct (drop_vars_sub _ _ _ Hds1) as [H1 H2].
        now apply (absent_sub "data" (squeeze true dataset)).
      - now inversion Hds1; subst. }
    destruct (dict_mem "error" (variables ds1)).
    + destruct (join_error name) as [e| |] eqn:Ej; simpl.
      * destruct (rename_absent "data" name [("error", AStr e)] ds1 Hd1)
          as [ex Hex].
        rewrite Hex. now exists ex.
      * eexists; reflexivity.
      * destruct name; discriminate.
    + simpl.
      destruct (rename_absent "data" (time_rewrite name) [] ds1 Hd1) as [ex Hex].
      rewrite Hex. now exists ex.
Qed.

Lemma StandardizeSignalDataset_requires_data_and_error_witness :
  raises (StandardizeSignalDataset "src" data_only).
Proof.
  apply (StandardizeSignalDataset_requires_data_and_error "src" data_only).
  reflexivity.
Defined.

(** C6, as stated, fails: [data_only] has a [data] variable and no
    [error] variable, and StandardizeSignalDataset raises on it. *)
Lemma StandardizeSignalDataset_fails_without_error :
  dict_mem "data" (variables data_only) = true
  /\ StandardizeSignalDataset "src" data_only
     = Raise (KeyError "No variable named 'error'").
Proof. split; reflexivity. Qed.

(** ** C9: MergeDatasets *)

Lemma collect_fresh (vars : dict Var) : forall acc,
  NoDup (dict_keys (acc ++ vars)) -> collect vars acc = Ok (acc ++ vars).
Proof.
  induction vars as [|[k v] vars IH]; intros acc Hnd; simpl.
  - now rewrite app_nil_r.
  - assert (Hk : dict_get k acc = None).
    { apply dict_get_None. intro Hin. unfold dict_keys in Hnd.
      rewrite map_app in Hnd. simpl in Hnd. apply NoDup_remove_2 in Hnd.
      apply Hnd. apply in_or_app. now left. }
    rewrite Hk. rewrite IH; rewrite <- app_assoc; [reflexivity | exact Hnd].
Qed.

Lemma collect_all_fresh (objects : list Dataset) : forall acc,
  NoDup (dict_keys (acc ++ all_variables objects)) ->
  collect_all objects acc = Ok (acc ++ all_variables objects).
Proof.
  unfold all_variables.
  induction objects as [|ds objects IH]; intros acc Hnd; simpl.
  - now rewrite app_nil_r.
  - simpl in Hnd. rewrite app_assoc in Hnd. rewrite collect_fresh.
    + simpl. rewrite IH; [now rewrite <- app_assoc | exact Hnd].
    + unfold dict_keys in *. rewrite map_app in Hnd.
      now apply NoDup_app_remove_r in Hnd.
Qed.

Lemma NoDup_app_disjoint {A : Type} (l1 l2 : list A) :
  NoDup (l1 ++ l2) -> forall a, In a l1 -> In a l2 -> False.
Proof.
  induction l1 as [|x l1 IH]; simpl; intros Hnd a H1 H2; [contradiction|].
  inversion Hnd as [|? ? Hnotin Hnd']; subst. destruct H1 as [->|H1].
  - apply Hnotin. apply in_or_app. now right.
  - now apply (IH Hnd' a).
Qed.

Lemma In_dedup (x : string) (l : list string) : In x (dedup l) <-> In x l.
Proof.
  induction l as [|y l IH]; simpl; [tauto|].
  rewrite filter_In, IH, negb_true_iff, String.eqb_neq.
  destruct (String.eqb_spec y x) as [->|Hne]; [tauto|].
  split; [intros [H|[H _]]; auto | intros [H|H]; [congruence | auto]].
Qed.

Lemma in_flat_map_keys {A : Type} (f : A -> list string) (l : list A) (x : string) :
  mem x (flat_map f l) = true <-> exists a, In a l /\ In x (f a).
Proof. rewrite mem_In. apply in_flat_map. Qed.

(** *** Variables and coordinates that the datasets share *)

Lemma list_eqb_refl {A : Type} (eqb : A -> A -> bool) :
  (forall x, eqb x x = true) -> forall l, list_eqb eqb l l = true.
Proof.
  intros H l. induction l as [|x l IH]; simpl; [reflexivity|].
  now rewrite H, IH.
Qed.

Lemma axis_eqb_refl (x : string * nat) : axis_eqb x x = true.
Proof. unfold axis_eqb. now rewrite String.eqb_refl, Nat.eqb_refl. Qed.

Lemma axis_eqb_eq (x y : string * nat) : axis_eqb x y = true -> x = y.
Proof.
  destruct x, y. unfold axis_eqb. simpl. rewrite andb_true_iff.
  intros [H1 H2]. apply String.eqb_eq in H1. apply Nat.eqb_eq in H2. congruence.
Qed.

Lemma list_eqb_eq {A : Type} (eqb : A -> A -> bool) :
  (forall x y, eqb x y = true -> x = y) ->
  forall l1 l2, list_eqb eqb l1 l2 = true -> l1 = l2.
Proof.
  intros H l1. induction l1 as [|x l1 IH]; intros [|y l2]; simpl;
    try discriminate; [reflexivity|].
  rewrite andb_true_iff. intros [H1 H2]. f_equal; auto.
Qed.

Lemma scalar_eqb_refl (x : scalar) : scalar_eqb x x = true.
Proof. destruct x; simpl; [apply Z.eqb_refl | apply String.eqb_refl]. Qed.

Lemma var_same_refl (v : Var) : var_same v v = true.
Proof.
  unfold var_same.
  now rewrite (list_eqb_refl _ axis_eqb_refl), (list_eqb_refl _ scalar_eqb_refl).
Qed.

Lemma agree_on_shared_coherent (l : dict Var) :
  agree_on_shared l = true -> coherent l.
Proof.
  unfold agree_on_shared, coherent. rewrite forallb_forall.
  intros H k v first Hin Hget. specialize (H (k, v) Hin). cbn [fst snd] in H.
  now rewrite Hget in H.
Qed.

Lemma collect_lookup (vars : dict Var) : forall acc,
  coherent (acc ++ vars) -> NoDup (dict_keys acc) ->
  exists r,
    collect vars acc = Ok r
    /\ (forall k, dict_get k r = dict_get k (acc ++ vars))
    /\ NoDup (dict_keys r)
    /\ (forall kv, In kv r -> In kv (acc ++ vars)).
Proof.
  induction vars as [|[k v] vars IH]; intros acc Hco Hnd; cbn [collect].
  - exists acc. rewrite app_nil_r. auto.
  - destruct (dict_get k acc) as [first|] eqn:Ek.
    + assert (Hsame : var_same first v = true).
      { apply (Hco k v first).
        - apply in_or_app. right. now left.
        - now rewrite dict_get_app, Ek. }
      rewrite Hsame.
      assert (Hlook : forall k', dict_get k' (acc ++ vars)
                                 = dict_get k' (acc ++ (k, v) :: vars)).
      { intro k'. rewrite !dict_get_app.
        destruct (dict_get k' acc) eqn:Ek'; [reflexivity|]. cbn [dict_get].
        destruct (String.eqb_spec k' k) as [->|]; [congruence | reflexivity]. }
      destruct (IH acc) as (r & Hr & Hget & Hndr & Hin).
      * intros k' v' first' Hin' Hget'. apply (Hco k' v' first').
        -- apply in_app_iff in Hin'. apply in_or_app.
           destruct Hin'; [now left | right; now right].
        -- now rewrite <- Hlook.
      * exact Hnd.
      * exists r. split; [exact Hr|]. split; [|split; [exact Hndr|]].
        -- intro k'. now rewrite Hget, Hlook.
        -- intros kv Hkv. apply Hin in Hkv. apply in_app_iff in Hkv.
           apply in_or_app. destruct Hkv; [now left | right; now right].
    + destruct (IH (acc ++ [(k, v)])) as (r & Hr & Hget & Hndr & Hin).
      * now rewrite <- app_assoc.
      * unfold dict_keys. rewrite map_app. apply NoDup_app; [exact Hnd| |].
        -- repeat constructor. tauto.
        -- intros a Ha [<-|[]]. apply dict_get_None in Ek. contradiction.
      * rewrite <- app_assoc in Hget, Hin. exists r. auto.
Qed.

Lemma collect_all_lookup (objects : list Dataset) : forall acc,
  coherent (acc ++ all_variables objects) -> NoDup (dict_keys acc) ->
  exists r,
    collect_all objects acc = Ok r
    /\ (forall k, dict_get k r = dict_get k (acc ++ all_variables objects))
    /\ NoDup (dict_keys r)
    /\ (forall kv, In kv r -> In kv (acc ++ all_variables objects)).
Proof.
  induction objects as [|ds objects IH]; intros acc Hco Hnd;
    cbn [collect_all all_variables flat_map].
  - exists acc. rewrite app_nil_r. auto.
  - change (flat_map variables objects) with (all_variables objects) in *.
    cbn [all_variables flat_map] in Hco.
    change (flat_map variables objects) with (all_variables objects) in Hco.
    destruct (collect_lookup (variables ds) acc) as (r1 & Hr1 & Hget1 & Hnd1 & Hin1).
    + intros k v first Hin Hget. apply (Hco k v first).
      * rewrite app_assoc. apply in_or_app. now left.
      * rewrite app_assoc, dict_get_app, Hget. reflexivity.
    + exact Hnd.
    + rewrite Hr1. cbn [bind].
      assert (Hlook : forall k, dict_get k (r1 ++ all_variables objects)
                = dict_get k (acc ++ variables ds ++ all_variables objects)).
      { intro k. rewrite app_assoc, !dict_get_app, Hget1, dict_get_app.
        reflexivity. }
      destruct (IH r1) as (r & Hr & Hget & Hndr & Hin).
      * intros k v first Hin Hget. apply (Hco k v first).
        -- apply in_app_iff in Hin. rewrite app_assoc. apply in_or_app.
           destruct Hin as [Hin|Hin]; [left; now apply Hin1 | now right].
        -- now rewrite <- Hlook.
      * exact Hnd1.
      * exists r. split; [exact Hr|]. split; [|split; [exact Hndr|]].
        -- intro k. now rewrite Hget, Hlook.
        -- intros kv Hkv. apply Hin in Hkv. apply in_app_iff in Hkv.
           rewrite app_assoc. apply in_or_app.
           destruct Hkv as [Hkv|Hkv]; [left; now apply Hin1 | now right].
Qed.

Lemma xr_merge_first_of_each_name (objects : list Dataset) :
  agree_on_shared (all_variables objects) = true ->
  sizes_agree (dim_pairs (all_variables objects)) = true ->
  axis_name_clash objects = false ->
  coordinate_as_data objects = false ->
  exists merged,
    xr_merge objects = Ok merged
    /\ unique_keys (dict_keys (variables merged)) = true
    /\ (forall name,
          dict_get name (variables merged) = dict_get name (all_variables objects))
    /\ (forall c,
          In c (coord_names merged) <->
          (exists ds, In ds objects /\ In c (dict_keys (coords ds)))
          \/ (In c (dict_keys (all_variables objects))
              /\ exists n, In (c, n) (dim_pairs (all_variables objects)))).
Proof.
  intros Hag Hs Hclash Hkind.
  destruct (collect_all_lookup objects [])
    as (vars & Hvars & Hget & Hnd & Hin).
  { now apply agree_on_shared_coherent. }
  { constructor. }
  cbn [app] in Hget, Hin.
  assert (Hkeys : forall k, In k (dict_keys vars)
                            <-> In k (dict_keys (all_variables objects))).
  { intro k. split; intro H.
    - destruct (dict_get k (all_variables objects)) eqn:E.
      + apply dict_get_In in E. apply (in_map fst) in E. exact E.
      + rewrite <- Hget in E. apply dict_get_None in E. contradiction.
    - destruct (dict_get k vars) eqn:E.
      + apply dict_get_In in E. apply (in_map fst) in E. exact E.
      + rewrite Hget in E. apply dict_get_None in E. contradiction. }
  assert (Hpairs : forall d n, In (d, n) (dim_pairs vars) ->
                     In (d, n) (dim_pairs (all_variables objects))).
  { intros d n. rewrite !in_dim_pairs. intros (k & v & H1 & H2).
    exists k, v. split; [now apply Hin | exact H2]. }
  assert (Hpairs' : forall d n, In (d, n) (dim_pairs (all_variables objects)) ->
                      exists m, In (d, m) (dim_pairs vars)).
  { intros d n. rewrite in_dim_pairs. intros (k & v & H1 & H2).
    destruct (dict_get k vars) as [first|] eqn:E.
    - pose proof E as E'. rewrite Hget in E'.
      pose proof (agree_on_shared_coherent _ Hag k v first H1 E') as Hsame.
      unfold var_same in Hsame. apply andb_true_iff in Hsame.
      destruct Hsame as [Hax _].
      apply (list_eqb_eq axis_eqb axis_eqb_eq) in Hax.
      exists n. apply in_dim_pairs. exists k, first.
      split; [now apply dict_get_In | now rewrite Hax].
    - exfalso. apply dict_get_None in E. apply E. apply Hkeys.
      apply (in_map fst) in H1. exact H1. }
  unfold axis_name_clash in Hclash.
  assert (Hno : forall d n, In (d, n) (dim_pairs (all_variables objects)) ->
            mem d (flat_map (fun ds => dict_keys (data_vars ds)) objects) = false
            /\ mem d (dict_keys (filter is_scalar_var (all_variables objects))) = false).
  { intros d n Hdn. apply orb_false_iff.
    destruct (_ || _) eqn:E; [|reflexivity].
    rewrite <- Hclash. symmetry. apply existsb_exists. exists (d, n). auto. }
  assert (Hdims : calculate_dimensions vars = Ok (first_wins (dim_pairs vars))).
  { destruct (proj2 (calculate_dimensions_returns vars)) as [dims Hdims].
    - split.
      + intros d n k v Hp Hv Hax ->.
        destruct (Hno k n (Hpairs _ _ Hp)) as [_ H2].
        apply mem_false in H2. apply H2. unfold dict_keys. apply in_map_iff.
        exists (k, v). split; [reflexivity|]. apply filter_In.
        split; [now apply Hin|]. unfold is_scalar_var. cbn [snd]. now rewrite Hax.
      + rewrite sizes_agree_iff in *. intros d n m Hn Hm.
        apply (Hs d); now apply Hpairs.
    - rewrite Hdims. f_equal. now apply calculate_dimensions_value. }
  unfold xr_merge. rewrite Hvars. cbn [bind]. rewrite Hdims. cbn [bind].
  set (cn := merged_coord_names _ _ _).
  assert (Hcn : forall c, In c cn <->
            (exists ds, In ds objects /\ In c (dict_keys (coords ds)))
            \/ (In c (dict_keys (all_variables objects))
                /\ exists n, In (c, n) (dim_pairs (all_variables objects)))).
  { intro c. unfold cn, merged_coord_names.
    rewrite In_dedup, in_app_iff, in_flat_map, filter_In, first_wins_keys.
    rewrite dict_mem_keys, mem_In, in_map_iff, Hkeys.
    split; (intros [H|[H1 H2]]; [now left | right]).
    - destruct H1 as ([d n] & <- & Hdn). split; [exact H2|].
      exists n. now apply Hpairs.
    - destruct H2 as [n Hn]. destruct (Hpairs' c n Hn) as [m Hm].
      split; [exists (c, m); auto | exact H1]. }
  destruct (existsb _ cn) eqn:Eamb.
  - exfalso. apply existsb_exists in Eamb. destruct Eamb as (c & Hc & Hm).
    apply Hcn in Hc. destruct Hc as [(ds & Hds & Hc)|[_ [n Hn]]].
    + unfold coordinate_as_data in Hkind.
      assert (Hex : existsb
                (fun c0 => mem c0 (flat_map (fun ds0 => dict_keys (data_vars ds0)) objects))
                (flat_map (fun ds0 => dict_keys (coords ds0)) objects) = true).
      { apply existsb_exists. exists c. split; [|exact Hm].
        apply in_flat_map. eauto. }
      congruence.
    + destruct (Hno c n Hn) as [H1 _]. congruence.
  - eexists. split; [reflexivity|]. cbn [variables coord_names].
    split; [now apply unique_keys_NoDup|]. split; [exact Hget | exact Hcn].
Qed.








(** ** C10 and C2: TensorizeChannels *)

(** C10. When no data variable matches the pattern, TensorizeChannels
    raises: stacking the empty list of channels yields an empty Dataset,
    and storing it under the stem is a [TypeError]; the dataset is not
    returned unchanged, nor with an absent stem. *)
Theorem TensorizeChannels_no_match_raises :
  forall (self : Tensorizer) (dataset : Dataset),
    matching_names self dataset = [] ->
    TensorizeChannels self dataset
    = Raise (TypeError
        "Cannot assign a Dataset to a single key - only a DataArray or Variable object can be stored under a single key.").
Proof.
  intros self dataset H. unfold TensorizeChannels, _get_group_keys.
  change (filter (re_search (regex self)) (dict_keys (data_vars dataset)))
    with (matching_names self dataset).
  rewrite H. reflexivity.
Qed.

Lemma TensorizeChannels_no_match_raises_witness :
  exists self,
    TensorizeChannels_init "y" None None true = Ok self
    /\ TensorizeChannels self three_channels
       = Raise (TypeError
           "Cannot assign a Dataset to a single key - only a DataArray or Variable object can be stored under a single key.").
Proof.
  eexists. split; [reflexivity|].
  match goal with
  | |- TensorizeChannels ?self three_channels = _ =>
      apply (TensorizeChannels_no_match_raises self three_channels)
  end.
  reflexivity.
Defined.

(** *** Storing an array under a key *)

Lemma dict_set_same {V : Type} (k : string) (v : V) (d : dict V) :
  dict_get k d = Some v -> dict_set k v d = d.
Proof.
  induction d as [|[k0 v0] d IH]; simpl; [discriminate|].
  destruct (String.eqb_spec k k0) as [->|Hne].
  - now intros [= ->].
  - intro H. now rewrite IH.
Qed.

Lemma dict_get_set_same {V : Type} (k : string) (v : V) (d : dict V) :
  dict_get k (dict_set k v d) = Some v.
Proof.
  induction d as [|[k0 v0] d IH]; simpl.
  - now rewrite String.eqb_refl.
  - destruct (String.eqb k k0) eqn:E; simpl.
    + now rewrite String.eqb_refl.
    + now rewrite E.
Qed.

Lemma dict_set_keys {V : Type} (k : string) (v : V) (d : dict V) (x : string) :
  In x (dict_keys (dict_set k v d)) <-> x = k \/ In x (dict_keys d).
Proof.
  induction d as [|[k0 v0] d IH]; simpl.
  - split; [intros [H|[]]; auto | intros [H|[]]; auto].
  - destruct (String.eqb_spec k k0) as [->|Hne]; simpl.
    + split; [intros [H|H]; auto | intros [H|[H|H]]; auto].
    + rewrite IH. split; [intros [H|[H|H]]; auto | intros [H|[H|H]]; auto].
Qed.

Lemma dict_set_NoDup {V : Type} (k : string) (v : V) (d : dict V) :
  NoDup (dict_keys d) -> NoDup (dict_keys (dict_set k v d)).
Proof.
  induction d as [|[k0 v0] d IH]; simpl; intro H.
  - constructor; [tauto | constructor].
  - inversion H as [|? ? Hnotin Hnd]; subst.
    destruct (String.eqb_spec k k0) as [->|Hne]; simpl.
    + now constructor.
    + constructor; [|auto]. intro Hin. apply dict_set_keys in Hin.
      destruct Hin as [Hin|Hin]; [congruence | contradiction].
Qed.

Lemma In_dict_set {V : Type} (k : string) (v : V) (d : dict V) (k' : string) (v' : V) :
  In (k', v') (dict_set k v d) -> (k' = k /\ v' = v) \/ In (k', v') d.
Proof.
  induction d as [|[k0 v0] d IH]; simpl.
  - intros [[= <- <-]|[]]. now left.
  - destruct (String.eqb_spec k k0) as [->|Hne]; simpl.
    + intros [[= <- <-]|H]; auto.
    + intros [H|H]; [auto|]. apply IH in H. tauto.
Qed.

Lemma fold_set_present {V : Type} (l : dict V) : forall d,
  (forall c cv, In (c, cv) l -> dict_get c d = Some cv) ->
  fold_left (fun acc kv => dict_set (fst kv) (snd kv) acc) l d = d.
Proof.
  induction l as [|[c cv] l IH]; intros d H; simpl; [reflexivity|].
  rewrite (dict_set_same c cv d); [|apply H; now left].
  apply IH. intros c' cv' Hin. apply H. now right.
Qed.

Lemma fold_set_fresh {V : Type} (l : dict V) : forall d,
  NoDup (dict_keys (d ++ l)) ->
  fold_left (fun acc kv => dict_set (fst kv) (snd kv) acc) l d = d ++ l.
Proof.
  induction l as [|[c cv] l IH]; intros d H; simpl; [now rewrite app_nil_r|].
  rewrite dict_set_fresh.
  - rewrite IH; rewrite <- app_assoc; [reflexivity | exact H].
  - apply mem_false. intro Hin. unfold dict_keys in H. rewrite map_app in H.
    simpl in H. apply NoDup_remove_2 in H. apply H. apply in_or_app. now left.
Qed.

Section SetItem.
Variables (ds : Dataset) (key : string) (v : Var) (olds news : dict Var).
Hypothesis Hinv : Inv ds.
Hypothesis Hkey_coord : ~ In key (coord_names ds).
Hypothesis Hkey_dim : ~ In key (dims_of ds).
Hypothesis Hkey_vdim : ~ In key (var_dims v).
Hypothesis Holds : forall c cv,
  In (c, cv) olds -> In (c, cv) (variables ds) /\ In c (coord_names ds).
Hypothesis Hnews_nodup : NoDup (dict_keys news).
Hypothesis Hnews : forall c cv,
  In (c, cv) news ->
  ~ In c (dict_keys (variables ds)) /\ c <> key
  /\ exists n, axes cv = [(c, n)] /\ In (c, n) (axes v).
Hypothesis Haxes : forall d n,
  In (d, n) (axes v) ->
  In (d, n) (dim_pairs (variables ds))
  \/ (~ In d (dims_of ds)
      /\ forall v', In (d, v') (variables ds) ->
           In d (coord_names ds) /\ axes v' <> []).
Hypothesis Hfun : forall d n m,
  In (d, n) (axes v) -> In (d, m) (axes v) -> n = m.

Local Abbreviation vars1 := (dict_set key v (variables ds ++ news)).

Lemma setitem_nodup : NoDup (dict_keys (variables ds ++ news)).
Proof.
  destruct Hinv as (Hnd & _). unfold dict_keys. rewrite map_app.
  apply NoDup_app; auto.
  intros a Ha Hb. apply in_map_iff in Hb. destruct Hb as ([c cv] & <- & Hin).
  apply Hnews in Hin. tauto.
Qed.

Lemma setitem_vars_In (k' : string) (v' : Var) :
  In (k', v') vars1 ->
  (k' = key /\ v' = v) \/ In (k', v') (variables ds) \/ In (k', v') news.
Proof.
  intro H. apply In_dict_set in H. rewrite in_app_iff in H. tauto.
Qed.

Lemma setitem_pairs (d : string) (n : nat) :
  In (d, n) (dim_pairs vars1) ->
  In (d, n) (axes v) \/ In (d, n) (dim_pairs (variables ds)).
Proof.
  intro H. apply in_dim_pairs in H. destruct H as (k' & v' & Hin & Hd).
  apply setitem_vars_In in Hin. destruct Hin as [[_ ->]|[Hin|Hin]].
  - now left.
  - right. apply in_dim_pairs. eauto.
  - left. apply Hnews in Hin. destruct Hin as (_ & _ & m & Hax & Hm).
    rewrite Hax in Hd. destruct Hd as [[= <- <-]|[]]. exact Hm.
Qed.

Lemma in_dims_pairs (x : Dataset) (d : string) :
  In d (dims_of x) <-> exists n, In (d, n) (dim_pairs (variables x)).
Proof.
  unfold dims_of, sizes. rewrite first_wins_keys, in_map_iff. split.
  - intros ([d' n] & <- & H). eauto.
  - intros [n H]. exists (d, n). auto.
Qed.

Lemma setitem_dims_ok : returns (calculate_dimensions vars1).
Proof.
  destruct Hinv as (Hnd & Hcalc & _ & _).
  apply calculate_dimensions_returns in Hcalc. destruct Hcalc as [Hsc Hsz].
  rewrite sizes_agree_iff in Hsz.
  apply calculate_dimensions_returns. split.
  - intros d n k' v' Hp Hin Hax ->.
    apply setitem_vars_In in Hin. destruct Hin as [[-> ->]|[Hin|Hin]].
    + apply setitem_pairs in Hp. destruct Hp as [Hp|Hp].
      * apply Hkey_vdim. unfold var_dims. apply (in_map fst) in Hp. exact Hp.
      * apply Hkey_dim. apply in_dims_pairs. eauto.
    + apply setitem_pairs in Hp. destruct Hp as [Hp|Hp].
      * destruct (Haxes _ _ Hp) as [Hp'|[_ Hn]].
        -- exact (Hsc k' n k' v' Hp' Hin Hax eq_refl).
        -- now destruct (Hn v' Hin).
      * exact (Hsc k' n k' v' Hp Hin Hax eq_refl).
    + apply Hnews in Hin. destruct Hin as (_ & _ & m & Hax' & _). congruence.
  - apply sizes_agree_iff. intros d n m Hn Hm.
    apply setitem_pairs in Hn, Hm.
    assert (Hmix : forall a b, In (d, a) (axes v) ->
              In (d, b) (dim_pairs (variables ds)) -> a = b).
    { intros a b Ha Hb. destruct (Haxes _ _ Ha) as [Ha'|[Hnd' _]].
      - exact (Hsz d a b Ha' Hb).
      - exfalso. apply Hnd'. apply in_dims_pairs. eauto. }
    destruct Hn as [Hn|Hn], Hm as [Hm|Hm]; eauto.
    symmetry. eauto.
Qed.

Lemma setitem_spec :
  exists ds',
    setitem key {| da_var := v; da_coords := olds ++ news |} ds = Ok ds'
    /\ variables ds' = vars1
    /\ (forall c, In c (coord_names ds') <->
                  In c (coord_names ds) \/ In c (dict_keys news))
    /\ attrs ds' = attrs ds
    /\ Inv ds'.
Proof.
  pose proof setitem_nodup as Hnd1.
  destruct Hinv as (Hnd & Hcalc & Hcn & Hdimcoord).
  unfold setitem. cbn [da_var da_coords].
  set (f := fun kv : string * Var =>
              negb (String.eqb (fst kv) key)
              && (mem (fst kv) (var_dims v) || negb (mem (fst kv) (coord_names ds)))).
  assert (Hf : filter f (olds ++ news) = filter f olds ++ news).
  { rewrite filter_app. f_equal. apply filter_true. intros [c cv] Hin.
    apply Hnews in Hin. destruct Hin as (_ & Hne & n & _ & Hn).
    unfold f. simpl. apply andb_true_iff. split.
    - now apply negb_true_iff, String.eqb_neq.
    - apply orb_true_iff. left. apply mem_In. unfold var_dims.
      apply (in_map fst) in Hn. exact Hn. }
  rewrite Hf.
  assert (Hold_get : forall c cv, In (c, cv) (filter f olds) ->
            dict_get c (variables ds) = Some cv).
  { intros c cv Hin. apply filter_In in Hin. destruct Hin as [Hin _].
    apply Holds in Hin. apply In_dict_get; tauto. }
  replace (existsb _ (filter f olds ++ news)) with false.
  2:{ symmetry. apply not_true_is_false. intro E. apply existsb_exists in E.
      destruct E as ([c cv] & Hin & Hc). simpl in Hc.
      apply in_app_iff in Hin. destruct Hin as [Hin|Hin].
      - rewrite (Hold_get c cv Hin), var_same_refl in Hc. discriminate.
      - apply Hnews in Hin. destruct Hin as (Hn & _).
        apply dict_get_None in Hn. rewrite Hn in Hc. discriminate. }
  rewrite fold_left_app, (fold_set_present (filter f olds)) by exact Hold_get.
  rewrite fold_set_fresh by exact Hnd1.
  destruct setitem_dims_ok as [dims1 Hdims1]. rewrite Hdims1. cbn [bind].
  pose proof (calculate_dimensions_value _ _ Hdims1) as Edims. subst dims1.
  assert (Hkeys1 : forall x, In x (dict_keys vars1) <->
            x = key \/ In x (dict_keys (variables ds)) \/ In x (dict_keys news)).
  { intro x. rewrite dict_set_keys. unfold dict_keys at 1.
    rewrite map_app, in_app_iff. reflexivity. }
  assert (Hdims1' : forall d, In d (dict_keys (first_wins (dim_pairs vars1))) ->
            In d (var_dims v) \/ In d (dims_of ds)).
  { intros d Hd. apply (proj1 (first_wins_keys _ _)) in Hd.
    apply in_map_iff in Hd.
    destruct Hd as ([d' n] & <- & Hp). apply setitem_pairs in Hp.
    destruct Hp as [Hp|Hp].
    - left. unfold var_dims. apply (in_map fst) in Hp. exact Hp.
    - right. apply in_dims_pairs. eauto. }
  replace (mem key (coord_names ds) || dict_mem key (first_wins (dim_pairs vars1)))
    with false.
  2:{ symmetry. apply orb_false_iff. split; [now apply mem_false|].
      rewrite dict_mem_keys. apply mem_false. intro H.
      apply Hdims1' in H. tauto. }
  set (cn := merged_coord_names _ _ _).
  assert (Hcn1 : forall c, In c cn <->
            In c (coord_names ds) \/ In c (dict_keys news)).
  { intro c. unfold cn, merged_coord_names.
    rewrite In_dedup, !in_app_iff, filter_In, dict_mem_keys, mem_In.
    unfold coords. split.
    - intros [[H|H]|[H1 H2]].
      + apply (in_keys_filter (fun x => mem x (coord_names ds))) in H.
        left. apply mem_In. tauto.
      + unfold dict_keys in H. rewrite map_app, in_app_iff in H.
        destruct H as [H|H]; [|now right].
        apply in_map_iff in H. destruct H as ([c' cv] & <- & Hin).
        apply filter_In in Hin. destruct Hin as [Hin _].
        apply Holds in Hin. now left.
      + apply Hkeys1 in H2. destruct H2 as [->|[H2|H2]]; [|left|now right].
        * apply Hdims1' in H1. tauto.
        * apply Hdims1' in H1. destruct H1 as [H1|H1]; [|auto].
          unfold var_dims in H1. apply in_map_iff in H1.
          destruct H1 as ([d n] & <- & Hp). simpl in *.
          destruct (Haxes _ _ Hp) as [Hp'|[_ Hn]].
          -- apply Hdimcoord; [apply in_dims_pairs; eauto | exact H2].
          -- unfold dict_keys in H2. apply in_map_iff in H2.
             destruct H2 as ([c' v'] & Hc' & Hin'). cbn [fst] in Hc'. subst c'.
             now destruct (Hn v' Hin').
    - intros [H|H].
      + left. left.
        apply (in_keys_filter (fun x => mem x (coord_names ds))).
        split; [auto | now apply mem_In].
      + left. right. unfold dict_keys. rewrite map_app, in_app_iff. now right. }
  replace (existsb _ cn) with false.
  2:{ symmetry. apply not_true_is_false. intro E. apply existsb_exists in E.
      destruct E as (c & Hc & Hm). rewrite dict_mem_keys in Hm.
      apply mem_In in Hm. unfold data_vars in Hm.
      apply (in_keys_filter (fun x => negb (mem x (coord_names ds)))) in Hm.
      destruct Hm as [Hm1 Hm2]. apply negb_true_iff, mem_false in Hm2.
      apply Hcn1 in Hc. destruct Hc as [Hc|Hc]; [contradiction|].
      unfold dict_keys in Hc. apply in_map_iff in Hc.
      destruct Hc as ([c' cv] & <- & Hin). apply Hnews in Hin. tauto. }
  eexists. split; [reflexivity|]. cbn [variables coord_names attrs].
  split; [reflexivity|]. split; [exact Hcn1|]. split; [reflexivity|].
  unfold Inv. cbn [variables coord_names]. split; [|split; [|split]].
  - now apply dict_set_NoDup.
  - exact setitem_dims_ok.
  - intros c Hc. apply Hkeys1. apply Hcn1 in Hc. destruct Hc; auto.
  - intros d Hd Hin. unfold cn, merged_coord_names.
    apply In_dedup. apply in_or_app. right. apply filter_In.
    split; [exact Hd | rewrite dict_mem_keys; now apply mem_In].
Qed.
End SetItem.

(** *** The channels and their stacking *)

Lemma in_matching_names (self : Tensorizer) (ds : Dataset) (key : string) :
  In key (matching_names self ds) ->
  exists v, dict_get key (variables ds) = Some v /\ In (key, v) (variables ds)
            /\ ~ In key (coord_names ds).
Proof.
  unfold matching_names, data_vars. intro H. apply filter_In in H.
  destruct H as [H _].
  apply (in_keys_filter (fun x => negb (mem x (coord_names ds)))) in H.
  destruct H as [H1 H2]. apply negb_true_iff, mem_false in H2.
  destruct (dict_get key (variables ds)) as [v|] eqn:E.
  - exists v. split; [reflexivity|]. split; [now apply dict_get_In | exact H2].
  - apply dict_get_None in E. contradiction.
Qed.

Lemma share_axes_spec (self : Tensorizer) (ds : Dataset) :
  share_axes self ds = true ->
  forall k k', In k (matching_names self ds) -> In k' (matching_names self ds) ->
    channel_axes ds k = channel_axes ds k'.
Proof.
  unfold share_axes. destruct (matching_names self ds) as [|k0 rest]; [contradiction|].
  rewrite forallb_forall. intros H.
  assert (H0 : forall k, In k (k0 :: rest) -> channel_axes ds k0 = channel_axes ds k).
  { intros k [<-|Hk]; [reflexivity|].
    apply (list_eqb_eq axis_eqb axis_eqb_eq). now apply H. }
  intros k k' Hk Hk'. now rewrite <- (H0 k Hk), <- (H0 k' Hk').
Qed.

Lemma getitem_da_stored (ds : Dataset) (key : string) (v : Var) :
  dict_get key (variables ds) = Some v ->
  getitem_da key ds = Ok {| da_var := v; da_coords := coords_on ds v |}.
Proof. intro H. unfold getitem_da, getitem. now rewrite H. Qed.

Lemma getitem_da_channel (ds : Dataset) (key : string) (v : Var) :
  dict_get key (variables ds) = Some v ->
  getitem_da key ds = Ok (channel_da ds key).
Proof.
  intro H. rewrite (getitem_da_stored ds key v H).
  unfold channel_da, channel_var. now rewrite H.
Qed.

Lemma mapM_map {A B : Type} (f : A -> outcome B) (g : A -> B) (l : list A) :
  (forall x, In x l -> f x = Ok (g x)) -> mapM f l = Ok (map g l).
Proof.
  induction l as [|x l IH]; intro H; simpl; [reflexivity|].
  rewrite (H x (or_introl eq_refl)). simpl.
  rewrite IH; [reflexivity|]. intros y Hy. apply H. now right.
Qed.

Lemma coords_on_same_dims (ds : Dataset) (v v' : Var) :
  axes v = axes v' -> coords_on ds v = coords_on ds v'.
Proof. intro H. unfold coords_on, var_dims. now rewrite H. Qed.

Lemma coords_same_refl (cs : dict Var) : coords_same cs cs = true.
Proof.
  unfold coords_same. apply list_eqb_refl. intros [k v]. simpl.
  now rewrite String.eqb_refl, var_same_refl.
Qed.

Lemma coords_on_In (ds : Dataset) (v : Var) (c : string) (cv : Var) :
  In (c, cv) (coords_on ds v) ->
  In (c, cv) (variables ds) /\ In c (coord_names ds).
Proof.
  unfold coords_on. intro H. apply filter_In in H. destruct H as [H1 H2].
  apply andb_true_iff in H2. destruct H2 as [H2 _].
  split; [exact H1 | now apply mem_In].
Qed.

Lemma channel_axes_var (ds : Dataset) (key : string) (v : Var) :
  dict_get key (variables ds) = Some v ->
  channel_axes ds key = axes v /\ channel_var ds key = v.
Proof. intro H. unfold channel_axes, channel_var. now rewrite H. Qed.

Lemma combine_nested_stack (ds : Dataset) (dim : string)
    (group_keys : list string) :
  group_keys <> [] ->
  (forall k, In k group_keys -> exists v, dict_get k (variables ds) = Some v) ->
  (forall k k', In k group_keys -> In k' group_keys ->
     channel_axes ds k = channel_axes ds k') ->
  ~ In dim (map fst (channel_axes ds (hd EmptyString group_keys))) ->
  ~ In dim (dict_keys (coords_on ds (channel_var ds (hd EmptyString group_keys)))) ->
  combine_nested (map (channel_da ds) group_keys) dim
  = Ok (Combined
          {| da_var := stacked_var ds dim group_keys;
             da_coords :=
               coords_on ds (channel_var ds (hd EmptyString group_keys)) |}).
Proof.
  intros Hne Hex Hsh Hdim Hvar.
  destruct group_keys as [|k0 rest]; [congruence|]. clear Hne.
  cbn [hd] in Hdim, Hvar.
  cbn [map combine_nested hd].
  destruct (Hex k0 (or_introl eq_refl)) as [v0 Hv0].
  destruct (channel_axes_var ds k0 v0 Hv0) as [Ha0 Hc0].
  assert (Hall : forallb (same_layout (channel_da ds k0))
                   (map (channel_da ds) rest) = true).
  { apply forallb_forall. intros c Hc. apply in_map_iff in Hc.
    destruct Hc as (k & <- & Hk).
    destruct (Hex k (or_intror Hk)) as [v Hv].
    destruct (channel_axes_var ds k v Hv) as [Ha Hc].
    assert (Eax : axes v0 = axes v).
    { rewrite <- Ha0, <- Ha. apply Hsh; [now left | now right]. }
    unfold same_layout, channel_da. cbn [da_var da_coords].
    rewrite Hc0, Hc, Eax, (coords_on_same_dims ds v0 v Eax).
    now rewrite (list_eqb_refl _ axis_eqb_refl), coords_same_refl. }
  rewrite Hall.
  assert (Hd1 : mem dim (var_dims (da_var (channel_da ds k0))) = false).
  { apply mem_false. intro H. apply Hdim. unfold channel_da in H.
    cbn [da_var] in H. rewrite Hc0 in H. rewrite Ha0. exact H. }
  assert (Hd2 : dict_mem dim (da_coords (channel_da ds k0)) = false).
  { rewrite dict_mem_keys. apply mem_false. exact Hvar. }
  rewrite Hd1, Hd2. cbn [negb andb].
  unfold stacked_var, channel_da. cbn [da_var da_coords hd List.length flat_map].
  rewrite length_map, Hc0, Ha0.
  replace (flat_map (fun c : DataArray => values (da_var c))
             (map (fun key => {| da_var := channel_var ds key;
                                 da_coords := coords_on ds (channel_var ds key) |})
                  rest))
    with (flat_map (fun key => values (channel_var ds key)) rest);
    [reflexivity|].
  rewrite !flat_map_concat_map, map_map. reflexivity.
Qed.

Lemma combine_nested_channels (ds : Dataset) (dim : string)
    (group_keys : list string) :
  group_keys <> [] ->
  (forall k, In k group_keys -> exists v, dict_get k (variables ds) = Some v) ->
  (forall k k', In k group_keys -> In k' group_keys ->
     channel_axes ds k = channel_axes ds k') ->
  ~ In dim (dims_of ds) ->
  ~ In dim (dict_keys (variables ds)) ->
  combine_nested (map (channel_da ds) group_keys) dim
  = Ok (Combined
          {| da_var := stacked_var ds dim group_keys;
             da_coords :=
               coords_on ds (channel_var ds (hd EmptyString group_keys)) |}).
Proof.
  intros Hne Hex Hsh Hdim Hvar.
  apply combine_nested_stack; auto.
  - destruct group_keys as [|k0 rest]; [congruence|]. cbn [hd].
    destruct (Hex k0 (or_introl eq_refl)) as [v0 Hv0].
    destruct (channel_axes_var ds k0 v0 Hv0) as [Ha0 _]. rewrite Ha0.
    intro H. apply Hdim. apply in_dims_of.
    exists k0, v0. split; [now apply dict_get_In | exact H].
  - intro H. apply Hvar. unfold dict_keys in *. apply in_map_iff in H.
    destruct H as ([c cv] & <- & Hin). apply coords_on_In in Hin.
    destruct Hin as [Hin _]. apply (in_map fst) in Hin. exact Hin.
Qed.

(** *** The three assignments of [TensorizeChannels.__call__] *)

Section Store.
Variables (ds : Dataset) (stem dim : string) (sv : Var).
Variables (n : nat) (A : list (string * nat)).
Hypothesis S1 : Inv ds.
Hypothesis S2 : ~ In stem (coord_names ds).
Hypothesis S3 : ~ In stem (dims_of ds).
Hypothesis S4 : stem <> dim.
Hypothesis S5 : ~ In dim (map fst A).
Hypothesis S6 :
  In (dim, n) (dim_pairs (variables ds))
  \/ (~ In dim (dims_of ds)
      /\ forall v', In (dim, v') (variables ds) ->
           In dim (coord_names ds) /\ axes v' <> []).
Hypothesis S7 : axes sv = (dim, n) :: A.
Hypothesis S8 : forall dm, In dm A -> In dm (dim_pairs (variables ds)).

Lemma store_stem_not_dim : ~ In stem (var_dims sv).
Proof.
  unfold var_dims. rewrite S7. simpl. intros [H|H]; [congruence|].
  apply S3. apply in_map_iff in H. destruct H as ([d m] & <- & Hin).
  apply in_dims_pairs. exists m. now apply S8.
Qed.

Lemma store_functional (d : string) (a b : nat) :
  In (d, a) (axes sv) -> In (d, b) (axes sv) -> a = b.
Proof.
  destruct S1 as (_ & Hcalc & _).
  apply calculate_dimensions_returns in Hcalc. destruct Hcalc as [_ Hsz].
  rewrite sizes_agree_iff in Hsz. rewrite S7. simpl.
  assert (Hnew : forall m, In (dim, m) A -> False).
  { intros m Hm. apply S5. apply (in_map fst) in Hm. exact Hm. }
  intros [Ha|Ha] [Hb|Hb].
  - congruence.
  - inversion Ha; subst. exfalso. eauto.
  - inversion Hb; subst. exfalso. eauto.
  - eapply Hsz; eauto.
Qed.

Lemma store_first (olds : dict Var) :
  (forall c cv, In (c, cv) olds ->
     In (c, cv) (variables ds) /\ In c (coord_names ds)) ->
  exists x,
    setitem stem {| da_var := sv; da_coords := olds |} ds = Ok x
    /\ stored ds stem dim sv x
    /\ (~ In dim (dict_keys (variables ds)) ->
        ~ In dim (dict_keys (variables x))).
Proof.
  intro Holds.
  destruct (setitem_spec ds stem sv olds [] S1 S2 S3 store_stem_not_dim Holds)
    as (x & Hx & Hvars & Hcn & _ & Hinv).
  - constructor.
  - intros c cv [].
  - intros d m Hin. rewrite S7 in Hin.
    destruct Hin as [[= <- <-]|Hin]; [exact S6 | left; now apply S8].
  - exact store_functional.
  - rewrite app_nil_r in Hx, Hvars. exists x. split; [exact Hx|].
    assert (Hin_x : forall k v, In (k, v) (variables x) ->
              (k = stem /\ v = sv) \/ In (k, v) (variables ds)).
    { intros k v. rewrite Hvars. apply In_dict_set. }
    split; [|].
    + unfold stored. split; [exact Hinv|]. split; [|split; [|split; [|split]]].
      * rewrite Hvars. apply dict_get_set_same.
      * intros c Hc. apply Hcn in Hc. destruct Hc as [Hc|[]]. now left.
      * intros d Hd. apply in_dims_of in Hd. destruct Hd as (k & v & Hin & Hd).
        apply Hin_x in Hin. destruct Hin as [[_ ->]|Hin]; [now left|].
        right. apply in_dims_of. eauto.
      * intros k v Hin Hne. rewrite Hvars, dict_get_set_other by exact Hne.
        apply In_dict_get; [apply S1 | exact Hin].
      * intros k Hk. rewrite Hvars in Hk. apply dict_set_keys in Hk.
        destruct Hk; auto.
    + intro Hfresh. rewrite Hvars. intro H. apply dict_set_keys in H.
      destruct H as [H|H]; [congruence | contradiction].
Qed.

Lemma store_again (x : Dataset) (news : dict Var) :
  stored ds stem dim sv x ->
  news = [] \/ (exists cv, news = [(dim, cv)] /\ axes cv = [(dim, n)]
                           /\ ~ In dim (dict_keys (variables x))) ->
  exists y,
    setitem stem {| da_var := sv; da_coords := coords_on x sv ++ news |} x = Ok y
    /\ stored ds stem dim sv y
    /\ variables y = dict_set stem sv (variables x ++ news).
Proof.
  intros (Hinv & Hget & Hcn & Hdims & Hkeep & Hnames) Hnews.
  assert (Hstem_cn : ~ In stem (coord_names x)).
  { intro H. apply Hcn in H. destruct H; [contradiction | congruence]. }
  assert (Hstem_dim : ~ In stem (dims_of x)).
  { intro H. apply Hdims in H. destruct H; [|contradiction].
    now apply store_stem_not_dim. }
  destruct (setitem_spec x stem sv (coords_on x sv) news Hinv Hstem_cn Hstem_dim
              store_stem_not_dim (coords_on_In x sv))
    as (y & Hy & Hvars & Hcn' & _ & Hinv').
  - destruct Hnews as [->|(cv & -> & _)]; repeat constructor. simpl. tauto.
  - intros c cv Hin. destruct Hnews as [->|(cv' & -> & Hax & Hfresh)];
      [contradiction|].
    destruct Hin as [[= <- <-]|[]]. split; [exact Hfresh|].
    split; [congruence|]. exists n. split; [exact Hax|]. rewrite S7. now left.
  - intros d m Hin. left. apply in_dim_pairs. exists stem, sv.
    split; [now apply dict_get_In | exact Hin].
  - exact store_functional.
  - exists y. split; [exact Hy|]. split; [|exact Hvars].
    assert (Hin_y : forall k v, In (k, v) (variables y) ->
              (k = stem /\ v = sv) \/ In (k, v) (variables x) \/ In (k, v) news).
    { intros k v. rewrite Hvars. intro H. apply In_dict_set in H.
      rewrite in_app_iff in H. tauto. }
    unfold stored. split; [exact Hinv'|]. split; [|split; [|split; [|split]]].
    + rewrite Hvars. apply dict_get_set_same.
    + intros c Hc. apply Hcn' in Hc. destruct Hc as [Hc|Hc]; [auto|].
      destruct Hnews as [->|(cv & -> & _)]; [contradiction|].
      destruct Hc as [<-|[]]. now right.
    + intros d Hd. apply in_dims_of in Hd. destruct Hd as (k & v & Hin & Hd).
      apply Hin_y in Hin. destruct Hin as [[_ ->]|[Hin|Hin]]; [now left| |].
      * apply Hdims. apply in_dims_of. eauto.
      * destruct Hnews as [->|(cv & -> & Hax & _)]; [contradiction|].
        destruct Hin as [[= <- <-]|[]]. left. unfold var_dims in *.
        rewrite Hax in Hd. rewrite S7. simpl in *. tauto.
    + intros k v Hin Hne. rewrite Hvars, dict_get_set_other by exact Hne.
      rewrite dict_get_app, (Hkeep k v Hin Hne). reflexivity.
    + intros k Hk. rewrite Hvars in Hk. apply dict_set_keys in Hk.
      destruct Hk as [->|Hk]; [now left|]. unfold dict_keys in Hk.
      rewrite map_app, in_app_iff in Hk. destruct Hk as [Hk|Hk]; [auto|].
      destruct Hnews as [->|(cv & -> & _)]; [contradiction|].
      destruct Hk as [<-|[]]. auto.
Qed.
End Store.

(** *** C2: the fused variable holds the channels *)

Lemma firstn_skipn_concat {X : Type} (b : nat) (ll : list (list X)) :
  forall i x,
    (forall y, In y ll -> List.length y = b) ->
    nth_error ll i = Some x ->
    firstn b (skipn (i * b) (List.concat ll)) = x.
Proof.
  induction ll as [|a ll IH]; intros [|i] x Hlen Hn; simpl in *;
    try discriminate.
  - injection Hn as <-.
    rewrite firstn_app, (Hlen a (or_introl eq_refl)), Nat.sub_diag.
    simpl. rewrite app_nil_r.
    rewrite <- (Hlen a (or_introl eq_refl)). apply firstn_all.
  - rewrite skipn_app, (Hlen a (or_introl eq_refl)).
    rewrite skipn_all2 by (rewrite (Hlen a (or_introl eq_refl)); lia).
    replace (b + i * b - b)%nat with (i * b)%nat by lia. simpl.
    apply IH; auto.
Qed.

Lemma fresh_names_spec (self : Tensorizer) (ds : Dataset) :
  fresh_names self ds = true ->
  ~ In (dim_name self) (dims_of ds)
  /\ ~ In (dim_name self) (dict_keys (variables ds))
  /\ stem self <> dim_name self
  /\ ~ In (stem self) (matching_names self ds)
  /\ ~ In (stem self) (coord_names ds)
  /\ ~ In (stem self) (dims_of ds).
Proof.
  unfold fresh_names.
  rewrite !andb_true_iff, !negb_true_iff, !mem_false, dict_mem_keys, mem_false,
    String.eqb_neq.
  tauto.
Qed.

Lemma free_stem_spec (self : Tensorizer) (ds : Dataset) :
  free_stem self ds = true ->
  stem self <> dim_name self
  /\ ~ In (stem self) (matching_names self ds)
  /\ ~ In (stem self) (coord_names ds)
  /\ ~ In (stem self) (dims_of ds).
Proof.
  unfold free_stem.
  rewrite !andb_true_iff, !negb_true_iff, !mem_false, String.eqb_neq.
  tauto.
Qed.

Lemma fitting_axis_spec (self : Tensorizer) (ds : Dataset) :
  fitting_axis self ds = true ->
  ~ In (dim_name self) (dict_keys (data_vars ds))
  /\ ~ In (dim_name self)
         (var_dims (channel_var ds (hd EmptyString (matching_names self ds))))
  /\ ~ In (dim_name self)
         (dict_keys
            (coords_on ds
               (channel_var ds (hd EmptyString (matching_names self ds)))))
  /\ (forall n, dict_get (dim_name self) (sizes ds) = Some n ->
        n = List.length (matching_names self ds))
  /\ (assign_coords self = true ->
      ~ In (dim_name self) (dict_keys (variables ds))).
Proof.
  unfold fitting_axis.
  rewrite !andb_true_iff, !negb_true_iff, !dict_mem_keys.
  intros ((((H1 & H2) & H3) & H4) & H5).
  apply mem_false in H1, H2, H3.
  split; [exact H1|]. split; [exact H2|]. split; [exact H3|]. split.
  - intros n Hn. rewrite Hn in H4. now apply Nat.eqb_eq in H4.
  - intros Ha. rewrite Ha in H5. cbn [andb] in H5. now apply mem_false.
Qed.

(** Names that are new to the dataset are free and fitting. *)
Lemma fresh_names_fitting (self : Tensorizer) (ds : Dataset) :
  has_channels self ds = true ->
  fresh_names self ds = true ->
  free_stem self ds = true /\ fitting_axis self ds = true.
Proof.
  intros Hhas Hfr.
  destruct (fresh_names_spec self ds Hfr) as (Hd & Hv & Hsd & Hm & Hc & Hsdim).
  split.
  - unfold free_stem.
    rewrite !andb_true_iff, !negb_true_iff, !mem_false, String.eqb_neq. tauto.
  - assert (Hvar : dict_mem (dim_name self) (variables ds) = false).
    { rewrite dict_mem_keys. now apply mem_false. }
    assert (Hsz : dict_get (dim_name self) (sizes ds) = None).
    { now apply dict_get_None. }
    unfold fitting_axis. rewrite Hsz, Hvar, andb_false_r. cbn [negb].
    rewrite !andb_true_r. rewrite !andb_true_iff, !negb_true_iff.
    rewrite !dict_mem_keys, !mem_false.
    split; [split|].
    + intro H. apply Hv.
      apply (in_keys_filter (fun x => negb (mem x (coord_names ds)))) in H. tauto.
    + intro H. apply Hd.
      destruct (matching_names self ds) as [|k0 rest] eqn:E.
      { unfold has_channels in Hhas. rewrite E in Hhas. discriminate. }
      cbn [hd] in H.
      assert (Hk0 : In k0 (matching_names self ds)) by (rewrite E; now left).
      destruct (in_matching_names self ds k0 Hk0) as (v & Hget & Hin & _).
      destruct (channel_axes_var ds k0 v Hget) as [_ Hcv]. rewrite Hcv in H.
      apply in_dims_of. eauto.
    + intro H. apply Hv. unfold dict_keys in *. apply in_map_iff in H.
      destruct H as ([c cv] & <- & Hin). apply coords_on_In in Hin.
      destruct Hin as [Hin _]. apply (in_map fst) in Hin. exact Hin.
Qed.

(** C2 (as amended). For every consistent dataset with at least one
    variable matching the pattern, whose matching variables have pairwise
    comparable keys and identical axes, for which the stem is neither a
    channel, a coordinate nor a dimension, and for which the new axis name
    is not a data variable, nor an axis or a coordinate of the channels,
    names no dimension of another extent than the number of channels and,
    where coordinates are assigned, no variable, TensorizeChannels returns a
    dataset whose stem variable has the new axis first, one index per
    channel, and whose slice at position [i] of that axis has exactly the
    axes and the values of the [i]-th matching variable in the numeric
    order; the channels themselves are removed. *)
Theorem TensorizeChannels_lossless :
  forall (self : Tensorizer) (dataset : Dataset),
    consistent dataset = true ->
    has_channels self dataset = true ->
    comparable (regex self) (matching_names self dataset) = true ->
    share_axes self dataset = true ->
    free_stem self dataset = true ->
    fitting_axis self dataset = true ->
    exists group_keys result stacked,
      _get_group_keys self dataset = Ok group_keys
      /\ TensorizeChannels self dataset = Ok result
      /\ dict_get (stem self) (variables result) = Some stacked
      /\ hd_error (axes stacked) = Some (dim_name self, List.length group_keys)
      /\ (forall i key,
            nth_error group_keys i = Some key ->
            exists v,
              dict_get key (variables dataset) = Some v
              /\ axes (isel_first i stacked) = axes v
              /\ values (isel_first i stacked) = values v)
      /\ (forall key, In key group_keys ->
            dict_get key (variables result) = None).
Proof.
  intros self dataset Hc Hhas Hcmp Hsh Hfs Hfa.
  destruct (consistent_facts dataset Hc) as (Hnd & Hcalc & Hcn & Hdc & Hws).
  assert (HInv : Inv dataset) by (unfold Inv; auto).
  destruct (free_stem_spec self dataset Hfs)
    as (Hsd & Hstem_m & Hstem_c & Hstem_d).
  destruct (fitting_axis_spec self dataset Hfa)
    as (Hdim_data & Hdim_ax & Hdim_co & Hdim_n & Hdim_as).
  destruct (_sort_numerically_spec (regex self) (matching_names self dataset) Hcmp)
    as (gk & Hgk & Hperm & _).
  assert (Hin_gk : forall k, In k gk -> In k (matching_names self dataset)).
  { intros k Hk. apply (Permutation_in _ (Permutation_sym Hperm) Hk). }
  assert (Hgk_ne : gk <> []).
  { intros ->. apply Permutation_sym, Permutation_nil in Hperm.
    unfold has_channels in Hhas. rewrite Hperm in Hhas. discriminate. }
  assert (Hgk_var : forall k, In k gk ->
            exists v, dict_get k (variables dataset) = Some v
                      /\ In (k, v) (variables dataset) /\ k <> stem self).
  { intros k Hk. pose proof (Hin_gk k Hk) as Hm.
    destruct (in_matching_names self dataset k Hm) as (v & Hv & Hin & _).
    exists v. split; [exact Hv|]. split; [exact Hin|]. congruence. }
  assert (Hshare : forall k k', In k gk -> In k' gk ->
            channel_axes dataset k = channel_axes dataset k').
  { intros k k' Hk Hk'. apply (share_axes_spec self dataset Hsh); auto. }
  assert (Hhd : In (hd EmptyString gk) gk).
  { destruct gk; [congruence | now left]. }
  (* the first matching name and the first of the sorted names *)
  assert (Hm0 : In (hd EmptyString (matching_names self dataset)) gk).
  { apply (Permutation_in _ Hperm).
    destruct (matching_names self dataset) as [|m0 ms] eqn:E; [|now left].
    unfold has_channels in Hhas. rewrite E in Hhas. discriminate. }
  assert (Eax0 : axes (channel_var dataset
                         (hd EmptyString (matching_names self dataset)))
                 = axes (channel_var dataset (hd EmptyString gk))).
  { destruct (Hgk_var _ Hm0) as (v & Hv & _).
    destruct (Hgk_var _ Hhd) as (w & Hw & _).
    destruct (channel_axes_var dataset _ v Hv) as [Hav Hcv].
    destruct (channel_axes_var dataset _ w Hw) as [Haw Hcw].
    rewrite Hcv, Hcw, <- Hav, <- Haw. now apply Hshare. }
  rewrite (coords_on_same_dims dataset _ _ Eax0) in Hdim_co.
  unfold var_dims in Hdim_ax. rewrite Eax0 in Hdim_ax.
  set (dim := dim_name self) in *. set (st := stem self) in *.
  set (sv := stacked_var dataset dim gk).
  set (A := channel_axes dataset (hd EmptyString gk)).
  assert (EA : axes (channel_var dataset (hd EmptyString gk)) = A).
  { destruct (Hgk_var _ Hhd) as (w & Hw & _).
    destruct (channel_axes_var dataset _ w Hw) as [Haw Hcw].
    unfold A. now rewrite Hcw, Haw. }
  rewrite EA in Hdim_ax.
  assert (S8 : forall dm, In dm A -> In dm (dim_pairs (variables dataset))).
  { intros [d m] Hdm. destruct (Hgk_var _ Hhd) as (v0 & Hv0 & Hin0 & _).
    unfold A, channel_axes in Hdm. rewrite Hv0 in Hdm.
    apply in_dim_pairs. eauto. }
  assert (S7 : axes sv = (dim, List.length gk) :: A) by reflexivity.
  assert (S6 : In (dim, List.length gk) (dim_pairs (variables dataset))
               \/ (~ In dim (dims_of dataset)
                   /\ forall v', In (dim, v') (variables dataset) ->
                        In dim (coord_names dataset) /\ axes v' <> [])).
  { destruct (dict_get dim (sizes dataset)) as [m|] eqn:Em.
    - left. rewrite (Hdim_n m eq_refl) in Em.
      rewrite <- (Permutation_length Hperm).
      unfold sizes in Em. rewrite dict_get_first_wins in Em.
      now apply dict_get_In.
    - right. split; [now apply dict_get_None in Em|].
      intros v' Hin'.
      assert (Hco : In dim (coord_names dataset)).
      { destruct (mem dim (coord_names dataset)) eqn:Ec; [now apply mem_In|].
        exfalso. apply Hdim_data. unfold data_vars.
        apply (in_keys_filter (fun x => negb (mem x (coord_names dataset)))).
        split; [apply (in_map fst) in Hin'; exact Hin' | now rewrite Ec]. }
      split; [exact Hco|]. intro Hsc. apply Hdim_co.
      unfold dict_keys. apply in_map_iff. exists (dim, v'). split; [reflexivity|].
      unfold coords_on. apply filter_In. split; [exact Hin'|].
      cbn [fst snd]. rewrite (proj2 (mem_In _ _) Hco).
      unfold var_dims. rewrite Hsc. reflexivity. }
  (* the run *)
  exists gk. unfold TensorizeChannels.
  assert (Egk : _get_group_keys self dataset = Ok gk) by exact Hgk.
  rewrite Egk. cbn [bind]. fold dim st.
  rewrite (mapM_map _ (channel_da dataset)).
  2:{ intros k Hk. destruct (Hgk_var k Hk) as (v & Hv & _).
      now apply (getitem_da_channel dataset k v). }
  cbn [bind].
  rewrite (combine_nested_stack dataset dim gk Hgk_ne); auto.
  2:{ intros k Hk. destruct (Hgk_var k Hk) as (v & Hv & _). eauto. }
  cbn [bind setitem_combined]. fold st sv.
  destruct (store_first dataset st dim sv (List.length gk) A HInv Hstem_c Hstem_d
              Hsd Hdim_ax S6 S7 S8
              (coords_on dataset (channel_var dataset (hd EmptyString gk)))
              (coords_on_In dataset _))
    as (x1 & Hx1 & Hst1 & Hfresh1).
  rewrite Hx1. cbn [bind].
  (* the optional coordinate *)
  assert (Hx2 : exists x2,
            (if assign_coords self
             then da <- getitem_da st x1 ;;
                  da0 <- assign_coords_da dim gk da ;; setitem st da0 x1
             else Ok x1) = Ok x2
            /\ stored dataset st dim sv x2).
  { destruct (assign_coords self) eqn:Eas; [|exists x1; auto].
    specialize (Hfresh1 (Hdim_as eq_refl)).
    pose proof Hst1 as (_ & Hget1 & _).
    rewrite (getitem_da_stored x1 st sv Hget1). cbn [bind].
    unfold assign_coords_da. cbn [da_var da_coords]. rewrite S7.
    cbn [dict_get]. rewrite String.eqb_refl, Nat.eqb_refl. cbn [bind].
    rewrite dict_set_fresh.
    2:{ apply mem_false. intro H. apply Hfresh1. unfold dict_keys in *.
        apply in_map_iff in H. destruct H as ([c cv] & <- & Hin).
        apply coords_on_In in Hin. destruct Hin as [Hin _].
        apply (in_map fst) in Hin. exact Hin. }
    destruct (store_again dataset st dim sv (List.length gk) A HInv Hstem_c
                Hstem_d Hsd Hdim_ax S6 S7 S8 x1
                [(dim, {| axes := [(dim, List.length gk)];
                          values := map Str gk; var_attrs := [] |})] Hst1)
      as (y & Hy & Hsty & _).
    { right. eexists. split; [reflexivity|]. split; [reflexivity | exact Hfresh1]. }
    exists y. auto. }
  destruct Hx2 as (x2 & Hx2 & Hst2). rewrite Hx2. cbn [bind].
  pose proof Hst2 as (_ & Hget2 & _).
  rewrite (getitem_da_stored x2 st sv Hget2). cbn [bind]. unfold chunk.
  destruct (store_again dataset st dim sv (List.length gk) A HInv Hstem_c
              Hstem_d Hsd Hdim_ax S6 S7 S8 x2 [] Hst2 (or_introl eq_refl))
    as (x3 & Hx3 & Hst3 & _).
  rewrite app_nil_r in Hx3. rewrite Hx3. cbn [bind].
  destruct Hst3 as (Hinv3 & Hget3 & _ & _ & Hkeep3 & _).
  (* the removal of the channels *)
  unfold drop_vars.
  assert (Hall : forallb (fun k => dict_mem k (variables x3)) gk = true).
  { apply forallb_forall. intros k Hk.
    destruct (Hgk_var k Hk) as (v & _ & Hin & Hne).
    unfold dict_mem. now rewrite (Hkeep3 k v Hin Hne). }
  rewrite Hall.
  destruct (calculate_dimensions_sub (variables x3)
              (filter (fun kv => negb (mem (fst kv) gk)) (variables x3)))
    as [dims3 Hdims3].
  { intros kv Hkv. apply filter_In in Hkv. tauto. }
  { apply Hinv3. }
  rewrite Hdims3. cbn [bind].
  eexists. exists sv. split; [reflexivity|]. split; [reflexivity|].
  cbn [variables]. split; [|split; [|split]].
  - rewrite (dict_get_filter_key (fun x => negb (mem x gk))).
    replace (mem st gk) with false; [exact Hget3|].
    symmetry. apply mem_false. intro H. apply Hstem_m. now apply Hin_gk.
  - reflexivity.
  - intros i key Hnth. pose proof (nth_error_In _ _ Hnth) as Hk.
    destruct (Hgk_var key Hk) as (v & Hv & Hin & _).
    destruct (channel_axes_var dataset key v Hv) as [Hax Hcv].
    assert (EAv : A = axes v).
    { unfold A. rewrite (Hshare _ key Hhd Hk). exact Hax. }
    exists v. split; [exact Hv|]. unfold isel_first. rewrite S7.
    cbn [tl axes values]. split; [exact EAv|].
    unfold sv, stacked_var. cbn [values]. rewrite flat_map_concat_map.
    apply firstn_skipn_concat.
    + intros y Hy. apply in_map_iff in Hy. destruct Hy as (k & <- & Hk').
      destruct (Hgk_var k Hk') as (w & Hw & Hinw & _).
      destruct (channel_axes_var dataset k w Hw) as [Haxw Hcw].
      rewrite Hcw. pose proof (Hws k w Hinw) as Hshape.
      unfold well_shaped, var_shape in Hshape. apply Nat.eqb_eq in Hshape.
      rewrite Hshape. unfold A. rewrite (Hshare _ k Hhd Hk'), Haxw. reflexivity.
    + rewrite nth_error_map, Hnth. simpl. now rewrite Hcv.
  - intros key Hk.
    rewrite (dict_get_filter_key (fun x => negb (mem x gk))).
    now rewrite (proj2 (mem_In key gk) Hk).
Qed.

Lemma TensorizeChannels_lossless_witness :
  exists self,
    TensorizeChannels_init "b" None (Some "ch") false = Ok self
    /\ exists group_keys result stacked,
         _get_group_keys self shared_axis = Ok group_keys
         /\ TensorizeChannels self shared_axis = Ok result
         /\ dict_get "b" (variables result) = Some stacked
         /\ hd_error (axes stacked) = Some ("ch", List.length group_keys)
         /\ (forall i key,
               nth_error group_keys i = Some key ->
               exists v,
                 dict_get key (variables shared_axis) = Some v
                 /\ axes (isel_first i stacked) = axes v
                 /\ values (isel_first i stacked) = values v)
         /\ (forall key, In key group_keys ->
               dict_get key (variables result) = None).
Proof.
  eexists. split; [reflexivity|].
  match goal with
  | |- context [TensorizeChannels ?self shared_axis] =>
      apply (TensorizeChannels_lossless self shared_axis)
  end; reflexivity.
Defined.

(** C2, as stated, fails, although the matching variables share their
    axes: when the dataset already has an axis of the new name with another
    extent, or a scalar variable of that name, the assignment raises; when
    the stem is itself a channel ([x1] for the pattern [x(\d+)]), the fused
    variable is dropped with the channels; and when two keys are not
    comparable, the sort raises. *)
Lemma TensorizeChannels_not_always_lossless :
  (exists self,
     TensorizeChannels_init "b" None (Some "ch") false = Ok self
     /\ share_axes self reused_axis = true
     /\ TensorizeChannels self reused_axis
        = Raise (ValueError "conflicting sizes for dimension"))
  /\ (exists self,
        TensorizeChannels_init "x" None (Some "other") false = Ok self
        /\ share_axes self three_channels = true
        /\ TensorizeChannels self three_channels
           = Raise (ValueError "dimension already exists as a scalar variable"))
  /\ (exists self,
        TensorizeChannels_init "x1" (Some x_digits) None false = Ok self
        /\ share_axes self three_channels = true
        /\ match TensorizeChannels self three_channels with
           | Ok result => dict_keys (variables result) = ["t"; "other"]
           | _ => False
           end)
  /\ (exists self,
        TensorizeChannels_init "x" None None true = Ok self
        /\ share_axes self mixed_channels = true
        /\ TensorizeChannels self mixed_channels
           = Raise (TypeError
               "'<' not supported between instances of 'str' and 'int'")).
Proof.
  repeat split; eexists; (split; [reflexivity|]); split; reflexivity.
Qed.

(** ** [re.split] never runs out of rounds *)

Lemma strip_prefix_length (pre : string) : forall s r,
  strip_prefix pre s = Some r -> String.length s = (String.length pre + String.length r)%nat.
Proof.
  induction pre as [|a pre IH]; intros [|b s] r; simpl; try discriminate.
  - now intros [= <-].
  - now intros [= <-].
  - destruct (Ascii.eqb a b); [|discriminate]. intro H. now rewrite (IH s r H).
Qed.

Lemma span_digits_length (s : string) :
  String.length s
  = (String.length (fst (span_digits s)) + String.length (snd (span_digits s)))%nat.
Proof.
  induction s as [|c s IH]; simpl; [reflexivity|].
  destruct (is_digit c); [|reflexivity].
  destruct (span_digits s) as [run rest]. simpl in *. now rewrite IH.
Qed.

Lemma substring_length_le (s : string) : forall n m,
  (String.length (substring n m s) <= m)%nat.
Proof.
  induction s as [|c s IH]; intros [|n] [|m]; simpl; try lia.
  - specialize (IH 0%nat m). lia.
  - apply (IH n 0%nat).
  - apply (IH n (S m)).
Qed.

Lemma append_length (a b : string) :
  String.length (a ++ b)%string = (String.length a + String.length b)%nat.
Proof. induction a as [|c a IH]; simpl; [reflexivity | now rewrite IH]. Qed.

Lemma match_tail_length (p : pattern) (s r : string) :
  match_tail p s = Some r -> (String.length r <= String.length s)%nat.
Proof.
  unfold match_tail. destruct (strip_prefix (suffix p) s) as [r'|] eqn:E;
    [|discriminate].
  apply strip_prefix_length in E. intro H.
  assert (r = r').
  { destruct (anchored p); [destruct (at_end r')|]; congruence. }
  subst. lia.
Qed.

Lemma match_group_length (p : pattern) (run rest : string) (k : nat) :
  forall g r,
    (k <= String.length run)%nat ->
    match_group p run rest k = Some (g, r) ->
    (String.length r < String.length run + String.length rest)%nat.
Proof.
  induction k as [|k IH]; intros g r Hk; simpl; [discriminate|].
  destruct (match_tail p _) as [r'|] eqn:E.
  - intros [= _ <-]. apply match_tail_length in E.
    rewrite append_length in E.
    pose proof (substring_length_le run (S k) (String.length run - S k)). lia.
  - apply IH. lia.
Qed.

Lemma match_here_length (p : pattern) (s g r : string) :
  match_here p s = Some (g, r) -> (String.length r < String.length s)%nat.
Proof.
  unfold match_here. destruct (strip_prefix (prefix p) s) as [s1|] eqn:E;
    [|discriminate].
  apply strip_prefix_length in E. pose proof (span_digits_length s1) as Hs.
  destruct (span_digits s1) as [run rest]. simpl in Hs. intro H.
  apply match_group_length in H; lia.
Qed.

Lemma re_find_length (p : pattern) (s : string) : forall before g r,
  re_find p s = Some (before, g, r) -> (String.length r < String.length s)%nat.
Proof.
  induction s as [|c s IH]; intros before g r; simpl.
  - destruct (match_here p "") as [[g' r']|] eqn:E; [|discriminate].
    intros [= _ _ <-]. now apply match_here_length in E.
  - destruct (match_here p (String c s)) as [[g' r']|] eqn:E.
    + intros [= _ _ <-]. now apply match_here_length in E.
    + destruct (re_find p s) as [[[b' g'] r']|] eqn:E'; [|discriminate].
      intros [= _ _ <-]. specialize (IH _ _ _ eq_refl). simpl. lia.
Qed.

(** Any number of rounds from [length s] on gives the same pieces: the
    bound in [re_split] is never what stops the splitting. *)
Lemma re_split_fuel_enough (p : pattern) (fuel : nat) : forall s fuel',
  (String.length s <= fuel)%nat -> (String.length s <= fuel')%nat ->
  re_split_fuel fuel p s = re_split_fuel fuel' p s.
Proof.
  assert (Hempty : re_find p "" = None).
  { destruct (re_find p "") as [[[b g] r]|] eqn:E; [|reflexivity].
    apply re_find_length in E. simpl in E. lia. }
  induction fuel as [|fuel IH]; intros s fuel' H H'.
  - destruct s; [|simpl in H; lia].
    destruct fuel'; cbn [re_split_fuel]; [reflexivity | now rewrite Hempty].
  - destruct fuel' as [|fuel'].
    + destruct s; [|simpl in H'; lia]. cbn [re_split_fuel]. now rewrite Hempty.
    + cbn [re_split_fuel].
      destruct (re_find p s) as [[[b g] r]|] eqn:E; [|reflexivity].
      apply re_find_length in E. do 2 f_equal. apply IH; lia.
Qed.

(** * Further properties of the transforms *)

(** ** MapDict after MapDict *)

Section MapDictFusion.
Context {A B C : Type}.
Variable f : A -> outcome B.
Variable g : B -> outcome C.

Local Abbreviation fg := (fun x => y <- f x ;; g y).

Lemma MapDict_loop_returns {X Y : Type} (t : X -> outcome Y) (items : dict X) :
  forall out calls calls' res,
    MapDict_loop t items out calls = (calls', Ok res) ->
    forall k d, In (k, d) items -> returns (t d).
Proof.
  induction items as [|[k0 d0] items IH]; intros out calls calls' res H k d Hin;
    [contradiction|].
  cbn [MapDict_loop] in H. destruct (t d0) as [v|e|w] eqn:E; try discriminate.
  destruct Hin as [[= <- <-]|Hin]; [now exists v | eauto].
Qed.

Lemma transformed_compose (d : dict A) : forall (m : dict B) (r : dict C),
  transformed f d m -> transformed g m r -> transformed fg d r.
Proof.
  induction d as [|[k x] d IH]; intros m r H1 H2.
  - inversion H1; subst. inversion H2; subst. constructor.
  - inversion H1 as [|? [k1 y] ? m' [Hk1 Hy] H1']; subst.
    inversion H2 as [|? [k2 z] ? r' [Hk2 Hz] H2']; subst.
    simpl in *. subst. constructor; [|now apply (IH m')].
    simpl. split; [reflexivity|]. now rewrite Hy.
Qed.

Lemma transformed_functional {X Y : Type} (t : X -> outcome Y) (d : dict X) :
  forall r r', transformed t d r -> transformed t d r' -> r = r'.
Proof.
  induction d as [|[k x] d IH]; intros r r' H1 H2.
  - inversion H1; inversion H2; subst. reflexivity.
  - inversion H1 as [|? [k1 y] ? m' [Hk1 Hy] H1']; subst.
    inversion H2 as [|? [k2 z] ? r2 [Hk2 Hz] H2']; subst.
    simpl in *. subst. f_equal; [|now apply IH]. f_equal. congruence.
Qed.

Lemma MapDict_transformed {X Y : Type} (t : X -> outcome Y) (d : dict X) :
  unique_keys (dict_keys d) = true ->
  (forall k x, In (k, x) d -> returns (t x)) ->
  exists r, MapDict t d = Ok r /\ transformed t d r.
Proof.
  intros Hu Hok.
  destruct (MapDict_loop_ok t d [] [] Hu Hok) as (res & Hres & Heq).
  exists res. unfold MapDict. rewrite Heq. auto.
Qed.

Lemma transformed_In {X Y : Type} (t : X -> outcome Y) (d : dict X) (r : dict Y) :
  transformed t d r ->
  forall k y, In (k, y) r -> exists x, In (k, x) d /\ t x = Ok y.
Proof.
  induction 1 as [|[k0 x0] [k1 y1] d r [Hk Hy] _ IH]; intros k y Hin;
    [contradiction|].
  simpl in *. destruct Hin as [[= <- <-]|Hin].
  - exists x0. subst. auto.
  - destruct (IH k y Hin) as (x & Hx & Ht). eauto.
Qed.

Lemma MapDict_returns {X Y : Type} (t : X -> outcome Y) (d : dict X) (r : dict Y) :
  MapDict t d = Ok r -> forall k x, In (k, x) d -> returns (t x).
Proof.
  unfold MapDict. destruct (MapDict_loop t d [] []) as [calls res] eqn:E.
  simpl. intros ->. exact (MapDict_loop_returns t d _ _ _ _ E).
Qed.

Lemma MapDict_fused_of_sequence (d : dict A) (m : dict B) (r : dict C) :
  unique_keys (dict_keys d) = true ->
  MapDict f d = Ok m -> MapDict g m = Ok r -> MapDict fg d = Ok r.
Proof.
  intros Hu Hm Hr.
  destruct (MapDict_transformed f d Hu (MapDict_returns f d m Hm)) as (m' & Hm' & Tm).
  assert (m' = m) by congruence. subst m'.
  assert (Hum : unique_keys (dict_keys m) = true)
    by now rewrite (transformed_keys f d m Tm).
  destruct (MapDict_transformed g m Hum (MapDict_returns g m r Hr)) as (r' & Hr' & Tr).
  assert (r' = r) by congruence. subst r'.
  destruct (MapDict_transformed fg d Hu) as (r2 & Hr2 & T2).
  - intros k x Hin.
    destruct (MapDict_returns f d m Hm k x Hin) as [y Hy].
    rewrite Hy. cbn [bind].
    assert (Hin' : exists k', In (k', y) m).
    { clear - Tm Hin Hy. induction Tm as [|[k0 x0] [k1 y1] d m [Hk Hy1] _ IH];
        [contradiction|]. simpl in *. destruct Hin as [[= -> ->]|Hin].
      - exists k1. left. f_equal. congruence.
      - destruct (IH Hin) as [k' Hk']. eauto. }
    destruct Hin' as [k' Hk']. exact (MapDict_returns g m r Hr k' y Hk').
  - rewrite Hr2. f_equal.
    exact (transformed_functional fg d r2 r T2 (transformed_compose d m r Tm Tr)).
Qed.

Lemma MapDict_sequence_of_fused (d : dict A) (r : dict C) :
  unique_keys (dict_keys d) = true ->
  MapDict fg d = Ok r ->
  exists m, MapDict f d = Ok m /\ MapDict g m = Ok r.
Proof.
  intros Hu Hr.
  pose proof (MapDict_returns fg d r Hr) as Hall.
  destruct (MapDict_transformed f d Hu) as (m & Hm & Tm).
  { intros k x Hin. destruct (Hall k x Hin) as [z Hz].
    destruct (f x) as [y|e|w]; [now exists y | discriminate | discriminate]. }
  exists m. split; [exact Hm|].
  assert (Hum : unique_keys (dict_keys m) = true)
    by now rewrite (transformed_keys f d m Tm).
  destruct (MapDict_transformed g m Hum) as (r' & Hr' & Tr).
  { intros k y Hin. destruct (transformed_In f d m Tm k y Hin) as (x & Hx & Hy).
    destruct (Hall k x Hx) as [z Hz]. rewrite Hy in Hz. now exists z. }
  rewrite Hr'. f_equal.
  destruct (MapDict_transformed fg d Hu Hall) as (r2 & Hr2 & T2).
  assert (r2 = r) by congruence. subst r2.
  exact (transformed_functional fg d r' r (transformed_compose d m r' Tm Tr) T2).
Qed.
End MapDictFusion.

(** X1. Two MapDict stages in a row return what one MapDict stage with the
    two transforms applied in a row returns, and one returns exactly when
    the other does (the key and the cause in the error may differ). *)
Theorem MapDict_fusion :
  forall (A B C : Type) (f : A -> outcome B) (g : B -> outcome C)
         (datasets : dict A),
    unique_keys (dict_keys datasets) = true ->
    returned (out <- MapDict f datasets ;; MapDict g out)
    = returned (MapDict (fun x => y <- f x ;; g y) datasets).
Proof.
  intros A B C f g datasets Hu.
  destruct (MapDict (fun x => y <- f x ;; g y) datasets) as [r|e|w] eqn:E.
  - destruct (MapDict_sequence_of_fused f g datasets r Hu E) as (m & Hm & Hr).
    rewrite Hm. cbn [bind]. now rewrite Hr.
  - destruct (MapDict f datasets) as [m|e'|w'] eqn:Em; [|reflexivity|reflexivity].
    cbn [bind]. destruct (MapDict g m) as [r|e'|w'] eqn:Er; [|reflexivity|reflexivity].
    rewrite (MapDict_fused_of_sequence f g datasets m r Hu Em Er) in E. discriminate.
  - destruct (MapDict f datasets) as [m|e'|w'] eqn:Em; [|reflexivity|reflexivity].
    cbn [bind]. destruct (MapDict g m) as [r|e'|w'] eqn:Er; [|reflexivity|reflexivity].
    rewrite (MapDict_fused_of_sequence f g datasets m r Hu Em Er) in E. discriminate.
Qed.

Lemma MapDict_fusion_witness :
  returned (out <- MapDict DropZeroDimensions [("a", time_signal); ("b", time_signal_zero_error)] ;;
            MapDict (StandardizeSignalDataset "src") out)
  = returned (MapDict (fun x => y <- DropZeroDimensions x ;;
                                StandardizeSignalDataset "src" y)
                [("a", time_signal); ("b", time_signal_zero_error)]).
Proof.
  apply (MapDict_fusion Dataset Dataset Dataset DropZeroDimensions
           (StandardizeSignalDataset "src") [("a", time_signal); ("b", time_signal_zero_error)]).
  reflexivity.
Defined.

(** ** RenameDimensions beyond idempotence *)

Lemma rename_dims_check_raises (items : list (string * string)) (ds : Dataset) :
  (exists old new, In (old, new) items /\ ~ In old (dims_of ds)) ->
  exists msg, rename_dims_check items ds = Raise (ValueError msg).
Proof.
  induction items as [|[k v] items IH]; intros (old & new & Hin & Hno);
    [contradiction|].
  cbn [rename_dims_check].
  destruct (mem k (dims_of ds)) eqn:Ek; cbn [negb]; [|eexists; reflexivity].
  destruct (mem v (dims_of ds) || dict_mem v (variables ds));
    [eexists; reflexivity|].
  apply IH. exists old, new. split; [|exact Hno].
  destruct Hin as [[= -> ->]|Hin]; [|exact Hin].
  apply mem_In in Ek. contradiction.
Qed.

Lemma dims_of_squeeze_extent (ds : Dataset) (d : string) :
  In d (dims_of (squeeze false ds)) ->
  exists n, dict_get d (sizes ds) = Some n /\ n <> 1%nat.
Proof.
  intro Hd. apply in_dims_pairs in Hd. destruct Hd as [m Hm].
  rewrite squeeze_false_eq in Hm. cbn [variables] in Hm.
  rewrite dim_pairs_squeezed in Hm. apply filter_In in Hm.
  destruct Hm as [Hin Hsq]. cbn [fst] in Hsq.
  apply negb_true_iff, mem_false in Hsq.
  destruct (dict_get d (sizes ds)) as [n|] eqn:E.
  - exists n. split; [reflexivity|]. intros ->. apply Hsq.
    unfold squeeze_dims, dict_keys. apply in_map_iff. exists (d, 1%nat).
    split; [reflexivity|]. apply filter_In. split; [|reflexivity].
    now apply dict_get_In.
  - exfalso. apply dict_get_None in E. apply E.
    unfold sizes. apply first_wins_keys. apply (in_map fst) in Hin. exact Hin.
Qed.

(** X2. RenameDimensions squeezes before it renames: when the table
    renames, for the name of the dataset, an axis that the dataset does not
    have or has with extent 1, the axis is gone when [rename_dims] looks for
    it and RenameDimensions raises [ValueError]. *)
Theorem RenameDimensions_squeezed_axis :
  forall (dimension_mapping : dict (dict string)) (dataset : Dataset)
         (name : string) (dims : dict string) (old_name new_name : string),
    dict_get "name" (attrs dataset) = Some (AStr name) ->
    dict_get name dimension_mapping = Some dims ->
    In (old_name, new_name) dims ->
    (forall n, dict_get old_name (sizes dataset) = Some n -> n = 1%nat) ->
    exists msg, RenameDimensions dimension_mapping dataset = Raise (ValueError msg).
Proof.
  intros table dataset name dims old new Hn Ht Hin Hone.
  unfold RenameDimensions, attrs_getitem. rewrite Hn. cbn [bind hashable].
  rewrite Ht. unfold rename_dims.
  destruct (rename_dims_check_raises dims (squeeze false dataset)) as [msg Hmsg].
  - exists old, new. split; [exact Hin|]. intro Hd.
    apply dims_of_squeeze_extent in Hd. destruct Hd as (n & Hn' & Hne).
    apply Hne. now apply Hone.
  - rewrite Hmsg. now exists msg.
Qed.

Lemma RenameDimensions_squeezed_axis_witness :
  exists msg, RenameDimensions dim_names single_sample = Raise (ValueError msg).
Proof.
  apply (RenameDimensions_squeezed_axis dim_names single_sample "foo"
           [("dim_0", "time")] "dim_0" "time"); try reflexivity.
  - now left.
  - intros n [= <-]. reflexivity.
Defined.

Lemma payload_map (h : Var -> Var) (nm : string -> string) (vars : dict Var) :
  (forall v, values (h v) = values v /\ var_attrs (h v) = var_attrs v) ->
  payload (map (fun kv => (nm (fst kv), h (snd kv))) vars) = payload vars.
Proof.
  intro H. unfold payload. rewrite map_map. apply map_ext. intros [k v].
  cbn [fst snd]. now destruct (H v) as [-> ->].
Qed.

Lemma _rename_all_payload (nd dd : dict string) (x y : Dataset) :
  _rename_all nd dd x = Ok y ->
  payload (variables y) = payload (variables x) /\ attrs y = attrs x.
Proof.
  intro H. apply _rename_all_vars in H. destruct H as (Hv & _ & Ha).
  split; [|exact Ha]. rewrite Hv.
  apply (payload_map (var_rename_dims dd) (get_default nd)). now intros [].
Qed.

Lemma rename_coords_payload (items : list (string * string)) : forall x y,
  rename_coords items x = Ok y ->
  payload (variables y) = payload (variables x) /\ attrs y = attrs x.
Proof.
  induction items as [|[o n] items IH]; intros x y; cbn [rename_coords].
  - intros [= <-]. auto.
  - intro H. apply bind_Ok in H. destruct H as (x' & Hx' & H).
    apply IH in H. destruct H as [Hp Ha].
    destruct (mem o (coord_names x)).
    + unfold rename_vars in Hx'. apply bind_Ok in Hx'.
      destruct Hx' as (_ & _ & Hx'). apply _rename_all_payload in Hx'.
      destruct Hx' as [Hp' Ha']. split; congruence.
    + injection Hx' as <-. auto.
Qed.

(** X3. Whenever RenameDimensions returns, the result has the variables of
    the dataset in the same order with the same values and the same
    attributes (only names and axes change), and the dataset keeps its
    [name]; when the table has an entry for that name, the attribute
    [dims] of the result lists the dimensions of the result. *)
Theorem RenameDimensions_keeps_values :
  forall (dimension_mapping : dict (dict string)) (dataset result : Dataset),
    RenameDimensions dimension_mapping dataset = Ok result ->
    payload (variables result) = payload (variables dataset)
    /\ dict_get "name" (attrs result) = dict_get "name" (attrs dataset)
    /\ exists name,
         dict_get "name" (attrs dataset) = Some (AStr name)
         /\ match dict_get name dimension_mapping with
            | Some _ => dict_get "dims" (attrs result) = Some (AList (dims_of result))
            | None => attrs result = attrs dataset
            end.
Proof.
  intros table dataset result H. unfold RenameDimensions in H.
  apply bind_Ok in H. destruct H as (a & Ha & H).
  unfold attrs_getitem in Ha.
  destruct (dict_get "name" (attrs dataset)) as [a'|] eqn:En; [|discriminate].
  injection Ha as ->.
  apply bind_Ok in H. destruct H as (name & Hh & H).
  apply hashable_Ok in Hh. subst a.
  assert (Hsq : payload (variables (squeeze false dataset))
                = payload (variables dataset)).
  { rewrite squeeze_false_eq. cbn [variables].
    apply (payload_map (var_squeeze (squeeze_dims dataset)) (fun k => k)).
    now intros []. }
  destruct (dict_get name table) as [dims|] eqn:Et.
  - apply bind_Ok in H. destruct H as (y1 & Hy1 & H).
    apply bind_Ok in H. destruct H as (y2 & Hy2 & H). injection H as <-.
    unfold rename_dims in Hy1. apply bind_Ok in Hy1.
    destruct Hy1 as (_ & _ & Hy1). apply _rename_all_payload in Hy1.
    destruct Hy1 as [Hp1 Ha1].
    apply rename_coords_payload in Hy2. destruct Hy2 as [Hp2 Ha2].
    cbn [set_attr variables attrs]. split; [congruence|]. split.
    + rewrite dict_get_set_other by discriminate. rewrite Ha2, Ha1.
      rewrite squeeze_false_eq. exact En.
    + exists name. split; [reflexivity|]. rewrite Et.
      rewrite dict_get_set_same. reflexivity.
  - injection H as <-. split; [exact Hsq|].
    rewrite squeeze_false_eq. cbn [attrs]. split; [exact En|].
    exists name. split; [reflexivity|]. now rewrite Et.
Qed.

Lemma RenameDimensions_keeps_values_witness :
  payload (variables renamed_signal) = payload (variables raw_signal)
  /\ dict_get "name" (attrs renamed_signal) = dict_get "name" (attrs raw_signal)
  /\ exists name,
       dict_get "name" (attrs raw_signal) = Some (AStr name)
       /\ match dict_get name dim_names with
          | Some _ =>
              dict_get "dims" (attrs renamed_signal)
              = Some (AList (dims_of renamed_signal))
          | None => attrs renamed_signal = attrs raw_signal
          end.
Proof.
  apply (RenameDimensions_keeps_values dim_names raw_signal renamed_signal).
  reflexivity.
Defined.

(** ** DropZeroDimensions, applied again *)

Lemma calculate_dimensions_bools (vars : dict Var) :
  returns (calculate_dimensions vars) ->
  negb (existsb (fun dn => mem (fst dn) (dict_keys (filter is_scalar_var vars)))
                (dim_pairs vars)) = true
  /\ sizes_agree (dim_pairs vars) = true.
Proof.
  unfold calculate_dimensions. intros [dims H].
  destruct (existsb _ (dim_pairs vars)); [discriminate|].
  destruct (sizes_agree (dim_pairs vars)); [auto | discriminate].
Qed.

Lemma dropped_consistent (names : list string) (dataset : Dataset) :
  consistent dataset = true ->
  consistent
    {| variables :=
         filter (fun kv => negb (mem (fst kv) names)) (variables dataset);
       coord_names := filter (fun c => negb (mem c names)) (coord_names dataset);
       attrs := attrs dataset |} = true.
Proof.
  intro Hc. destruct (consistent_facts dataset Hc) as (Hnd & Hd & Hcn & Hdc & Hws).
  set (vars' := filter (fun kv => negb (mem (fst kv) names)) (variables dataset)).
  assert (Hsub : forall kv, In kv vars' -> In kv (variables dataset)).
  { intros kv Hkv. apply filter_In in Hkv. tauto. }
  destruct (calculate_dimensions_bools vars'
              (calculate_dimensions_sub _ _ Hsub Hd)) as [B2 B3].
  unfold consistent. cbn [variables coord_names]. fold vars'.
  rewrite B2, B3. rewrite !andb_true_iff. repeat split.
  - apply unique_keys_NoDup. now apply NoDup_keys_filter.
  - apply forallb_forall. intros c Hc'. apply filter_In in Hc'.
    destruct Hc' as [Hc1 Hc2]. rewrite dict_mem_keys. apply mem_In.
    apply (in_keys_filter (fun x => negb (mem x names))). split; [auto | exact Hc2].
  - apply forallb_forall. intros d Hd'.
    destruct (dict_mem d vars') eqn:Em; [|reflexivity]. cbn [negb orb].
    rewrite dict_mem_keys in Em. apply mem_In in Em.
    apply (in_keys_filter (fun x => negb (mem x names))) in Em.
    destruct Em as [Em1 Em2].
    rewrite mem_filter, Em2, andb_true_r. apply mem_In. apply Hdc; [|exact Em1].
    apply in_dims_of in Hd'. destruct Hd' as (k & v & Hin & Hdv).
    apply in_dims_of. exists k, v. split; [now apply Hsub | exact Hdv].
  - apply forallb_forall. intros [k v] Hin. apply (Hws k v). now apply Hsub.
Qed.

(** X4. On a consistent dataset, what DropZeroDimensions returns is again
    a consistent dataset and has no all-zero coordinate left: applying
    DropZeroDimensions to it returns it unchanged. *)
Theorem DropZeroDimensions_fixed_point :
  forall dataset : Dataset,
    consistent dataset = true ->
    exists result,
      DropZeroDimensions dataset = Ok result
      /\ consistent result = true
      /\ zero_names (coords result) = []
      /\ DropZeroDimensions result = Ok result.
Proof.
  intros dataset Hc. eexists. split; [now apply DropZeroDimensions_closed_form|].
  pose proof (dropped_consistent (zero_names (coords dataset)) dataset Hc) as Hc'.
  destruct (consistent_facts dataset Hc) as (Hnd & _).
  split; [exact Hc'|].
  set (Z := zero_names (coords dataset)) in *.
  set (y := {| variables := _; coord_names := _; attrs := _ |}) in *.
  assert (Hz : zero_names (coords y) = []).
  { destruct (zero_names (coords y)) as [|k rest] eqn:E; [reflexivity|].
    exfalso. assert (Hk : In k (zero_names (coords y))) by (rewrite E; now left).
    apply in_zero_names in Hk. destruct Hk as (c & Hin & Hm & Hzc).
    unfold y in Hin, Hm. cbn [variables coord_names] in Hin, Hm.
    apply filter_In in Hin. destruct Hin as [Hin Hk]. cbn [fst] in Hk.
    rewrite mem_filter in Hm. apply andb_true_iff in Hm. destruct Hm as [Hm _].
    apply negb_true_iff, mem_false in Hk. apply Hk. apply in_zero_names.
    exists c. auto. }
  split; [exact Hz|].
  rewrite (DropZeroDimensions_closed_form y Hc'), Hz.
  unfold y. cbn [variables coord_names attrs mem negb].
  f_equal. f_equal; apply filter_true; reflexivity.
Qed.

Lemma DropZeroDimensions_fixed_point_witness :
  exists result,
    DropZeroDimensions zero_axis = Ok result
    /\ consistent result = true
    /\ zero_names (coords result) = []
    /\ DropZeroDimensions result = Ok result.
Proof.
  apply (DropZeroDimensions_fixed_point zero_axis). reflexivity.
Defined.

(** ** DropDatasets *)

Lemma DropDatasets_present {A : Type} (keys : list string) : forall datasets : dict A,
  unique_keys keys = true ->
  forallb (fun key => dict_mem key datasets) keys = true ->
  DropDatasets keys datasets
  = (filter (fun kv => negb (mem (fst kv) keys)) datasets,
     Ok (filter (fun kv => negb (mem (fst kv) keys)) datasets)).
Proof.
  induction keys as [|key rest IH]; intros datasets Hu Hall.
  - simpl. rewrite filter_true; auto.
  - cbn [unique_keys forallb] in Hu, Hall.
    apply andb_true_iff in Hu. destruct Hu as [Hfresh Hu].
    apply andb_true_iff in Hall. destruct Hall as [Hkey Hall].
    apply negb_true_iff, mem_false in Hfresh.
    cbn [DropDatasets]. unfold dict_pop. unfold dict_mem in Hkey.
    destruct (dict_get key datasets) as [v|]; [|discriminate].
    rewrite IH; [|exact Hu|].
    + unfold dict_del. rewrite !filter_filter.
      assert (E : filter (fun x : string * A =>
                    negb (String.eqb key (fst x)) && negb (mem (fst x) rest)) datasets
                  = filter (fun kv => negb (mem (fst kv) (key :: rest))) datasets).
      { apply filter_ext. intros [k v']. cbn [fst mem].
        rewrite negb_orb, (String.eqb_sym k key). reflexivity. }
      now rewrite E.
    + apply forallb_forall. intros k Hk. rewrite forallb_forall in Hall.
      unfold dict_mem. rewrite dict_get_del_other; [exact (Hall k Hk)|].
      intros ->. contradiction.
Qed.

Lemma DropDatasets_app {A : Type} (pre : list string) : forall rest (datasets : dict A),
  DropDatasets (pre ++ rest) datasets
  = match DropDatasets pre datasets with
    | (datasets', Ok _) => DropDatasets rest datasets'
    | r => r
    end.
Proof.
  induction pre as [|key pre IH]; intros rest datasets; [reflexivity|].
  cbn [app DropDatasets]. destruct (dict_pop key datasets) as [d' [v|e|w]];
    [apply IH | reflexivity | reflexivity].
Qed.

(** X5. When the keys to drop are pairwise distinct and all present,
    DropDatasets returns the dictionary it was given, which has lost
    exactly those keys: the other entries are kept, in their order. *)
Theorem DropDatasets_removes_the_keys :
  forall (A : Type) (keys : list string) (datasets : dict A),
    unique_keys keys = true ->
    forallb (fun key => dict_mem key datasets) keys = true ->
    exists out,
      DropDatasets keys datasets = (out, Ok out)
      /\ out = filter (fun kv => negb (mem (fst kv) keys)) datasets
      /\ (forall key, In key keys -> dict_get key out = None)
      /\ (forall key, ~ In key keys -> dict_get key out = dict_get key datasets).
Proof.
  intros A keys datasets Hu Hall. eexists. split; [now apply DropDatasets_present|].
  split; [reflexivity|]. split.
  - intros key Hk. rewrite (dict_get_filter_key (fun k => negb (mem k keys))).
    now rewrite (proj2 (mem_In key keys) Hk).
  - intros key Hk. rewrite (dict_get_filter_key (fun k => negb (mem k keys))).
    now rewrite (proj2 (mem_false key keys) Hk).
Qed.

Lemma DropDatasets_removes_the_keys_witness :
  exists out,
    DropDatasets ["b"; "a"] [("a", 1%nat); ("x", 2%nat); ("b", 3%nat)] = (out, Ok out)
    /\ out = filter (fun kv => negb (mem (fst kv) ["b"; "a"]))
               [("a", 1%nat); ("x", 2%nat); ("b", 3%nat)]
    /\ (forall key, In key ["b"; "a"] -> dict_get key out = None)
    /\ (forall key, ~ In key ["b"; "a"] ->
          dict_get key out
          = dict_get key [("a", 1%nat); ("x", 2%nat); ("b", 3%nat)]).
Proof.
  apply (DropDatasets_removes_the_keys nat ["b"; "a"]
           [("a", 1%nat); ("x", 2%nat); ("b", 3%nat)]); reflexivity.
Defined.

(** X6. DropDatasets raises [KeyError] at the first key that is missing
    from the dictionary or that was listed before; it is not atomic: the
    dictionary of the caller has then already lost the keys listed before
    that one, and the keys listed after it are still there. *)
Theorem DropDatasets_missing_key :
  forall (A : Type) (pre post : list string) (key : string) (datasets : dict A),
    unique_keys pre = true ->
    forallb (fun k => dict_mem k datasets) pre = true ->
    mem key pre || negb (dict_mem key datasets) = true ->
    DropDatasets (pre ++ key :: post) datasets
    = (filter (fun kv => negb (mem (fst kv) pre)) datasets, Raise (KeyError key)).
Proof.
  intros A pre post key datasets Hu Hall Hkey.
  rewrite DropDatasets_app, (DropDatasets_present pre datasets Hu Hall).
  cbn [DropDatasets]. unfold dict_pop.
  rewrite (dict_get_filter_key (fun k => negb (mem k pre))).
  destruct (mem key pre); [reflexivity|]. simpl in Hkey |- *.
  apply negb_true_iff in Hkey. unfold dict_mem in Hkey.
  destruct (dict_get key datasets); [discriminate | reflexivity].
Qed.

Lemma DropDatasets_missing_key_witness :
  DropDatasets (["a"] ++ "y" :: ["x"]) [("a", 1%nat); ("x", 2%nat)]
  = (filter (fun kv => negb (mem (fst kv) ["a"])) [("a", 1%nat); ("x", 2%nat)],
     Raise (KeyError "y")).
Proof.
  apply (DropDatasets_missing_key nat ["a"] ["x"] "y" [("a", 1%nat); ("x", 2%nat)]);
    reflexivity.
Defined.

(** ** StandardizeSignalDataset, when it returns *)

Lemma _rename_vars_ok (nd dd : dict string) (vars : dict Var) : forall acc,
  NoDup (dict_keys acc ++ map (get_default nd) (dict_keys vars)) ->
  _rename_vars nd dd vars acc
  = Ok (acc ++ map (fun kv => (get_default nd (fst kv),
                               var_rename_dims dd (snd kv))) vars).
Proof.
  induction vars as [|[k v] vars IH]; intros acc Hnd; cbn [_rename_vars map].
  - now rewrite app_nil_r.
  - cbn [dict_keys map fst] in Hnd.
    assert (Hfresh : dict_mem (get_default nd k) acc = false).
    { rewrite dict_mem_keys. apply mem_false. intro Hin.
      apply NoDup_remove_2 in Hnd. apply Hnd. apply in_or_app. now left. }
    rewrite Hfresh. rewrite IH.
    + now rewrite <- app_assoc.
    + unfold dict_keys in *. rewrite map_app, <- app_assoc. exact Hnd.
Qed.

Lemma dict_get_renamed (nm : string -> string) (h : Var -> Var) (vars : dict Var) :
  forall k v,
    NoDup (map nm (dict_keys vars)) ->
    dict_get k vars = Some v ->
    dict_get (nm k) (map (fun kv => (nm (fst kv), h (snd kv))) vars) = Some (h v).
Proof.
  induction vars as [|[k0 v0] vars IH]; intros k v Hnd Hget; [discriminate|].
  cbn [dict_keys map fst snd dict_get] in *.
  inversion Hnd as [|? ? Hnotin Hnd']; subst.
  destruct (String.eqb_spec k k0) as [->|Hne].
  - injection Hget as <-. now rewrite String.eqb_refl.
  - destruct (String.eqb_spec (nm k) (nm k0)) as [E|_]; [|now apply IH].
    exfalso. apply Hnotin. rewrite <- E. apply in_map.
    apply dict_get_In in Hget. apply (in_map fst) in Hget. exact Hget.
Qed.

Lemma rename_two (ds : Dataset) (a b a' b' : string) :
  dict_mem a (variables ds) = true ->
  dict_mem b (variables ds) = true ->
  NoDup (map (get_default [(a, a'); (b, b')]) (dict_keys (variables ds))) ->
  rename [(a, AStr a'); (b, AStr b')] ds
  = Ok {| variables :=
            map (fun kv => (get_default [(a, a'); (b, b')] (fst kv),
                            var_rename_dims [(a, a'); (b, b')] (snd kv)))
                (variables ds);
          coord_names := map (get_default [(a, a'); (b, b')]) (coord_names ds);
          attrs := attrs ds |}.
Proof.
  intros Ha Hb Hnd. unfold rename. cbn [rename_check]. rewrite Ha, Hb.
  cbn [orb bind]. unfold _rename_all.
  rewrite (_rename_vars_ok _ _ (variables ds) []) by exact Hnd. reflexivity.
Qed.

Lemma rename_one (ds : Dataset) (a a' : string) :
  dict_mem a (variables ds) = true ->
  NoDup (map (get_default [(a, a')]) (dict_keys (variables ds))) ->
  rename [(a, AStr a')] ds
  = Ok {| variables :=
            map (fun kv => (get_default [(a, a')] (fst kv),
                            var_rename_dims [(a, a')] (snd kv)))
                (variables ds);
          coord_names := map (get_default [(a, a')]) (coord_names ds);
          attrs := attrs ds |}.
Proof.
  intros Ha Hnd. unfold rename. cbn [rename_check]. rewrite Ha.
  cbn [orb bind]. unfold _rename_all.
  rewrite (_rename_vars_ok _ _ (variables ds) []) by exact Hnd. reflexivity.
Qed.

Lemma squeeze_attrs (drop : bool) (ds : Dataset) : attrs (squeeze drop ds) = attrs ds.
Proof. reflexivity. Qed.

Lemma dict_keys_renamed (nm : string -> string) (h : Var -> Var) (vars : dict Var) :
  dict_keys (map (fun kv => (nm (fst kv), h (snd kv))) vars)
  = map nm (dict_keys vars).
Proof. unfold dict_keys. rewrite !map_map. reflexivity. Qed.

Lemma dict_set_keys_present {V : Type} (k : string) (v v0 : V) (d : dict V) :
  dict_get k d = Some v0 -> dict_keys (dict_set k v d) = dict_keys d.
Proof.
  induction d as [|[k0 w] d IH]; cbn [dict_get dict_set]; [discriminate|].
  destruct (String.eqb_spec k k0) as [->|Hne]; [reflexivity|].
  intro H. cbn [dict_keys map fst]. f_equal. now apply IH.
Qed.

(** X7. StandardizeSignalDataset on a signal whose error is not all zero.
    When, after squeezing, the dataset has [data] and [error] and renaming
    them to [name] and [name_error] makes no two variables share a name,
    the transform returns: [data] is found under [name] with its values,
    [error] under [name_error] unchanged, every other variable under its
    own name; the [name] attribute becomes [source/name]; and the
    variable [name] carries the attributes of the dataset, not those
    [data] had. *)
Theorem StandardizeSignalDataset_with_error :
  forall (source : string) (dataset : Dataset) (name : string) (data error : Var),
    dict_get "name" (attrs dataset) = Some (AStr name) ->
    dict_get "data" (variables (squeeze true dataset)) = Some data ->
    dict_get "error" (variables (squeeze true dataset)) = Some error ->
    all_zero error = false ->
    unique_keys (map (get_default (error_names name))
                     (dict_keys (variables (squeeze true dataset)))) = true ->
    exists result,
      StandardizeSignalDataset source dataset = Ok result
      /\ attrs result
         = dict_set "name" (AStr (source ++ "/" ++ name)%string) (attrs dataset)
      /\ dict_get name (variables result)
         = Some {| axes := axes (var_rename_dims (error_names name) data);
                   values := values data;
                   var_attrs := attrs result |}
      /\ dict_get (name ++ "_" ++ "error")%string (variables result)
         = Some (var_rename_dims (error_names name) error)
      /\ dict_keys (variables result)
         = map (get_default (error_names name))
               (dict_keys (variables (squeeze true dataset)))
      /\ (forall k v,
            dict_get k (variables (squeeze true dataset)) = Some v ->
            k <> "data" -> k <> "error" ->
            dict_get k (variables result)
            = Some (var_rename_dims (error_names name) v)).
Proof.
  intros source dataset name data error Hn Hd He Hz Hu.
  set (squeezed := squeeze true dataset) in *.
  unfold error_names in *.
  set (new_names := [("data", name); ("error", (name ++ "_" ++ "error")%string)]) in *.
  apply unique_keys_NoDup in Hu.
  unfold StandardizeSignalDataset. fold squeezed.
  unfold attrs_getitem. change (attrs squeezed) with (attrs dataset).
  rewrite Hn. cbn [bind].
  unfold getitem at 1. rewrite He. cbn [bind snd]. rewrite Hz. cbn [bind].
  unfold dict_mem at 1. rewrite He. cbn [join_error bind].
  rewrite (rename_two squeezed "data" "error" name (name ++ "_" ++ "error")%string);
    [|unfold dict_mem; now rewrite Hd|unfold dict_mem; now rewrite He|exact Hu].
  fold new_names. cbn [bind dict_get String.eqb Ascii.eqb Bool.eqb].
  set (h := var_rename_dims new_names).
  set (nm := get_default new_names).
  set (renamed := map (fun kv => (nm (fst kv), h (snd kv))) (variables squeezed)).
  assert (Hdata : dict_get name renamed = Some (h data)).
  { change name with (nm "data") at 1.
    now apply (dict_get_renamed nm h (variables squeezed)). }
  unfold set_var_attrs, getitem. cbn [set_attr variables attrs coord_names].
  rewrite Hdata. cbn [bind]. eexists. split; [reflexivity|].
  cbn [variables attrs]. split; [reflexivity|].
  assert (Hne : (name ++ "_" ++ "error")%string <> name).
  { intro E. apply (f_equal String.length) in E. rewrite append_length in E.
    cbn in E. lia. }
  split; [|split; [|split]].
  - rewrite dict_get_set_same. reflexivity.
  - rewrite dict_get_set_other by exact Hne.
    change (name ++ "_" ++ "error")%string with (nm "error").
    now apply (dict_get_renamed nm h (variables squeezed)).
  - rewrite (dict_set_keys_present _ _ _ _ Hdata). apply dict_keys_renamed.
  - intros k v Hk Hkd Hke.
    assert (Enm : nm k = k).
    { unfold nm, get_default, new_names. cbn [dict_get].
      destruct (String.eqb_spec k "data"); [contradiction|].
      destruct (String.eqb_spec k "error"); [contradiction|]. reflexivity. }
    assert (Hkn : k <> name).
    { intros ->.
      pose proof (dict_get_renamed nm h (variables squeezed) _ _ Hu Hk) as H1.
      fold renamed in H1. rewrite Enm in H1.
      (* [name] and [data] are two keys with the same new name *)
      assert (Hdup : forall l : list string,
                NoDup (map nm l) -> In name l -> In "data" l -> name = "data").
      { clear - Enm. intros l. induction l as [|x l IHl]; cbn [map];
          intros Hnd H1 H2; [contradiction|].
        inversion Hnd as [|? ? Hnotin Hnd']; subst.
        destruct H1 as [->|H1], H2 as [E2|H2].
        - exact E2.
        - exfalso. apply Hnotin. rewrite Enm.
          change name with (nm "data"). now apply in_map.
        - subst x. exfalso. apply Hnotin. change (nm "data") with name.
          rewrite <- Enm. now apply in_map.
        - now apply IHl. }
      apply Hkd. apply (Hdup (dict_keys (variables squeezed)) Hu).
      - apply dict_get_In in Hk. apply (in_map fst) in Hk. exact Hk.
      - apply dict_get_In in Hd. apply (in_map fst) in Hd. exact Hd. }
    rewrite dict_get_set_other by exact Hkn.
    rewrite <- Enm at 1. now apply (dict_get_renamed nm h (variables squeezed)).
Qed.

Lemma StandardizeSignalDataset_with_error_witness :
  exists result,
    StandardizeSignalDataset "amc" ip_signal = Ok result
    /\ attrs result
       = dict_set "name" (AStr ("amc" ++ "/" ++ "ip")%string) (attrs ip_signal)
    /\ dict_get "ip" (variables result)
       = Some {| axes := [("time", 2%nat)];
                 values := [Num 10; Num 20];
                 var_attrs := attrs result |}
    /\ dict_get ("ip" ++ "_" ++ "error")%string (variables result)
       = Some (mkvar [("time", 2%nat)] [1; 1]%Z)
    /\ dict_keys (variables result)
       = map (get_default (error_names "ip"))
             (dict_keys (variables (squeeze true ip_signal)))
    /\ (forall k v,
          dict_get k (variables (squeeze true ip_signal)) = Some v ->
          k <> "data" -> k <> "error" ->
          dict_get k (variables result)
          = Some (var_rename_dims (error_names "ip") v)).
Proof.
  apply (StandardizeSignalDataset_with_error "amc" ip_signal "ip"
           {| axes := [("time", 2%nat)]; values := [Num 10; Num 20];
              var_attrs := [("units", AStr "A")] |}
           (mkvar [("time", 2%nat)] [1; 1]%Z)); reflexivity.
Defined.

(** X8. StandardizeSignalDataset on a signal whose error is all zero. When,
    after squeezing, the dataset is consistent and has [data] and an
    all-zero [error], and renaming [data] makes no two of the remaining
    variables share a name, the transform returns a dataset without the
    error: [data] is found with its values under the name of the signal
    ([time_] for a signal called [time]), every other variable but
    [error] is kept under its name, and the [name] attribute becomes
    [source/] followed by that name. *)
Theorem StandardizeSignalDataset_zero_error :
  forall (source : string) (dataset : Dataset) (name : string) (data error : Var),
    consistent (squeeze true dataset) = true ->
    dict_get "name" (attrs dataset) = Some (AStr name) ->
    dict_get "data" (variables (squeeze true dataset)) = Some data ->
    dict_get "error" (variables (squeeze true dataset)) = Some error ->
    all_zero error = true ->
    unique_keys
      (map (get_default [("data", data_name name)])
           (filter (fun k => negb (String.eqb k "error"))
                   (dict_keys (variables (squeeze true dataset))))) = true ->
    exists result,
      StandardizeSignalDataset source dataset = Ok result
      /\ attrs result
         = dict_set "name" (AStr (source ++ "/" ++ data_name name)%string)
                    (attrs dataset)
      /\ dict_get (data_name name) (variables result)
         = Some {| axes := axes (var_rename_dims [("data", data_name name)] data);
                   values := values data;
                   var_attrs := attrs result |}
      /\ dict_keys (variables result)
         = map (get_default [("data", data_name name)])
               (filter (fun k => negb (String.eqb k "error"))
                       (dict_keys (variables (squeeze true dataset))))
      /\ (forall k v,
            dict_get k (variables (squeeze true dataset)) = Some v ->
            k <> "data" -> k <> "error" ->
            dict_get k (variables result)
            = Some (var_rename_dims [("data", data_name name)] v)).
Proof.
  intros source dataset name data error Hc Hn Hd He Hz Hu.
  set (squeezed := squeeze true dataset) in *.
  destruct (consistent_facts squeezed Hc) as (Hnd & Hcalc & _).
  apply unique_keys_NoDup in Hu.
  set (kept := filter (fun kv => negb (mem (fst kv) ["error"])) (variables squeezed)).
  assert (Ekeys : dict_keys kept
                  = filter (fun k => negb (String.eqb k "error"))
                           (dict_keys (variables squeezed))).
  { unfold kept, dict_keys. generalize (variables squeezed).
    intro l. induction l as [|[k v] l IH]; [reflexivity|].
    cbn [filter map fst].
    assert (Em : mem k ["error"] = String.eqb k "error")
      by (cbn [mem]; apply orb_false_r).
    rewrite Em. destruct (String.eqb k "error"); cbn [negb map fst]; now rewrite IH. }
  rewrite <- Ekeys in Hu |- *.
  unfold StandardizeSignalDataset. fold squeezed.
  unfold attrs_getitem. change (attrs squeezed) with (attrs dataset).
  rewrite Hn. cbn [bind].
  unfold getitem at 1. rewrite He. cbn [bind snd]. rewrite Hz.
  rewrite (drop_vars_one "error" squeezed);
    [|unfold dict_mem; now rewrite He|exact Hcalc].
  fold kept. cbn [bind variables].
  assert (Hkd : dict_get "data" kept = Some data).
  { unfold kept. rewrite (dict_get_filter_key (fun k => negb (mem k ["error"]))).
    exact Hd. }
  assert (Hke : dict_mem "error" kept = false).
  { unfold dict_mem, kept.
    now rewrite (dict_get_filter_key (fun k => negb (mem k ["error"]))). }
  rewrite Hke. cbn [bind time_rewrite].
  assert (Etr : (if String.eqb name "time" then AStr (name ++ "_")%string
                 else AStr name) = AStr (data_name name)).
  { unfold data_name. now destruct (String.eqb name "time"). }
  rewrite Etr.
  rewrite (rename_one _ "data" (data_name name));
    [|unfold dict_mem; cbn [variables]; now rewrite Hkd|exact Hu].
  cbn [bind dict_get String.eqb Ascii.eqb Bool.eqb variables coord_names attrs].
  set (new_names := [("data", data_name name)]) in *.
  set (h := var_rename_dims new_names).
  set (nm := get_default new_names).
  set (renamed := map (fun kv => (nm (fst kv), h (snd kv))) kept).
  assert (Hdata : dict_get (data_name name) renamed = Some (h data)).
  { change (data_name name) with (nm "data") at 1.
    now apply (dict_get_renamed nm h kept). }
  unfold set_var_attrs, getitem. cbn [set_attr variables attrs coord_names].
  rewrite Hdata. cbn [bind]. eexists. split; [reflexivity|].
  cbn [variables attrs]. split; [reflexivity|]. split; [|split].
  - rewrite dict_get_set_same. reflexivity.
  - rewrite (dict_set_keys_present _ _ _ _ Hdata). apply dict_keys_renamed.
  - intros k v Hk Hkd' Hke'.
    assert (Hkk : dict_get k kept = Some v).
    { unfold kept. rewrite (dict_get_filter_key (fun k => negb (mem k ["error"]))).
      cbn [mem]. rewrite orb_false_r.
      destruct (String.eqb_spec k "error"); [contradiction | exact Hk]. }
    assert (Enm : nm k = k).
    { unfold nm, get_default, new_names. cbn [dict_get].
      destruct (String.eqb_spec k "data"); [contradiction | reflexivity]. }
    assert (Hkn : k <> data_name name).
    { intro E.
      assert (Hdup : forall l : list string,
                NoDup (map nm l) -> In k l -> In "data" l -> k = "data").
      { clear - Enm E. intros l. induction l as [|x l IHl]; cbn [map];
          intros Hnd H1 H2; [contradiction|].
        inversion Hnd as [|? ? Hnotin Hnd']; subst x0 l0.
        destruct H1 as [->|H1], H2 as [E2|H2].
        - exact E2.
        - exfalso. apply Hnotin. rewrite Enm, E.
          change (data_name name) with (nm "data"). now apply in_map.
        - subst x. exfalso. apply Hnotin. change (nm "data") with (data_name name).
          rewrite <- E, <- Enm. now apply in_map.
        - now apply IHl. }
      apply Hkd'. apply (Hdup (dict_keys kept) Hu).
      - apply dict_get_In in Hkk. apply (in_map fst) in Hkk. exact Hkk.
      - apply dict_get_In in Hkd. apply (in_map fst) in Hkd. exact Hkd. }
    rewrite dict_get_set_other by exact Hkn.
    rewrite <- Enm at 1. now apply (dict_get_renamed nm h kept).
Qed.

Lemma StandardizeSignalDataset_zero_error_witness :
  exists result,
    StandardizeSignalDataset "amc" ip_signal_zero_error = Ok result
    /\ attrs result
       = dict_set "name" (AStr ("amc" ++ "/" ++ data_name "ip")%string)
                  (attrs ip_signal_zero_error)
    /\ dict_get (data_name "ip") (variables result)
       = Some {| axes := [("time", 2%nat)];
                 values := [Num 10; Num 20];
                 var_attrs := attrs result |}
    /\ dict_keys (variables result)
       = map (get_default [("data", data_name "ip")])
             (filter (fun k => negb (String.eqb k "error"))
                     (dict_keys (variables (squeeze true ip_signal_zero_error))))
    /\ (forall k v,
          dict_get k (variables (squeeze true ip_signal_zero_error)) = Some v ->
          k <> "data" -> k <> "error" ->
          dict_get k (variables result)
          = Some (var_rename_dims [("data", data_name "ip")] v)).
Proof.
  apply (StandardizeSignalDataset_zero_error "amc" ip_signal_zero_error "ip"
           (mkvar [("time", 2%nat)] [10; 20]%Z)
           (mkvar [("time", 2%nat)] [0; 0]%Z)); reflexivity.
Defined.

(** ** MergeDatasets on signals that share coordinates *)

(** X9. MergeDatasets on datasets that share variables, as signals share
    their time coordinate. When every variable has the axes and values of
    the first variable of its name, the axes agree in size, no axis bears
    the name of a data variable or of a scalar variable, and no name is a
    coordinate in one dataset and a data variable in another, MergeDatasets
    returns one dataset with pairwise distinct variable names, in which
    every name of the inputs is bound to the first variable of that name,
    with its values and attributes, and whose own attributes are empty. *)
Theorem MergeDatasets_shared_coordinates :
  forall dataset_dict : dict Dataset,
    agree_on_shared (all_variables (map snd dataset_dict)) = true ->
    sizes_agree (dim_pairs (all_variables (map snd dataset_dict))) = true ->
    axis_name_clash (map snd dataset_dict) = false ->
    coordinate_as_data (map snd dataset_dict) = false ->
    exists merged,
      MergeDatasets dataset_dict = Ok merged
      /\ unique_keys (dict_keys (variables merged)) = true
      /\ (forall name,
            dict_get name (variables merged)
            = dict_get name (all_variables (map snd dataset_dict)))
      /\ attrs merged = []
      /\ (forall c,
            In c (coord_names merged) <->
            (exists ds, In ds (map snd dataset_dict) /\ In c (dict_keys (coords ds)))
            \/ (In c (dict_keys (all_variables (map snd dataset_dict)))
                /\ exists n, In (c, n)
                     (dim_pairs (all_variables (map snd dataset_dict))))).
Proof.
  intros dataset_dict Hag Hs Hclash Hkind.
  destruct (xr_merge_first_of_each_name (map snd dataset_dict) Hag Hs Hclash Hkind)
    as (merged & Hm & Hu & Hget & Hcn).
  unfold MergeDatasets. rewrite Hm. cbn [bind]. eexists.
  split; [reflexivity|]. cbn [variables coord_names attrs]. auto.
Qed.

Lemma MergeDatasets_shared_coordinates_witness :
  exists merged,
    MergeDatasets [("ip", ip_on_time); ("vloop", vloop_on_time)] = Ok merged
    /\ unique_keys (dict_keys (variables merged)) = true
    /\ (forall name,
          dict_get name (variables merged)
          = dict_get name (all_variables [ip_on_time; vloop_on_time]))
    /\ attrs merged = []
    /\ (forall c,
          In c (coord_names merged) <->
          (exists ds, In ds [ip_on_time; vloop_on_time]
                      /\ In c (dict_keys (coords ds)))
          \/ (In c (dict_keys (all_variables [ip_on_time; vloop_on_time]))
              /\ exists n, In (c, n)
                   (dim_pairs (all_variables [ip_on_time; vloop_on_time])))).
Proof.
  apply (MergeDatasets_shared_coordinates
           [("ip", ip_on_time); ("vloop", vloop_on_time)]); reflexivity.
Defined.

(** X10. MergeDatasets on datasets with pairwise distinct variable names
    raises [ValueError] as soon as two of their variables give one axis two
    different extents (a name may then also be axis and scalar variable at
    once, which is a [ValueError] too). *)
Theorem MergeDatasets_size_conflict :
  forall dataset_dict : dict Dataset,
    unique_keys (dict_keys (all_variables (map snd dataset_dict))) = true ->
    sizes_agree (dim_pairs (all_variables (map snd dataset_dict))) = false ->
    exists msg, MergeDatasets dataset_dict = Raise (ValueError msg).
Proof.
  intros dataset_dict Hu Hs. apply unique_keys_NoDup in Hu.
  unfold MergeDatasets, xr_merge.
  rewrite (collect_all_fresh (map snd dataset_dict) []) by exact Hu.
  cbn [app bind]. unfold calculate_dimensions. rewrite Hs.
  destruct (existsb _ _); eexists; reflexivity.
Qed.

Lemma MergeDatasets_size_conflict_witness :
  exists msg,
    MergeDatasets [("ip", signal_a); ("te", signal_c)] = Raise (ValueError msg).
Proof.
  apply (MergeDatasets_size_conflict [("ip", signal_a); ("te", signal_c)]);
    reflexivity.
Defined.

(** ** What the patterns match *)

Lemma strip_prefix_app (pre r : string) : strip_prefix pre (pre ++ r) = Some r.
Proof.
  induction pre as [|a pre IH]; cbn [strip_prefix append]; [reflexivity|].
  now rewrite Ascii.eqb_refl.
Qed.

Lemma strip_prefix_Some (pre : string) : forall s r,
  strip_prefix pre s = Some r -> s = (pre ++ r)%string.
Proof.
  induction pre as [|a pre IH]; intros [|b s] r; cbn [strip_prefix append];
    try discriminate.
  - now intros [= <-].
  - now intros [= <-].
  - destruct (Ascii.eqb_spec a b) as [->|]; [|discriminate].
    intro H. now rewrite (IH s r H).
Qed.

Lemma span_digits_spec (s : string) :
  s = (fst (span_digits s) ++ snd (span_digits s))%string
  /\ all_digits (fst (span_digits s)) = true
  /\ starts_with_digit (snd (span_digits s)) = false.
Proof.
  induction s as [|c s IH]; cbn [span_digits]; [auto|].
  destruct (is_digit c) eqn:Ec.
  - destruct (span_digits s) as [run rest]. cbn [fst snd] in *.
    destruct IH as (E & Hd & Hs). cbn [append all_digits].
    rewrite Ec, <- E. auto.
  - cbn [fst snd append all_digits starts_with_digit]. auto.
Qed.

Lemma span_digits_app (g t : string) :
  all_digits g = true ->
  span_digits (g ++ t)
  = ((g ++ fst (span_digits t))%string, snd (span_digits t)).
Proof.
  induction g as [|c g IH]; cbn [append all_digits span_digits]; intro H.
  - now destruct (span_digits t).
  - apply andb_true_iff in H. destruct H as [Hc Hg].
    rewrite Hc, (IH Hg). reflexivity.
Qed.

Lemma span_digits_no_digit (t : string) :
  starts_with_digit t = false -> span_digits t = (EmptyString, t).
Proof.
  destruct t as [|c t]; cbn [starts_with_digit span_digits]; [reflexivity|].
  now intros ->.
Qed.

Lemma substring_0_0 (s : string) : substring 0 0 s = EmptyString.
Proof. now destruct s. Qed.

Lemma substring_0_all (s : string) : substring 0 (String.length s) s = s.
Proof. induction s as [|c s IH]; cbn; [reflexivity | now rewrite IH]. Qed.

Lemma substring_0_app (a b : string) : substring 0 (String.length a) (a ++ b) = a.
Proof.
  induction a as [|c a IH]; cbn [String.length append substring].
  - apply substring_0_0.
  - now rewrite IH.
Qed.

Lemma substring_skip_app (a b : string) :
  substring (String.length a) (String.length b) (a ++ b) = b.
Proof.
  induction a as [|c a IH]; cbn [String.length append substring].
  - apply substring_0_all.
  - exact IH.
Qed.

Lemma substring_split (run : string) : forall k,
  (k <= String.length run)%nat ->
  run = (substring 0 k run ++ substring k (String.length run - k) run)%string.
Proof.
  induction run as [|c run IH]; intros [|k] Hk; cbn [String.length] in *.
  - reflexivity.
  - lia.
  - rewrite substring_0_0. cbn [append]. rewrite Nat.sub_0_r.
    change (String.length run) with (String.length run).
    symmetry. exact (substring_0_all (String c run)).
  - cbn [substring append Nat.sub]. f_equal. apply IH. lia.
Qed.

Lemma substring_0_length (run : string) : forall k,
  (k <= String.length run)%nat -> String.length (substring 0 k run) = k.
Proof.
  induction run as [|c run IH]; intros [|k] Hk; cbn [String.length substring] in *;
    try reflexivity; try lia.
  f_equal. apply IH. lia.
Qed.

Lemma all_digits_substring (run : string) : forall k,
  all_digits run = true -> all_digits (substring 0 k run) = true.
Proof.
  induction run as [|c run IH]; intros [|k] H; cbn [substring all_digits] in *;
    try reflexivity.
  apply andb_true_iff in H. destruct H as [Hc Hr]. now rewrite Hc, IH.
Qed.

Lemma string_app_assoc (a b c : string) :
  ((a ++ b) ++ c)%string = (a ++ b ++ c)%string.
Proof. induction a as [|x a IH]; cbn [append]; [reflexivity | now rewrite IH]. Qed.

Lemma match_tail_Some (p : pattern) (s r : string) :
  match_tail p s = Some r <->
  s = (suffix p ++ r)%string /\ (anchored p = true -> at_end r = true).
Proof.
  unfold match_tail. split.
  - destruct (strip_prefix (suffix p) s) as [r'|] eqn:E; [|discriminate].
    apply strip_prefix_Some in E.
    destruct (anchored p); [destruct (at_end r') eqn:Ee|]; try discriminate;
      intros [= <-]; auto.
    split; [exact E | discriminate].
  - intros [-> Ha]. rewrite strip_prefix_app.
    destruct (anchored p); [now rewrite Ha | reflexivity].
Qed.

Lemma match_group_sound (p : pattern) (run rest : string) : forall k g r,
  (k <= String.length run)%nat ->
  match_group p run rest k = Some (g, r) ->
  exists k', (1 <= k' <= k)%nat
    /\ g = substring 0 k' run
    /\ match_tail p (substring k' (String.length run - k') run ++ rest) = Some r.
Proof.
  induction k as [|k IH]; intros g r Hk; cbn [match_group]; [discriminate|].
  destruct (match_tail p _) as [r'|] eqn:E.
  - intros [= <- <-]. exists (S k). repeat split; try lia. exact E.
  - intro H. destruct (IH g r) as (k' & Hk' & Hg & Ht); [lia | exact H|].
    exists k'. repeat split; try lia; assumption.
Qed.

Lemma match_group_complete (p : pattern) (run rest : string) : forall k k',
  (1 <= k' <= k)%nat ->
  match_tail p (substring k' (String.length run - k') run ++ rest) <> None ->
  match_group p run rest k <> None.
Proof.
  induction k as [|k IH]; intros k' Hk' Ht; [lia|].
  cbn [match_group].
  destruct (match_tail p (substring (S k) (String.length run - S k) run ++ rest))
    eqn:E; [discriminate|].
  apply (IH k'); [|exact Ht].
  destruct (Nat.eq_dec k' (S k)) as [->|]; [congruence | lia].
Qed.

Lemma match_here_sound (p : pattern) (s g r : string) :
  match_here p s = Some (g, r) ->
  s = (prefix p ++ g ++ suffix p ++ r)%string
  /\ isdigit g = true
  /\ (anchored p = true -> at_end r = true).
Proof.
  unfold match_here.
  destruct (strip_prefix (prefix p) s) as [s1|] eqn:E; [|discriminate].
  apply strip_prefix_Some in E.
  destruct (span_digits_spec s1) as (Es1 & Hd & _).
  destruct (span_digits s1) as [run rest]. cbn [fst snd] in *.
  intro H. apply match_group_sound in H; [|lia].
  destruct H as (k & Hk & Hg & Ht).
  apply match_tail_Some in Ht. destruct Ht as [Et Ha].
  split; [|split; [|exact Ha]].
  - rewrite E, Es1. f_equal.
    rewrite (substring_split run k) at 1 by lia.
    rewrite <- Hg, string_app_assoc. now rewrite Et.
  - assert (Hlen : String.length g = k)
      by (rewrite Hg; apply substring_0_length; lia).
    assert (Hall : all_digits g = true)
      by (rewrite Hg; now apply all_digits_substring).
    unfold isdigit. destruct g; [cbn in Hlen; lia | exact Hall].
Qed.

Lemma match_here_complete (p : pattern) (g r : string) :
  isdigit g = true ->
  (anchored p = true -> at_end r = true) ->
  match_here p (prefix p ++ g ++ suffix p ++ r) <> None.
Proof.
  intros Hg Ha. unfold match_here. rewrite strip_prefix_app.
  assert (Hall : all_digits g = true) by (destruct g; [discriminate | exact Hg]).
  rewrite (span_digits_app g _ Hall).
  destruct (span_digits_spec (suffix p ++ r)) as (Et & _ & _).
  destruct (span_digits (suffix p ++ r)) as [e rest]. cbn [fst snd] in *.
  apply (match_group_complete p (g ++ e) rest _ (String.length g)).
  - rewrite append_length. destruct g; [discriminate|]. cbn [String.length]. lia.
  - rewrite append_length.
    replace (String.length g + String.length e - String.length g)%nat
      with (String.length e) by lia.
    rewrite substring_skip_app, <- Et.
    rewrite (proj2 (match_tail_Some p (suffix p ++ r) r)); [discriminate | auto].
Qed.

Lemma re_find_sound (p : pattern) (s : string) : forall before g r,
  re_find p s = Some (before, g, r) ->
  s = (before ++ prefix p ++ g ++ suffix p ++ r)%string
  /\ isdigit g = true
  /\ (anchored p = true -> at_end r = true).
Proof.
  induction s as [|c s IH]; intros before g r; cbn [re_find].
  - destruct (match_here p "") as [[g' r']|] eqn:E; [|discriminate].
    intros [= <- <- <-]. now apply match_here_sound.
  - destruct (match_here p (String c s)) as [[g' r']|] eqn:E.
    + intros [= <- <- <-]. now apply match_here_sound.
    + destruct (re_find p s) as [[[b' g'] r']|] eqn:E'; [|discriminate].
      intros [= <- <- <-]. destruct (IH _ _ _ eq_refl) as (Es & Hg & Ha).
      cbn [append]. now rewrite <- Es.
Qed.

Lemma re_find_complete (p : pattern) (g r : string) : forall before,
  isdigit g = true ->
  (anchored p = true -> at_end r = true) ->
  re_find p (before ++ prefix p ++ g ++ suffix p ++ r) <> None.
Proof.
  intros before Hg Ha.
  pose proof (match_here_complete p g r Hg Ha) as Hhere.
  induction before as [|c before IH]; cbn [append].
  - destruct (prefix p ++ g ++ suffix p ++ r)%string as [|c s] eqn:E;
      cbn [re_find]; destruct (match_here p _) as [[g' r']|]; congruence.
  - cbn [re_find]. destruct (match_here p (String c _)) as [[g' r']|];
      [discriminate|].
    destruct (re_find p _) as [[[b' g'] r']|]; [discriminate | contradiction].
Qed.

(** X11. What a pattern selects. A name matches [prefix(\d+)suffix]
    exactly when it contains the prefix, then at least one digit, then the
    suffix; with a closing [$], the suffix must end the name (or stand
    before a final newline). The match may start and, without [$], end
    anywhere in the name. *)
Theorem re_search_iff :
  forall (regex : pattern) (key : string),
    re_search regex key = true <->
    exists before digits after,
      key = (before ++ prefix regex ++ digits ++ suffix regex ++ after)%string
      /\ isdigit digits = true
      /\ (anchored regex = true -> at_end after = true).
Proof.
  intros p s. unfold re_search. split.
  - destruct (re_find p s) as [[[b g] r]|] eqn:E; [|discriminate].
    intros _. exists b, g, r. now apply re_find_sound.
  - intros (b & g & r & -> & Hg & Ha).
    pose proof (re_find_complete p g r b Hg Ha) as H.
    destruct (re_find p _); [reflexivity | contradiction].
Qed.

(** A stem with an operator is not given a pattern. *)
Lemma default_regex_of_operator_stem :
  literal_text "x1?" = false
  /\ TensorizeChannels_init "x1?" None None true
     = Unmodelled "a stem with operators of regular expressions".
Proof. split; reflexivity. Qed.

(** X12. With the default pattern [stem + "(\d+)"] and a stem that holds
    no operator of regular expressions, the stem itself is never one of the
    matching names: a match needs a digit after the stem. So the variable
    TensorizeChannels stores under the stem is never among the channels it
    drops afterwards. (A stem with an operator, such as [x1?], can match
    its own default pattern.) *)
Theorem default_regex_spares_the_stem :
  forall (stem : string) (dim_name : option string) (assign_coords : bool)
         (dataset : Dataset),
    literal_text stem = true ->
    exists self,
      TensorizeChannels_init stem None dim_name assign_coords = Ok self
      /\ regex self = {| prefix := stem; suffix := ""; anchored := false |}
      /\ mem stem (matching_names self dataset) = false.
Proof.
  intros stem dim_name assign_coords dataset Hlit.
  unfold TensorizeChannels_init, default_regex. rewrite Hlit. cbn [bind].
  eexists. split; [reflexivity|]. cbn [regex]. split; [reflexivity|].
  apply mem_false.
  unfold matching_names. intro H. apply filter_In in H. destruct H as [_ H].
  cbn [regex] in H. unfold re_search in H.
  destruct (re_find {| prefix := stem; suffix := ""; anchored := false |} stem)
    as [[[b g] r]|] eqn:Ef; [|discriminate].
  apply re_find_sound in Ef. destruct Ef as (E & Hg & _).
  apply (f_equal String.length) in E.
  cbn [prefix suffix] in E. rewrite !append_length in E.
  destruct g; [discriminate|]. cbn [String.length] in E. lia.
Qed.

Lemma default_regex_spares_the_stem_witness :
  exists self,
    TensorizeChannels_init "x" None None true = Ok self
    /\ regex self = {| prefix := "x"; suffix := ""; anchored := false |}
    /\ mem "x" (matching_names self three_channels) = false.
Proof.
  apply (default_regex_spares_the_stem "x" None true three_channels).
  reflexivity.
Defined.

(** ** Channels numbered after the stem *)

Lemma append_nil_r (s : string) : (s ++ "")%string = s.
Proof. induction s as [|c s IH]; cbn [append]; [reflexivity | now rewrite IH]. Qed.

Lemma substring_all_0 (s : string) : substring (String.length s) 0 s = EmptyString.
Proof. induction s as [|c s IH]; cbn [String.length substring]; auto. Qed.

Lemma re_find_empty (p : pattern) : re_find p "" = None.
Proof.
  destruct (re_find p "") as [[[b g] r]|] eqn:E; [|reflexivity].
  apply re_find_length in E. cbn in E. lia.
Qed.

Lemma re_find_here (p : pattern) (s g r : string) :
  match_here p s = Some (g, r) -> re_find p s = Some (EmptyString, g, r).
Proof. intro H. destruct s; cbn [re_find]; now rewrite H. Qed.

Lemma match_here_channel (p : pattern) (g : string) :
  starts_with_digit (suffix p) = false ->
  isdigit g = true ->
  match_here p (channel_name p g) = Some (g, EmptyString).
Proof.
  intros Hs Hg. unfold match_here, channel_name. rewrite strip_prefix_app.
  assert (Hall : all_digits g = true) by (destruct g; [discriminate | exact Hg]).
  rewrite (span_digits_app g _ Hall), (span_digits_no_digit _ Hs).
  cbn [fst snd]. rewrite append_nil_r.
  destruct (String.length g) as [|k] eqn:El; [destruct g; discriminate|].
  cbn [match_group]. rewrite <- El, Nat.sub_diag, substring_all_0.
  cbn [append].
  rewrite (proj2 (match_tail_Some p (suffix p) EmptyString));
    [now rewrite substring_0_all|].
  split; [now rewrite append_nil_r | reflexivity].
Qed.

Lemma _parse_digits_channel (p : pattern) (g : string) :
  starts_with_digit (suffix p) = false ->
  isdigit g = true ->
  _parse_digits p (channel_name p g) = [FStr ""; FInt (int g); FStr ""].
Proof.
  intros Hs Hg. unfold _parse_digits, re_split.
  pose proof (re_find_here p _ _ _ (match_here_channel p g Hs Hg)) as Hf.
  destruct (String.length (channel_name p g)) as [|fuel] eqn:El.
  - exfalso. unfold channel_name in El. rewrite !append_length in El.
    destruct g; [discriminate|]. cbn [String.length] in El. lia.
  - cbn [re_split_fuel]. rewrite Hf.
    assert (He : re_split_fuel fuel p "" = [""]).
    { destruct fuel; cbn [re_split_fuel]; [reflexivity|].
      now rewrite re_find_empty. }
    rewrite He. cbn [map isdigit]. now rewrite Hg.
Qed.

Lemma insert_map {A B K : Type} (f : A -> B) (key : B -> K)
    (lt : K -> K -> outcome bool) (x : A) (l : list A) :
  insert key lt (f x) (map f l)
  = (r <- insert (fun a => key (f a)) lt x l ;; Ok (map f r)).
Proof.
  induction l as [|y l IH]; cbn [map insert]; [reflexivity|].
  destruct (lt (key (f y)) (key (f x))) as [[|]| |]; cbn [bind]; try reflexivity.
  rewrite IH. destruct (insert _ lt x l); reflexivity.
Qed.

Lemma sorted_map {A B K : Type} (f : A -> B) (key : B -> K)
    (lt : K -> K -> outcome bool) (l : list A) :
  sorted key lt (map f l)
  = (r <- sorted (fun a => key (f a)) lt l ;; Ok (map f r)).
Proof.
  induction l as [|x l IH]; cbn [map sorted]; [reflexivity|].
  rewrite IH. destruct (sorted _ lt l) as [r| |]; cbn [bind]; try reflexivity.
  apply insert_map.
Qed.

(** X13. Channels named [prefix], number, [suffix] (the suffix not
    starting with a digit, as for every pattern of the pipeline table and
    for the default pattern): the sort key of such a name is the empty
    string, the number, the empty string, so sorting never raises on such
    names and returns them by increasing number, [x2] before [x10]. *)
Theorem channels_sorted_by_number :
  forall (regex : pattern) (numbers : list string),
    starts_with_digit (suffix regex) = false ->
    forallb isdigit numbers = true ->
    exists sorted_numbers,
      _sort_numerically regex (map (channel_name regex) numbers)
      = Ok (map (channel_name regex) sorted_numbers)
      /\ Permutation numbers sorted_numbers
      /\ StronglySorted (fun a b => (int a <= int b)%N) sorted_numbers
      /\ (forall digits, In digits numbers ->
            _parse_digits regex (channel_name regex digits)
            = [FStr ""; FInt (int digits); FStr ""]).
Proof.
  intros p gs Hs Hall. rewrite forallb_forall in Hall.
  set (key := fun g => _parse_digits p (channel_name p g)).
  assert (Hkey : forall g, In g gs -> key g = [FStr ""; FInt (int g); FStr ""]).
  { intros g Hg. apply _parse_digits_channel; auto. }
  destruct (sorted_spec key key_lt key_cmp key_cmp_eq key_cmp_antisym
              key_cmp_trans key_lt_cmp gs) as (r & Hr & Hperm & _ & Hsorted).
  { intros x y Hx Hy. rewrite (Hkey x Hx), (Hkey y Hy).
    cbn [key_lt fragment_eqb String.eqb].
    destruct (N.eqb (int x) (int y)); cbn [fragment_lt]; eexists; reflexivity. }
  exists r. split; [|split; [exact Hperm|split; [|exact Hkey]]].
  - unfold _sort_numerically. rewrite sorted_map. fold key. now rewrite Hr.
  - apply (StronglySorted_impl_in (le_by key key_cmp)); [|exact Hsorted].
    intros a b Ha Hb. unfold le_by.
    rewrite (Hkey a (Permutation_in _ (Permutation_sym Hperm) Ha)).
    rewrite (Hkey b (Permutation_in _ (Permutation_sym Hperm) Hb)).
    cbn [key_cmp fragment_cmp String.compare].
    unfold N.le. destruct (N.compare (int a) (int b)); auto.
Qed.

Lemma channels_sorted_by_number_witness :
  exists sorted_numbers,
    _sort_numerically x_digits (map (channel_name x_digits) ["2"; "10"; "1"])
    = Ok (map (channel_name x_digits) sorted_numbers)
    /\ Permutation ["2"; "10"; "1"] sorted_numbers
    /\ StronglySorted (fun a b => (int a <= int b)%N) sorted_numbers
    /\ (forall digits, In digits ["2"; "10"; "1"] ->
          _parse_digits x_digits (channel_name x_digits digits)
          = [FStr ""; FInt (int digits); FStr ""]).
Proof.
  apply (channels_sorted_by_number x_digits ["2"; "10"; "1"]); reflexivity.
Defined.

(** ** TensorizeChannels beside the fused variable *)

Lemma combine_nested_onto (ds : Dataset) (dim : string) (group_keys : list string) :
  group_keys <> [] ->
  (forall k, In k group_keys -> exists v, dict_get k (variables ds) = Some v) ->
  (forall k k', In k group_keys -> In k' group_keys ->
     channel_axes ds k = channel_axes ds k') ->
  ~ In dim (map fst (channel_axes ds (hd EmptyString group_keys))) ->
  ~ In dim (dict_keys (variables ds)) ->
  combine_nested (map (channel_da ds) group_keys) dim
  = Ok (Combined
          {| da_var := stacked_var ds dim group_keys;
             da_coords :=
               coords_on ds (channel_var ds (hd EmptyString group_keys)) |}).
Proof.
  intros Hne Hex Hsh Hdim Hvar.
  destruct group_keys as [|k0 rest]; [congruence|]. clear Hne.
  cbn [map combine_nested hd] in *.
  destruct (Hex k0 (or_introl eq_refl)) as [v0 Hv0].
  destruct (channel_axes_var ds k0 v0 Hv0) as [Ha0 Hc0].
  assert (Hall : forallb (same_layout (channel_da ds k0))
                   (map (channel_da ds) rest) = true).
  { apply forallb_forall. intros c Hc. apply in_map_iff in Hc.
    destruct Hc as (k & <- & Hk).
    destruct (Hex k (or_intror Hk)) as [v Hv].
    destruct (channel_axes_var ds k v Hv) as [Ha Hc].
    assert (Eax : axes v0 = axes v).
    { rewrite <- Ha0, <- Ha. apply Hsh; [now left | now right]. }
    unfold same_layout, channel_da. cbn [da_var da_coords].
    rewrite Hc0, Hc, Eax, (coords_on_same_dims ds v0 v Eax).
    now rewrite (list_eqb_refl _ axis_eqb_refl), coords_same_refl. }
  rewrite Hall.
  assert (Hd1 : mem dim (var_dims (da_var (channel_da ds k0))) = false).
  { apply mem_false. intro H. apply Hdim. unfold channel_da in H.
    cbn [da_var] in H. rewrite Hc0 in H. rewrite Ha0. exact H. }
  assert (Hd2 : dict_mem dim (da_coords (channel_da ds k0)) = false).
  { rewrite dict_mem_keys. apply mem_false. intro H. apply Hvar.
    unfold dict_keys in *. apply in_map_iff in H.
    destruct H as ([c cv] & <- & Hin). apply coords_on_In in Hin.
    destruct Hin as [Hin _]. apply (in_map fst) in Hin. exact Hin. }
  rewrite Hd1, Hd2. cbn [negb andb].
  unfold stacked_var, channel_da. cbn [da_var da_coords hd List.length flat_map].
  rewrite length_map, Hc0, Ha0.
  replace (flat_map (fun c : DataArray => values (da_var c))
             (map (fun key => {| da_var := channel_var ds key;
                                 da_coords := coords_on ds (channel_var ds key) |})
                  rest))
    with (flat_map (fun key => values (channel_var ds key)) rest);
    [reflexivity|].
  rewrite !flat_map_concat_map, map_map. reflexivity.
Qed.

Lemma setitem_own_coords (ds : Dataset) (key : string) (v : Var) (olds : dict Var) :
  NoDup (dict_keys (variables ds)) ->
  (forall c cv, In (c, cv) olds -> In (c, cv) (variables ds)) ->
  setitem key {| da_var := v; da_coords := olds |} ds
  = (dims <- calculate_dimensions (dict_set key v (variables ds)) ;;
     if mem key (coord_names ds) || dict_mem key dims
     then Unmodelled "assignment under the name of a coordinate or dimension"
     else
       let cn := merged_coord_names
                   (dict_keys (coords ds)
                    ++ dict_keys
                         (filter (fun kv => negb (String.eqb (fst kv) key)
                                            && (mem (fst kv) (var_dims v)
                                                || negb (mem (fst kv) (coord_names ds))))
                                 olds))
                   (dict_set key v (variables ds)) dims in
       if existsb (fun c => dict_mem c (data_vars ds)) cn
       then Raise (MergeError
              "unable to determine if these variables should be coordinates or not in the merged result")
       else Ok {| variables := dict_set key v (variables ds);
                  coord_names := cn; attrs := attrs ds |}).
Proof.
  intros Hnd Holds. unfold setitem. cbn [da_var da_coords].
  set (f := fun kv : string * Var =>
              negb (String.eqb (fst kv) key)
              && (mem (fst kv) (var_dims v) || negb (mem (fst kv) (coord_names ds)))).
  assert (Hold_get : forall c cv, In (c, cv) (filter f olds) ->
            dict_get c (variables ds) = Some cv).
  { intros c cv Hin. apply filter_In in Hin. destruct Hin as [Hin _].
    apply In_dict_get; auto. }
  replace (existsb _ (filter f olds)) with false.
  2:{ symmetry. apply not_true_is_false. intro E. apply existsb_exists in E.
      destruct E as ([c cv] & Hin & Hc). cbn [fst snd] in Hc.
      rewrite (Hold_get c cv Hin), var_same_refl in Hc. discriminate. }
  rewrite (fold_set_present (filter f olds)) by exact Hold_get.
  reflexivity.
Qed.

(** X14. TensorizeChannels onto an axis that is taken. When the dataset
    already has the new axis with an extent that is not the number of
    matching variables (on a variable other than the stem), storing the
    fused variable raises [ValueError]: stages that share a [dim_name], as
    in the [xdc] pipeline, need groups with equally many channels. *)
Theorem TensorizeChannels_axis_taken :
  forall (self : Tensorizer) (dataset : Dataset) (other : string) (v : Var)
         (extent : nat),
    consistent dataset = true ->
    has_channels self dataset = true ->
    comparable (regex self) (matching_names self dataset) = true ->
    share_axes self dataset = true ->
    dict_mem (dim_name self) (variables dataset) = false ->
    forallb (fun key => negb (mem (dim_name self) (map fst (channel_axes dataset key))))
            (matching_names self dataset) = true ->
    dict_get other (variables dataset) = Some v ->
    other <> stem self ->
    In (dim_name self, extent) (axes v) ->
    extent <> List.length (matching_names self dataset) ->
    exists msg, TensorizeChannels self dataset = Raise (ValueError msg).
Proof.
  intros self dataset other v extent Hc Hhas Hcmp Hsh Hdimv Hdimc Hother Hne Hax Hext.
  destruct (consistent_facts dataset Hc) as (Hnd & Hcalc & Hcn & Hdc & Hws).
  destruct (_sort_numerically_spec (regex self) (matching_names self dataset) Hcmp)
    as (gk & Hgk & Hperm & _).
  assert (Hin_gk : forall k, In k gk -> In k (matching_names self dataset)).
  { intros k Hk. apply (Permutation_in _ (Permutation_sym Hperm) Hk). }
  assert (Hgk_ne : gk <> []).
  { intros ->. apply Permutation_sym, Permutation_nil in Hperm.
    unfold has_channels in Hhas. rewrite Hperm in Hhas. discriminate. }
  assert (Hgk_var : forall k, In k gk ->
            exists w, dict_get k (variables dataset) = Some w).
  { intros k Hk. destruct (in_matching_names self dataset k (Hin_gk k Hk))
      as (w & Hw & _). eauto. }
  assert (Hhd : In (hd EmptyString gk) gk).
  { destruct gk; [congruence | now left]. }
  set (dim := dim_name self) in *. set (st := stem self) in *.
  unfold TensorizeChannels.
  assert (Egk : _get_group_keys self dataset = Ok gk) by exact Hgk.
  rewrite Egk. cbn [bind]. fold dim st.
  rewrite (mapM_map _ (channel_da dataset)).
  2:{ intros k Hk. destruct (Hgk_var k Hk) as (w & Hw).
      now apply (getitem_da_channel dataset k w). }
  cbn [bind].
  rewrite (combine_nested_onto dataset dim gk Hgk_ne Hgk_var).
  2:{ intros k k' Hk Hk'. apply (share_axes_spec self dataset Hsh); auto. }
  2:{ rewrite forallb_forall in Hdimc.
      specialize (Hdimc _ (Hin_gk _ Hhd)). apply negb_true_iff in Hdimc.
      now apply mem_false. }
  2:{ rewrite dict_mem_keys in Hdimv. now apply mem_false. }
  cbn [bind setitem_combined].
  rewrite setitem_own_coords; [|exact Hnd|intros c cv Hin; now apply coords_on_In in Hin].
  set (sv := stacked_var dataset dim gk).
  assert (Hraise : exists msg,
            calculate_dimensions (dict_set st sv (variables dataset))
            = Raise (ValueError msg)).
  { destruct (calculate_dimensions (dict_set st sv (variables dataset)))
      as [dims| |] eqn:E.
    - exfalso. assert (Hret : returns (calculate_dimensions
                                (dict_set st sv (variables dataset))))
        by (now exists dims).
      apply calculate_dimensions_returns in Hret. destruct Hret as [_ Hsz].
      rewrite sizes_agree_iff in Hsz. apply Hext.
      rewrite (Permutation_length Hperm).
      apply (Hsz dim).
      + apply in_dim_pairs. exists other, v. split; [|exact Hax].
        apply dict_get_In. now rewrite dict_get_set_other.
      + apply in_dim_pairs. exists st, sv. split.
        * apply dict_get_In. apply dict_get_set_same.
        * now left.
    - unfold calculate_dimensions in E.
      destruct (existsb _ _); [injection E as <-; eexists; reflexivity|].
      destruct (sizes_agree _); [discriminate|].
      injection E as <-. eexists; reflexivity.
    - unfold calculate_dimensions in E.
      destruct (existsb _ _); [discriminate|].
      destruct (sizes_agree _); discriminate. }
  destruct Hraise as [msg Hmsg]. rewrite Hmsg. now exists msg.
Qed.

Lemma TensorizeChannels_axis_taken_witness :
  exists self,
    TensorizeChannels_init "b" None (Some "ch") false = Ok self
    /\ exists msg, TensorizeChannels self reused_axis = Raise (ValueError msg).
Proof.
  eexists. split; [reflexivity|].
  match goal with
  | |- context [TensorizeChannels ?self reused_axis] =>
      apply (TensorizeChannels_axis_taken self reused_axis
               "a" (mkvar [("ch", 3%nat)] [1; 2; 3]%Z) 3%nat)
  end; try reflexivity.
  - discriminate.
  - now left.
  - discriminate.
Defined.

Lemma setitem_Ok (key : string) (value : DataArray) (ds ds' : Dataset) :
  setitem key value ds = Ok ds' ->
  attrs ds' = attrs ds
  /\ (forall c,
        (In c (coord_names ds) /\ In c (dict_keys (variables ds)))
        \/ (In c (dict_keys (da_coords value)) /\ c <> key
            /\ In c (var_dims (da_var value))) ->
        In c (coord_names ds')).
Proof.
  unfold setitem. destruct (existsb _ _); [discriminate|].
  destruct (calculate_dimensions _) as [dims| |]; cbn [bind]; try discriminate.
  destruct (mem key (coord_names ds) || dict_mem key dims); [discriminate|].
  destruct (existsb _ _); [discriminate|]. intros [= <-].
  cbn [attrs coord_names]. split; [reflexivity|].
  intros c Hc. unfold merged_coord_names. apply In_dedup.
  apply in_or_app. left. apply in_or_app. destruct Hc as [[H1 H2]|(H1 & H2 & H3)].
  - left. unfold coords.
    apply (in_keys_filter (fun x => mem x (coord_names ds))).
    split; [exact H2 | now apply mem_In].
  - right. unfold dict_keys in *. apply in_map_iff in H1.
    destruct H1 as ([c' cv] & <- & Hin). apply in_map_iff. exists (c', cv).
    split; [reflexivity|]. apply filter_In. split; [exact Hin|].
    cbn [fst] in *. apply andb_true_iff. split.
    + now apply negb_true_iff, String.eqb_neq.
    + apply orb_true_iff. left. now apply mem_In.
Qed.

(** X15. Beside the fused variable. For a consistent dataset with at least
    one match, comparable keys, channels of identical axes, and fresh names
    (the new axis name neither a dimension nor a variable of the dataset,
    the stem neither a channel, a coordinate nor a dimension),
    TensorizeChannels keeps the attributes of the dataset and every
    variable that is neither a channel nor the stem, unchanged; with
    [assign_coords] the result has a coordinate called [dim_name] on the
    new axis whose values are the names of the channels in the fused order;
    without it, no variable of that name is created. *)
Theorem TensorizeChannels_labels :
  forall (self : Tensorizer) (dataset : Dataset),
    consistent dataset = true ->
    has_channels self dataset = true ->
    comparable (regex self) (matching_names self dataset) = true ->
    share_axes self dataset = true ->
    fresh_names self dataset = true ->
    exists group_keys result,
      _get_group_keys self dataset = Ok group_keys
      /\ TensorizeChannels self dataset = Ok result
      /\ attrs result = attrs dataset
      /\ (forall key v,
            dict_get key (variables dataset) = Some v ->
            ~ In key group_keys -> key <> stem self ->
            dict_get key (variables result) = Some v)
      /\ (if assign_coords self
          then dict_get (dim_name self) (variables result)
               = Some {| axes := [(dim_name self, List.length group_keys)];
                         values := map Str group_keys;
                         var_attrs := [] |}
               /\ In (dim_name self) (coord_names result)
          else dict_get (dim_name self) (variables result) = None).
Proof.
  intros self dataset Hc Hhas Hcmp Hsh Hfr.
  destruct (consistent_facts dataset Hc) as (Hnd & Hcalc & Hcn & Hdc & Hws).
  assert (HInv : Inv dataset) by (unfold Inv; auto).
  destruct (fresh_names_spec self dataset Hfr)
    as (Hdim_d & Hdim_v & Hsd & Hstem_m & Hstem_c & Hstem_d).
  destruct (_sort_numerically_spec (regex self) (matching_names self dataset) Hcmp)
    as (gk & Hgk & Hperm & _).
  assert (Hin_gk : forall k, In k gk -> In k (matching_names self dataset)).
  { intros k Hk. apply (Permutation_in _ (Permutation_sym Hperm) Hk). }
  assert (Hgk_ne : gk <> []).
  { intros ->. apply Permutation_sym, Permutation_nil in Hperm.
    unfold has_channels in Hhas. rewrite Hperm in Hhas. discriminate. }
  assert (Hgk_var : forall k, In k gk ->
            exists v, dict_get k (variables dataset) = Some v
                      /\ In (k, v) (variables dataset) /\ k <> stem self).
  { intros k Hk. pose proof (Hin_gk k Hk) as Hm.
    destruct (in_matching_names self dataset k Hm) as (v & Hv & Hin & _).
    exists v. split; [exact Hv|]. split; [exact Hin|]. congruence. }
  assert (Hshare : forall k k', In k gk -> In k' gk ->
            channel_axes dataset k = channel_axes dataset k').
  { intros k k' Hk Hk'. apply (share_axes_spec self dataset Hsh); auto. }
  assert (Hhd : In (hd EmptyString gk) gk).
  { destruct gk; [congruence | now left]. }
  assert (Hdim_gk : ~ In (dim_name self) gk).
  { intro H. destruct (Hgk_var _ H) as (v & _ & Hin & _).
    apply Hdim_v. apply (in_map fst) in Hin. exact Hin. }
  set (dim := dim_name self) in *. set (st := stem self) in *.
  set (sv := stacked_var dataset dim gk).
  set (A := channel_axes dataset (hd EmptyString gk)).
  assert (S8 : forall dm, In dm A -> In dm (dim_pairs (variables dataset))).
  { intros [d m] Hdm. destruct (Hgk_var _ Hhd) as (v0 & Hv0 & Hin0 & _).
    unfold A, channel_axes in Hdm. rewrite Hv0 in Hdm.
    apply in_dim_pairs. eauto. }
  assert (S7 : axes sv = (dim, List.length gk) :: A) by reflexivity.
  assert (S5 : ~ In dim (map fst A)).
  { intro H. apply Hdim_d. apply in_map_iff in H. destruct H as ([d m] & <- & Hin).
    apply in_dims_pairs. exists m. now apply S8. }
  assert (S6 : In (dim, List.length gk) (dim_pairs (variables dataset))
               \/ (~ In dim (dims_of dataset)
                   /\ forall v', In (dim, v') (variables dataset) ->
                        In dim (coord_names dataset) /\ axes v' <> [])).
  { right. split; [exact Hdim_d|]. intros v' Hin. exfalso. apply Hdim_v.
    apply (in_map fst) in Hin. exact Hin. }
  exists gk. unfold TensorizeChannels.
  assert (Egk : _get_group_keys self dataset = Ok gk) by exact Hgk.
  rewrite Egk. cbn [bind]. fold dim st.
  rewrite (mapM_map _ (channel_da dataset)).
  2:{ intros k Hk. destruct (Hgk_var k Hk) as (v & Hv & _).
      now apply (getitem_da_channel dataset k v). }
  cbn [bind].
  rewrite (combine_nested_channels dataset dim gk Hgk_ne); auto.
  2:{ intros k Hk. destruct (Hgk_var k Hk) as (v & Hv & _). eauto. }
  cbn [bind setitem_combined]. fold st sv.
  destruct (store_first dataset st dim sv (List.length gk) A HInv Hstem_c Hstem_d
              Hsd S5 S6 S7 S8
              (coords_on dataset (channel_var dataset (hd EmptyString gk)))
              (coords_on_In dataset _))
    as (x1 & Hx1 & Hst1 & Hfresh1).
  specialize (Hfresh1 Hdim_v).
  rewrite Hx1. cbn [bind].
  destruct (setitem_Ok _ _ _ _ Hx1) as [Hat1 _].
  set (labels := {| axes := [(dim, List.length gk)];
                    values := map Str gk; var_attrs := [] |}).
  (* the optional coordinate *)
  assert (Hx2 : exists x2,
            (if assign_coords self
             then da <- getitem_da st x1 ;;
                  da0 <- assign_coords_da dim gk da ;; setitem st da0 x1
             else Ok x1) = Ok x2
            /\ stored dataset st dim sv x2
            /\ attrs x2 = attrs dataset
            /\ (if assign_coords self
                then dict_get dim (variables x2) = Some labels
                     /\ In dim (coord_names x2)
                else dict_get dim (variables x2) = None)).
  { destruct (assign_coords self).
    2:{ exists x1. split; [reflexivity|]. split; [exact Hst1|].
        split; [exact Hat1|]. now apply dict_get_None. }
    pose proof Hst1 as (_ & Hget1 & _).
    rewrite (getitem_da_stored x1 st sv Hget1). cbn [bind].
    unfold assign_coords_da. cbn [da_var da_coords]. rewrite S7.
    cbn [dict_get]. rewrite String.eqb_refl, Nat.eqb_refl. cbn [bind].
    fold labels.
    rewrite dict_set_fresh.
    2:{ apply mem_false. intro H. apply Hfresh1. unfold dict_keys in *.
        apply in_map_iff in H. destruct H as ([c cv] & <- & Hin).
        apply coords_on_In in Hin. destruct Hin as [Hin _].
        apply (in_map fst) in Hin. exact Hin. }
    destruct (store_again dataset st dim sv (List.length gk) A HInv Hstem_c
                Hstem_d Hsd S5 S6 S7 S8 x1 [(dim, labels)] Hst1)
      as (y & Hy & Hsty & Hvy).
    { right. exists labels. split; [reflexivity|].
      split; [reflexivity | exact Hfresh1]. }
    exists y. split; [exact Hy|]. split; [exact Hsty|].
    destruct (setitem_Ok _ _ _ _ Hy) as [Haty Hcny].
    split; [congruence|]. split.
    - rewrite Hvy, dict_get_set_other by (intro E; apply Hsd; now symmetry).
      rewrite dict_get_app.
      replace (dict_get dim (variables x1)) with (@None Var)
        by (symmetry; now apply dict_get_None).
      cbn [dict_get]. now rewrite String.eqb_refl.
    - apply Hcny. right. cbn [da_coords da_var]. split; [|split].
      + unfold dict_keys. rewrite map_app. apply in_or_app. right. now left.
      + intro E. apply Hsd. now symmetry.
      + unfold var_dims. rewrite S7. now left. }
  destruct Hx2 as (x2 & Hx2 & Hst2 & Hat2 & Hlab2). rewrite Hx2. cbn [bind].
  pose proof Hst2 as (Hinv2 & Hget2 & _).
  rewrite (getitem_da_stored x2 st sv Hget2). cbn [bind]. unfold chunk.
  destruct (store_again dataset st dim sv (List.length gk) A HInv Hstem_c
              Hstem_d Hsd S5 S6 S7 S8 x2 [] Hst2 (or_introl eq_refl))
    as (x3 & Hx3 & Hst3 & Hv3).
  rewrite app_nil_r in Hx3, Hv3. rewrite Hx3. cbn [bind].
  destruct (setitem_Ok _ _ _ _ Hx3) as [Hat3 Hcn3].
  destruct Hst3 as (Hinv3 & Hget3 & _ & _ & Hkeep3 & _).
  (* the removal of the channels *)
  unfold drop_vars.
  assert (Hall : forallb (fun k => dict_mem k (variables x3)) gk = true).
  { apply forallb_forall. intros k Hk.
    destruct (Hgk_var k Hk) as (v & _ & Hin & Hne).
    unfold dict_mem. now rewrite (Hkeep3 k v Hin Hne). }
  rewrite Hall.
  destruct (calculate_dimensions_sub (variables x3)
              (filter (fun kv => negb (mem (fst kv) gk)) (variables x3)))
    as [dims3 Hdims3].
  { intros kv Hkv. apply filter_In in Hkv. tauto. }
  { apply Hinv3. }
  rewrite Hdims3. cbn [bind].
  eexists. split; [reflexivity|]. split; [reflexivity|].
  cbn [variables attrs coord_names]. split; [congruence|]. split.
  - intros key v Hv Hnot Hne.
    rewrite (dict_get_filter_key (fun x => negb (mem x gk))).
    rewrite (proj2 (mem_false key gk) Hnot). cbn [negb].
    apply Hkeep3; [now apply dict_get_In | exact Hne].
  - assert (Hdim3 : dict_get dim (variables x3) = dict_get dim (variables x2)).
    { rewrite Hv3. apply dict_get_set_other. intro E. apply Hsd. now symmetry. }
    rewrite (dict_get_filter_key (fun x => negb (mem x gk))).
    rewrite (proj2 (mem_false dim gk) Hdim_gk). cbn [negb]. rewrite Hdim3.
    destruct (assign_coords self); [|exact Hlab2].
    destruct Hlab2 as [Hl1 Hl2]. split; [exact Hl1|].
    apply filter_In. split.
    + apply Hcn3. left. split; [exact Hl2|].
      apply dict_get_In in Hl1. apply (in_map fst) in Hl1. exact Hl1.
    + now rewrite (proj2 (mem_false dim gk) Hdim_gk).
Qed.

Lemma TensorizeChannels_labels_witness :
  exists self,
    TensorizeChannels_init "x" None None true = Ok self
    /\ exists group_keys result,
         _get_group_keys self three_channels = Ok group_keys
         /\ TensorizeChannels self three_channels = Ok result
         /\ attrs result = attrs three_channels
         /\ (forall key v,
               dict_get key (variables three_channels) = Some v ->
               ~ In key group_keys -> key <> "x" ->
               dict_get key (variables result) = Some v)
         /\ (dict_get "x_channel" (variables result)
             = Some {| axes := [("x_channel", List.length group_keys)];
                       values := map Str group_keys;
                       var_attrs := [] |}
             /\ In "x_channel" (coord_names result)).
Proof.
  eexists. split; [reflexivity|].
  match goal with
  | |- context [TensorizeChannels ?self three_channels] =>
      apply (TensorizeChannels_labels self three_channels)
  end; reflexivity.
Defined.

(** ** ASXTransform *)

Lemma rename_dims_check_fresh (items : list (string * string)) (ds : Dataset) :
  rename_dims_check items ds = Ok tt ->
  forall k v, In (k, v) items -> dict_mem v (variables ds) = false.
Proof.
  induction items as [|[k0 v0] items IH]; cbn [rename_dims_check];
    [intros _ k v []|].
  destruct (mem k0 (dims_of ds)); cbn [negb]; [|discriminate].
  destruct (mem v0 (dims_of ds)); cbn [orb]; [discriminate|].
  destruct (dict_mem v0 (variables ds)) eqn:Ev; [discriminate|].
  intros H k v [[= <- <-]|Hin]; [exact Ev | now apply (IH H k v)].
Qed.

Lemma rename_dims_keys (dims : dict string) (x y : Dataset) :
  rename_dims dims x = Ok y ->
  dict_keys (variables y) = dict_keys (variables x)
  /\ forall k v, In (k, v) dims -> dict_mem v (variables x) = false.
Proof.
  unfold rename_dims. intro H. apply bind_Ok in H. destruct H as ([] & Hchk & H).
  apply _rename_all_vars in H. destruct H as (Hv & _). split.
  - rewrite Hv. unfold dict_keys. rewrite map_map. apply map_ext.
    intros [k v]. reflexivity.
  - now apply rename_dims_check_fresh.
Qed.

Lemma squeeze_false_keys (ds : Dataset) :
  dict_keys (variables (squeeze false ds)) = dict_keys (variables ds).
Proof.
  rewrite squeeze_false_eq. cbn [variables]. unfold dict_keys.
  rewrite map_map. reflexivity.
Qed.

Lemma fold_set_keys {V : Type} (l : dict V) : forall (d : dict V) (k : string),
  In k (dict_keys (fold_left (fun acc kv => dict_set (fst kv) (snd kv) acc) l d)) ->
  In k (dict_keys d) \/ In k (dict_keys l).
Proof.
  induction l as [|[c cv] l IH]; intros d k; cbn [fold_left fst snd].
  - now left.
  - intro H. apply IH in H. destruct H as [H|H].
    + apply dict_set_keys in H. destruct H as [->|H]; [right; now left | now left].
    + right. now right.
Qed.

Lemma setitem_keys (key : string) (value : DataArray) (ds ds' : Dataset) :
  setitem key value ds = Ok ds' ->
  forall k, In k (dict_keys (variables ds')) ->
    k = key \/ In k (dict_keys (variables ds))
    \/ In k (dict_keys (da_coords value)).
Proof.
  unfold setitem. destruct (existsb _ _); [discriminate|].
  destruct (calculate_dimensions _) as [dims| |]; cbn [bind]; try discriminate.
  destruct (mem key (coord_names ds) || dict_mem key dims); [discriminate|].
  destruct (existsb _ _); [discriminate|]. intros [= <-] k. cbn [variables].
  rewrite dict_set_keys. intros [H|H]; [now left | right].
  apply fold_set_keys in H. destruct H as [H|H]; [now left | right].
  unfold dict_keys in *. apply in_map_iff in H. destruct H as (kv & <- & Hf).
  apply filter_In in Hf. apply in_map. tauto.
Qed.

Lemma getitem_da_coords (key : string) (ds : Dataset) (da : DataArray) :
  getitem_da key ds = Ok da ->
  forall k, In k (dict_keys (da_coords da)) -> In k (dict_keys (variables ds)).
Proof.
  unfold getitem_da. intro H. apply bind_Ok in H. destruct H as (r & _ & [= <-]).
  cbn [da_coords]. intros k Hk. unfold dict_keys in *. apply in_map_iff in Hk.
  destruct Hk as ([c cv] & <- & Hin). apply coords_on_In in Hin.
  destruct Hin as [Hin _]. apply (in_map fst) in Hin. exact Hin.
Qed.

(** X16. ASXTransform needs a variable called [time]. When the table has
    an entry for the name of the dataset, renaming the axes of the squeezed
    dataset gives a consistent dataset without an axis called [data], and
    that dataset has no variable [time] (as when the entry itself renames
    an axis to [time], which [rename_dims] accepts only if no variable has
    that name), ASXTransform raises: [ValueError] when there is no [data] to
    drop, [KeyError] when [time] is not even a dimension, and otherwise
    [ValueError] at the final [drop("time")], since [dataset["time"]] was
    then only the index of a dimension. *)
Theorem ASXTransform_needs_time :
  forall (dimension_mapping : dict (dict string)) (dataset renamed : Dataset)
         (name : string) (dims : dict string),
    dict_get "name" (attrs dataset) = Some (AStr name) ->
    dict_get name dimension_mapping = Some dims ->
    rename_dims dims (squeeze false dataset) = Ok renamed ->
    consistent renamed = true ->
    mem "data" (dims_of renamed) = false ->
    dict_mem "time" (variables renamed) = false ->
    ASXTransform dimension_mapping dataset
    = Raise (if dict_mem "data" (variables renamed)
             then if existsb (fun kv => negb (String.eqb (fst kv) "data")
                                        && mem "time" (var_dims (snd kv)))
                             (variables renamed)
                  then ValueError "These variables cannot be found in this dataset"
                  else KeyError "No variable named 'time'"
             else ValueError "These variables cannot be found in this dataset").
Proof.
  intros table dataset renamed name dims Hn Ht Hren Hc Hdim Htime.
  unfold ASXTransform, attrs_getitem.
  change (attrs (squeeze false dataset)) with (attrs dataset).
  rewrite Hn. cbn [bind hashable]. rewrite Ht, Hren. cbn [bind].
  destruct (consistent_facts renamed Hc) as (Hnd & Hcalc & _).
  destruct (dict_mem "data" (variables renamed)) eqn:Hd.
  2:{ unfold drop_vars. cbn [forallb]. now rewrite Hd. }
  rewrite (drop_vars_one "data" renamed Hd Hcalc). cbn [bind].
  set (ds2 := {| variables := filter (fun kv => negb (mem (fst kv) ["data"]))
                                     (variables renamed);
                 coord_names := filter (fun c => negb (mem c ["data"]))
                                       (coord_names renamed);
                 attrs := attrs renamed |}).
  pose proof (dropped_consistent ["data"] renamed Hc) as Hc2. fold ds2 in Hc2.
  destruct (consistent_facts ds2 Hc2) as (Hnd2 & Hcalc2 & Hcn2 & Hdc2 & _).
  assert (HInv2 : Inv ds2) by (unfold Inv; auto).
  assert (Hget2 : forall k, k <> "data" ->
            dict_get k (variables ds2) = dict_get k (variables renamed)).
  { intros k Hk. unfold ds2. cbn [variables].
    rewrite (dict_get_filter_key (fun x => negb (mem x ["data"]))).
    cbn [mem]. rewrite orb_false_r.
    now rewrite (proj2 (String.eqb_neq k "data") Hk). }
  assert (Htm2 : dict_get "time" (variables ds2) = None).
  { rewrite Hget2 by discriminate. unfold dict_mem in Htime.
    now destruct (dict_get "time" (variables renamed)). }
  assert (Hdims2 : forall d, In d (dims_of ds2) -> In d (dims_of renamed)).
  { intros d. rewrite !in_dims_of. intros (k & v & Hin & Hdv).
    apply filter_In in Hin. exists k, v. tauto. }
  assert (Hex : existsb (fun kv => negb (String.eqb (fst kv) "data")
                                   && mem "time" (var_dims (snd kv)))
                        (variables renamed)
                = mem "time" (dims_of ds2)).
  { destruct (mem "time" (dims_of ds2)) eqn:Em.
    - apply mem_In, in_dims_of in Em. destruct Em as (k & v & Hin & Hv).
      apply existsb_exists. exists (k, v). unfold ds2 in Hin. cbn [variables] in Hin.
      apply filter_In in Hin. destruct Hin as [Hin Hk]. split; [exact Hin|].
      cbn [fst snd mem] in *. rewrite orb_false_r in Hk. rewrite Hk.
      now apply mem_In.
    - apply not_true_is_false. intro E. apply existsb_exists in E.
      destruct E as ([k v] & Hin & Hk). cbn [fst snd] in Hk.
      apply andb_true_iff in Hk. destruct Hk as [Hk Hv].
      apply mem_false in Em. apply Em. apply in_dims_of. exists k, v.
      split; [|now apply mem_In]. unfold ds2. cbn [variables].
      apply filter_In. split; [exact Hin|]. cbn [fst mem].
      now rewrite orb_false_r. }
  rewrite Hex. apply mem_false in Hdim.
  unfold getitem_da, getitem. rewrite Htm2.
  destruct (dict_get "time" (sizes ds2)) as [n|] eqn:En.
  2:{ cbn [bind]. apply dict_get_None in En. fold (dims_of ds2) in En.
      now rewrite (proj2 (mem_false _ _) En). }
  assert (Hin_n : In ("time", n) (dim_pairs (variables ds2))).
  { unfold sizes in En. rewrite dict_get_first_wins in En. now apply dict_get_In. }
  assert (Em : mem "time" (dims_of ds2) = true).
  { apply mem_In. apply in_dims_pairs. eauto. }
  rewrite Em. cbn [bind snd].
  destruct (setitem_spec ds2 "data" (virtual_index "time" n)
              (coords_on ds2 (virtual_index "time" n)) [] HInv2)
    as (ds3 & Hds3 & Hv3 & _).
  - unfold ds2. cbn [coord_names]. intro H. apply filter_In in H.
    destruct H as [_ H]. cbn in H. discriminate.
  - intro H. apply Hdim. now apply Hdims2.
  - cbn. intros [H|[]]. discriminate.
  - apply coords_on_In.
  - constructor.
  - intros c cv [].
  - intros d m [[= <- <-]|[]]. now left.
  - intros d m m' [[= <- <-]|[]] [[= <-]|[]]. reflexivity.
  - rewrite app_nil_r in Hds3, Hv3. rewrite Hds3. cbn [bind].
    unfold drop_vars. cbn [forallb].
    replace (dict_mem "time" (variables ds3)) with false; [reflexivity|].
    symmetry. unfold dict_mem. rewrite Hv3, dict_get_set_other by discriminate.
    now rewrite Htm2.
Qed.

Lemma ASXTransform_needs_time_witness :
  ASXTransform dim_names raw_signal
  = Raise (ValueError "These variables cannot be found in this dataset").
Proof.
  apply (ASXTransform_needs_time dim_names raw_signal raw_renamed "foo"
           [("dim_0", "time")]); reflexivity.
Defined.

(** X17. ASXTransform, when the table has an entry for the name of the
    dataset. If renaming the axes of the squeezed dataset gives a consistent
    dataset that has the variables [data] and [time] and no axis called
    [data], ASXTransform returns a dataset in which [data] is what [time]
    was (values, axes and attributes), the old [data] is lost, there is no
    variable [time] any more, and every other variable is as after the
    renaming; the attributes of the dataset are kept. *)
Theorem ASXTransform_time_becomes_data :
  forall (dimension_mapping : dict (dict string)) (dataset renamed : Dataset)
         (name : string) (dims : dict string) (data time : Var),
    dict_get "name" (attrs dataset) = Some (AStr name) ->
    dict_get name dimension_mapping = Some dims ->
    rename_dims dims (squeeze false dataset) = Ok renamed ->
    consistent renamed = true ->
    dict_get "data" (variables renamed) = Some data ->
    dict_get "time" (variables renamed) = Some time ->
    mem "data" (dims_of renamed) = false ->
    exists result,
      ASXTransform dimension_mapping dataset = Ok result
      /\ dict_get "data" (variables result) = Some time
      /\ dict_get "time" (variables result) = None
      /\ mem "data" (coord_names result) = false
      /\ (forall key v,
            dict_get key (variables renamed) = Some v ->
            key <> "data" -> key <> "time" ->
            dict_get key (variables result) = Some v)
      /\ attrs result = attrs dataset.
Proof.
  intros table dataset renamed name dims data time Hn Ht Hren Hc Hd Htm Hdim.
  unfold ASXTransform, attrs_getitem.
  change (attrs (squeeze false dataset)) with (attrs dataset).
  rewrite Hn. cbn [bind hashable]. rewrite Ht, Hren. cbn [bind].
  assert (Hattrs : attrs renamed = attrs dataset).
  { unfold rename_dims in Hren. apply bind_Ok in Hren.
    destruct Hren as (_ & _ & Hren). apply _rename_all_vars in Hren.
    destruct Hren as (_ & _ & ->). reflexivity. }
  destruct (consistent_facts renamed Hc) as (Hnd & Hcalc & _).
  rewrite (drop_vars_one "data" renamed);
    [|unfold dict_mem; now rewrite Hd|exact Hcalc].
  cbn [bind].
  set (ds2 := {| variables := filter (fun kv => negb (mem (fst kv) ["data"]))
                                     (variables renamed);
                 coord_names := filter (fun c => negb (mem c ["data"]))
                                       (coord_names renamed);
                 attrs := attrs renamed |}).
  pose proof (dropped_consistent ["data"] renamed Hc) as Hc2. fold ds2 in Hc2.
  destruct (consistent_facts ds2 Hc2) as (Hnd2 & Hcalc2 & Hcn2 & Hdc2 & _).
  assert (HInv2 : Inv ds2) by (unfold Inv; auto).
  assert (Hget2 : forall k, k <> "data" ->
            dict_get k (variables ds2) = dict_get k (variables renamed)).
  { intros k Hk. unfold ds2. cbn [variables].
    rewrite (dict_get_filter_key (fun x => negb (mem x ["data"]))).
    cbn [mem]. rewrite orb_false_r.
    now rewrite (proj2 (String.eqb_neq k "data") Hk). }
  assert (Htm2 : dict_get "time" (variables ds2) = Some time)
    by (rewrite Hget2; [exact Htm | discriminate]).
  assert (Hdims2 : forall d, In d (dims_of ds2) -> In d (dims_of renamed)).
  { intros d. rewrite !in_dims_of. intros (k & v & Hin & Hdv).
    apply filter_In in Hin. exists k, v. tauto. }
  apply mem_false in Hdim.
  rewrite (getitem_da_stored ds2 "time" time Htm2). cbn [bind].
  destruct (setitem_spec ds2 "data" time (coords_on ds2 time) [] HInv2)
    as (ds3 & Hds3 & Hv3 & Hcn3 & Hat3 & HInv3).
  - unfold ds2. cbn [coord_names]. intro H. apply filter_In in H.
    destruct H as [_ H]. cbn in H. discriminate.
  - intro H. apply Hdim. now apply Hdims2.
  - intro H. apply Hdim. apply in_dims_of. exists "time", time.
    split; [now apply dict_get_In | exact H].
  - apply coords_on_In.
  - constructor.
  - intros c cv [].
  - intros d n Hin. left. apply in_dim_pairs. exists "time", time.
    split; [now apply dict_get_In | exact Hin].
  - intros d n m H1 H2.
    apply calculate_dimensions_returns in Hcalc2. destruct Hcalc2 as [_ Hsz].
    rewrite sizes_agree_iff in Hsz. apply (Hsz d).
    + apply in_dim_pairs. exists "time", time. split; [now apply dict_get_In | exact H1].
    + apply in_dim_pairs. exists "time", time. split; [now apply dict_get_In | exact H2].
  - rewrite app_nil_r in Hds3, Hv3. rewrite Hds3. cbn [bind].
    assert (Htm3 : dict_get "time" (variables ds3) = Some time).
    { rewrite Hv3, dict_get_set_other by discriminate. exact Htm2. }
    rewrite (drop_vars_one "time" ds3);
      [|unfold dict_mem; now rewrite Htm3|apply HInv3].
    eexists. split; [reflexivity|]. cbn [variables coord_names attrs].
    split; [|split; [|split; [|split]]].
    + rewrite (dict_get_filter_key (fun x => negb (mem x ["time"]))).
      cbn [mem String.eqb Ascii.eqb Bool.eqb orb negb].
      rewrite Hv3. apply dict_get_set_same.
    + rewrite (dict_get_filter_key (fun x => negb (mem x ["time"]))).
      cbn [mem]. now rewrite String.eqb_refl.
    + rewrite mem_filter. apply andb_false_iff. left. apply mem_false.
      intro H. apply Hcn3 in H. destruct H as [H|[]].
      unfold ds2 in H. cbn [coord_names] in H. apply filter_In in H.
      destruct H as [_ H]. cbn in H. discriminate.
    + intros key v Hv Hk1 Hk2.
      rewrite (dict_get_filter_key (fun x => negb (mem x ["time"]))).
      cbn [mem]. rewrite orb_false_r.
      rewrite (proj2 (String.eqb_neq key "time") Hk2). cbn [negb].
      rewrite Hv3, dict_get_set_other by exact Hk1.
      rewrite Hget2 by exact Hk1. exact Hv.
    + rewrite Hat3. unfold ds2. cbn [attrs]. exact Hattrs.
Qed.

Lemma ASXTransform_time_becomes_data_witness :
  exists result,
    ASXTransform asx_names asx_signal = Ok result
    /\ dict_get "data" (variables result)
       = Some (mkvar [("major_radius", 3%nat)] [11; 12; 13]%Z)
    /\ dict_get "time" (variables result) = None
    /\ mem "data" (coord_names result) = false
    /\ (forall key v,
          dict_get key (variables asx_renamed) = Some v ->
          key <> "data" -> key <> "time" ->
          dict_get key (variables result) = Some v)
    /\ attrs result = attrs asx_signal.
Proof.
  apply (ASXTransform_time_becomes_data asx_names asx_signal asx_renamed "asx"
           [("time", "major_radius")]
           (mkvar [("major_radius", 3%nat)] [0; 0; 0]%Z)
           (mkvar [("major_radius", 3%nat)] [11; 12; 13]%Z)); reflexivity.
Defined.

(** ** Pipeline *)

(** X18. A pipeline over a concatenation of stages is the pipeline over the
    first stages followed, on what that returned, by the pipeline over the
    rest; when the first part raises, nothing of the rest is applied and
    the exception is the result. *)
Theorem Pipeline_app :
  forall (X : Type) (first rest : list (X -> outcome X)) (x : X),
    Pipeline (first ++ rest) x = (y <- Pipeline first x ;; Pipeline rest y).
Proof.
  intros X first rest. induction first as [|t first IH]; intro x; [reflexivity|].
  cbn [app Pipeline]. destruct (t x) as [x'|e|w]; cbn [bind]; [apply IH| |]; reflexivity.
Qed.

(** ** The registered pipelines *)

Lemma call_kind (t : Stage.transform) (x y : value) :
  call t x = Ok y ->
  takes_merged t = is_merged x /\ is_merged y = gives_merged t.
Proof.
  destruct t, x; cbn [call]; try discriminate; intro H; apply bind_Ok in H;
    destruct H as (r & _ & H);
    try (apply bind_Ok in H; destruct H as (r' & _ & H));
    injection H as <-; auto.
Qed.

Lemma well_staged_sound (transforms : list Stage.transform) : forall x b y,
  well_staged (is_merged x) transforms = Some b ->
  run transforms x = Ok y -> is_merged y = b.
Proof.
  unfold run. induction transforms as [|t rest IH]; intros x b y;
    cbn [well_staged map Pipeline].
  - now intros [= <-] [= <-].
  - destruct (Bool.eqb (takes_merged t) (is_merged x)); [|discriminate].
    intros Hw H. apply bind_Ok in H. destruct H as (x' & Hx' & H).
    apply call_kind in Hx'. destruct Hx' as [_ Hk].
    apply (IH x' b y); [now rewrite Hk | exact H].
Qed.

Lemma PipelineRegistry_get_In (pipelines : dict (list Stage.transform))
    (name : string) (pipeline : list Stage.transform) :
  PipelineRegistry_get pipelines name = Ok pipeline -> In (name, pipeline) pipelines.
Proof.
  unfold PipelineRegistry_get.
  destruct (dict_get name pipelines) as [p|] eqn:E; [|discriminate].
  intros [= <-]. now apply dict_get_In.
Qed.

(** X19. The registry holds 32 pipelines under pairwise distinct names,
    and in each of them the stages fit together: whenever a registered
    pipeline returns on a dictionary of datasets, it returns a single
    dataset, and no stage written for a dataset comes before
    MergeDatasets or the converse. A name that is not registered raises
    [RuntimeError]. *)
Theorem registered_pipelines_merge :
  forall (dimension_mapping : dict (dict string)) (name : string),
    List.length (PipelineRegistry_init dimension_mapping) = 32%nat
    /\ unique_keys (dict_keys (PipelineRegistry_init dimension_mapping)) = true
    /\ match PipelineRegistry_get (PipelineRegistry_init dimension_mapping) name with
       | Ok pipeline =>
           well_staged false pipeline = Some true
           /\ forall datasets y,
                run pipeline (Datasets datasets) = Ok y ->
                exists dataset, y = Merged dataset
       | Raise e =>
           dict_mem name (PipelineRegistry_init dimension_mapping) = false
           /\ e = RuntimeError (name ++ " is not a registered source!")%string
       | Unmodelled _ => False
       end.
Proof.
  intros mapping name. set (pipelines := PipelineRegistry_init mapping).
  split; [reflexivity|]. split; [reflexivity|].
  assert (Hall : forallb (fun np => match well_staged false (snd np) with
                                    | Some true => true
                                    | _ => false
                                    end) pipelines = true) by reflexivity.
  destruct (PipelineRegistry_get pipelines name) as [pipeline|e|w] eqn:E.
  - apply PipelineRegistry_get_In in E. rewrite forallb_forall in Hall.
    specialize (Hall _ E). cbn [snd] in Hall.
    destruct (well_staged false pipeline) as [[|]|] eqn:Ew; try discriminate.
    split; [reflexivity|]. intros datasets y Hy.
    pose proof (well_staged_sound pipeline (Datasets datasets) true y Ew Hy) as Hm.
    destruct y as [d|ds]; [discriminate | now exists ds].
  - unfold PipelineRegistry_get in E. unfold dict_mem.
    destruct (dict_get name pipelines); [discriminate|].
    injection E as <-. auto.
  - unfold PipelineRegistry_get in E.
    destruct (dict_get name pipelines); discriminate.
Qed.

(** X20. Every registered pipeline standardises its signals exactly once,
    under its own registry name as source: except [amb], whose signals are
    named under [abm], and [anb], whose signals are named under [amb]. *)
Theorem registered_sources :
  forall (dimension_mapping : dict (dict string)) (name : string)
         (pipeline : list Stage.transform),
    PipelineRegistry_get (PipelineRegistry_init dimension_mapping) name = Ok pipeline ->
    sources pipeline = [source_of name].
Proof.
  intros mapping name pipeline E. apply PipelineRegistry_get_In in E.
  assert (Hall : forallb (fun np => list_eqb String.eqb (sources (snd np))
                                      [source_of (fst np)])
                   (PipelineRegistry_init mapping) = true) by reflexivity.
  rewrite forallb_forall in Hall. specialize (Hall _ E). cbn [fst snd] in Hall.
  apply (list_eqb_eq String.eqb); [|exact Hall].
  intros x y. apply String.eqb_eq.
Qed.

Lemma registered_sources_witness :
  sources [Stage.MapDict (Stage.StandardizeSignalDataset "amb");
           Stage.MergeDatasets]
  = [source_of "anb"].
Proof.
  apply (registered_sources dim_names "anb"). reflexivity.
Defined.

(** X21. The registered pipelines on an empty dictionary. [efm] raises
    [KeyError] for [fcoil_n], the first dataset it is to drop; the
    pipelines with TensorizeChannels, which are [amb], [amm], [asm], [xdc]
    and [xsx], raise [TypeError] at their first tensorizer, which finds
    nothing to fuse; and every other pipeline returns the empty dataset. *)
Theorem registered_pipelines_on_nothing :
  forall (dimension_mapping : dict (dict string)) (name : string)
         (pipeline : list Stage.transform),
    PipelineRegistry_get (PipelineRegistry_init dimension_mapping) name = Ok pipeline ->
    run pipeline (Datasets [])
    = (if String.eqb name "efm" then Raise (KeyError "fcoil_n")
       else if mem name ["amb"; "amm"; "asm"; "xdc"; "xsx"]
       then Raise (TypeError
              "Cannot assign a Dataset to a single key - only a DataArray or Variable object can be stored under a single key.")
       else Ok (Merged empty_dataset))
    /\ match tensorizers pipeline with [] => false | _ :: _ => true end
       = mem name ["amb"; "amm"; "asm"; "xdc"; "xsx"].
Proof.
  intros mapping name pipeline E. apply PipelineRegistry_get_In in E.
  assert (Hall : Forall (fun np =>
            run (snd np) (Datasets [])
            = (if String.eqb (fst np) "efm" then Raise (KeyError "fcoil_n")
               else if mem (fst np) ["amb"; "amm"; "asm"; "xdc"; "xsx"]
               then Raise (TypeError
                      "Cannot assign a Dataset to a single key - only a DataArray or Variable object can be stored under a single key.")
               else Ok (Merged empty_dataset))
            /\ match tensorizers (snd np) with [] => false | _ :: _ => true end
               = mem (fst np) ["amb"; "amm"; "asm"; "xdc"; "xsx"])
            (PipelineRegistry_init mapping)).
  { unfold PipelineRegistry_init.
    repeat (apply Forall_cons; [split; reflexivity|]).
    apply Forall_nil. }
  rewrite Forall_forall in Hall. exact (Hall _ E).
Qed.

Lemma registered_pipelines_on_nothing_witness :
  exists pipeline,
    PipelineRegistry_get (PipelineRegistry_init dim_names) "efm" = Ok pipeline
    /\ run pipeline (Datasets []) = Raise (KeyError "fcoil_n")
    /\ match tensorizers pipeline with [] => false | _ :: _ => true end = false.
Proof.
  eexists. split; [reflexivity|].
  match goal with
  | |- run ?pipeline _ = _ /\ _ =>
      apply (registered_pipelines_on_nothing dim_names "efm" pipeline)
  end.
  reflexivity.
Defined.

(** Every tensorizer of the registry has a stem without operators: its
    pattern, default or explicit, is one the model covers. *)
Lemma registered_tensorizers_constructed (dimension_mapping : dict (dict string)) :
  forallb
    (fun np =>
       forallb (fun t =>
                  match t with
                  | Stage.TensorizeChannels stem regex dim_name assign_coords =>
                      match TensorizeChannels_init stem regex dim_name
                              assign_coords with
                      | Ok _ => true
                      | _ => false
                      end
                  | _ => true
                  end) (snd np))
    (PipelineRegistry_init dimension_mapping) = true.
Proof. reflexivity. Qed.

(** X22. In every registered pipeline, no tensorizer has a pattern that
    matches the stem or the axis name of a tensorizer of that pipeline, so
    no stage fuses or drops what another stage has produced; no pattern has
    a suffix that starts with a digit; the stems of a pipeline are pairwise
    distinct; and only in [xdc] do tensorizers share an axis name. *)
Theorem registered_tensorizers_spare_outputs :
  forall (dimension_mapping : dict (dict string)) (name : string)
         (pipeline : list Stage.transform),
    PipelineRegistry_get (PipelineRegistry_init dimension_mapping) name = Ok pipeline ->
    (forall self other,
       In self (tensorizers pipeline) -> In other (tensorizers pipeline) ->
       re_search (regex self) (stem other) = false
       /\ re_search (regex self) (dim_name other) = false
       /\ starts_with_digit (suffix (regex self)) = false)
    /\ unique_keys (map stem (tensorizers pipeline)) = true
    /\ unique_keys (map dim_name (tensorizers pipeline))
       = negb (String.eqb name "xdc").
Proof.
  intros mapping name pipeline E. apply PipelineRegistry_get_In in E.
  assert (Hall : forallb (fun np =>
                    outputs_spared (snd np)
                    && unique_keys (map stem (tensorizers (snd np)))
                    && Bool.eqb (unique_keys (map dim_name (tensorizers (snd np))))
                                (negb (String.eqb (fst np) "xdc")))
                   (PipelineRegistry_init mapping) = true) by (vm_compute; reflexivity).
  rewrite forallb_forall in Hall. specialize (Hall _ E). cbn [fst snd] in Hall.
  apply andb_true_iff in Hall. destruct Hall as [Hall H3].
  apply andb_true_iff in Hall. destruct Hall as [H1 H2].
  split; [|split; [exact H2 | now apply Bool.eqb_prop]].
  intros self other Hs Ho. unfold outputs_spared in H1.
  rewrite forallb_forall in H1. specialize (H1 self Hs).
  apply andb_true_iff in H1. destruct H1 as [Hd H1].
  rewrite forallb_forall in H1. specialize (H1 other Ho).
  apply andb_true_iff in H1. destruct H1 as [Ha Hb].
  now rewrite !negb_true_iff in *.
Qed.

Lemma registered_tensorizers_spare_outputs_witness :
  (forall self other,
     In self (tensorizers [Stage.MapDict (Stage.StandardizeSignalDataset "asm");
                           Stage.MergeDatasets;
                           tensorize "sad_m" None None true]) ->
     In other (tensorizers [Stage.MapDict (Stage.StandardizeSignalDataset "asm");
                            Stage.MergeDatasets;
                            tensorize "sad_m" None None true]) ->
     re_search (regex self) (stem other) = false
     /\ re_search (regex self) (dim_name other) = false
     /\ starts_with_digit (suffix (regex self)) = false)
  /\ unique_keys
       (map stem (tensorizers [Stage.MapDict (Stage.StandardizeSignalDataset "asm");
                               Stage.MergeDatasets;
                               tensorize "sad_m" None None true])) = true
  /\ unique_keys
       (map dim_name
            (tensorizers [Stage.MapDict (Stage.StandardizeSignalDataset "asm");
                          Stage.MergeDatasets;
                          tensorize "sad_m" None None true]))
     = negb (String.eqb "asm" "xdc").
Proof.
  apply (registered_tensorizers_spare_outputs dim_names "asm"). reflexivity.
Defined.

(** ** The plain pipeline: standardise, then merge *)

Lemma existsb_mem_nil (l : list string) : existsb (fun d => mem d []) l = false.
Proof. induction l as [|x l IH]; cbn; auto. Qed.

Lemma filter_false {A : Type} (f : A -> bool) (l : list A) :
  (forall x, In x l -> f x = false) -> filter f l = [].
Proof.
  induction l as [|x l IH]; cbn [filter]; intro H; [reflexivity|].
  rewrite (H x (or_introl eq_refl)). apply IH. intros y Hy. apply H. now right.
Qed.

Lemma squeeze_true_id (x : Dataset) : squeeze_dims x = [] -> squeeze true x = x.
Proof.
  intro H. unfold squeeze. rewrite H.
  assert (Hd : forall kv, squeeze_drops true [] (coord_names x) kv = false).
  { intros kv. unfold squeeze_drops. now rewrite existsb_mem_nil. }
  rewrite (filter_true (fun kv => negb (squeeze_drops true [] (coord_names x) kv)))
    by (intros; now rewrite Hd).
  rewrite (filter_false (squeeze_drops true [] (coord_names x)))
    by (intros; apply Hd).
  destruct x as [vars cn at_]. cbn [variables coord_names attrs dict_keys map mem negb].
  f_equal.
  - clear H Hd. induction vars as [|[k v] vars IH]; cbn [map fst snd]; [reflexivity|].
    rewrite var_squeeze_nil. f_equal. apply IH.
  - apply filter_true. reflexivity.
Qed.

Lemma error_name_not_name (name : string) :
  String.eqb (name ++ "_" ++ "error") name = false.
Proof.
  apply String.eqb_neq. intro E. apply (f_equal String.length) in E.
  rewrite append_length in E. cbn in E. lia.
Qed.

Lemma standardize_signal (source : string) (time : list scalar) (s : Signal) :
  (2 <= List.length time)%nat ->
  signal_name s <> "time" ->
  (signal_name s ++ "_" ++ "error")%string <> "time" ->
  StandardizeSignalDataset source (signal_dataset time s)
  = Ok {| variables := ("time", on_time time time []) :: signal_vars source time s;
          coord_names := ["time"];
          attrs := [("name", AStr (source ++ "/" ++ signal_name s)%string)] |}.
Proof.
  intros Hlen Hname Herr.
  assert (Hn1 : Nat.eqb (List.length time) 1 = false)
    by (apply Nat.eqb_neq; lia).
  apply String.eqb_neq in Hname, Herr.
  unfold StandardizeSignalDataset.
  rewrite squeeze_true_id.
  2:{ unfold squeeze_dims, sizes, signal_dataset, on_time. cbn. now rewrite Hn1. }
  unfold signal_vars.
  destruct s as [name data error]. cbn [signal_name signal_data signal_error] in *.
  unfold signal_dataset, on_time. cbn [signal_name signal_data signal_error].
  cbn [attrs_getitem attrs dict_get String.eqb Ascii.eqb Bool.eqb bind].
  cbn [getitem variables dict_get String.eqb Ascii.eqb Bool.eqb bind snd].
  unfold all_zero. cbn [values].
  destruct (forallb (fun x => scalar_eqb x (Num 0)) error) eqn:Ez.
  - (* the error is all zero and is dropped *)
    repeat first
      [ rewrite Hname | rewrite String.eqb_refl | rewrite Nat.eqb_refl
      | progress unfold _rename_all, dict_mem, var_rename_dims, set_var_attrs,
          getitem, set_attr
      | progress cbn ].
    reflexivity.
  - pose proof (error_name_not_name name) as Herr'. cbn in Herr, Herr'.
    repeat first
      [ rewrite Hname | rewrite Herr | rewrite Herr'
      | rewrite String.eqb_refl
      | progress unfold _rename_all, dict_mem, var_rename_dims, set_var_attrs,
          getitem, set_attr
      | progress cbn ].
    reflexivity.
Qed.
Lemma MapDict_on_map {S X Y : Type} (t : X -> outcome Y) (g : S -> X)
    (h : S -> Y) (l : dict S) :
  unique_keys (dict_keys l) = true ->
  (forall k s, In (k, s) l -> t (g s) = Ok (h s)) ->
  MapDict t (map (fun ks => (fst ks, g (snd ks))) l)
  = Ok (map (fun ks => (fst ks, h (snd ks))) l).
Proof.
  intros Hu Hok.
  destruct (MapDict_transformed t (map (fun ks => (fst ks, g (snd ks))) l))
    as (r & Hr & Tr).
  - unfold dict_keys in *. rewrite map_map. exact Hu.
  - intros k x Hin. apply in_map_iff in Hin. destruct Hin as ([k' s] & [= <- <-] & Hin).
    exists (h s). eauto.
  - rewrite Hr. f_equal. clear Hr Hu. revert r Tr.
    induction l as [|[k s] l IH]; intros r Tr; cbn [map fst snd] in *.
    + now inversion Tr.
    + inversion Tr as [|? [k' y] ? r' [Hk Hy] Tr']; subst. cbn [fst snd] in *.
      subst k'. rewrite (Hok k s (or_introl eq_refl)) in Hy. injection Hy as <-.
      f_equal. apply IH; [|exact Tr']. intros k0 s0 Hin. apply (Hok k0 s0). now right.
Qed.

Lemma NoDup_flat_map_inj {A B : Type} (f : A -> list B) (l : list A) :
  NoDup (flat_map f l) ->
  forall x y k, In x l -> In y l -> In k (f x) -> In k (f y) -> x = y.
Proof.
  induction l as [|a l IH]; cbn [flat_map]; intros Hnd x y k Hx Hy Hkx Hky;
    [contradiction|].
  assert (Hdis : forall z, In z l -> In k (f a) -> In k (f z) -> False).
  { intros z Hz H1 H2. apply (NoDup_app_disjoint _ _ Hnd k H1).
    apply in_flat_map. eauto. }
  destruct Hx as [->|Hx], Hy as [->|Hy].
  - reflexivity.
  - exfalso. eauto.
  - exfalso. eauto.
  - apply (IH (NoDup_app_remove_l _ _ Hnd) x y k); assumption.
Qed.

Lemma claimed_names_In (signals : dict Signal) (key : string) (s : Signal) :
  In (key, s) signals ->
  In (signal_name s) (claimed_names signals)
  /\ In (signal_name s ++ "_" ++ "error")%string (claimed_names signals).
Proof.
  intro H. unfold claimed_names. split; apply in_flat_map; exists (key, s);
    (split; [exact H|]); cbn [snd]; [now left | right; now left].
Qed.

Lemma signal_vars_In (source : string) (time : list scalar) (s : Signal)
    (k : string) (v : Var) :
  In (k, v) (signal_vars source time s) ->
  axes v = [("time", List.length time)]
  /\ ((k = signal_name s
       /\ v = on_time time (signal_data s)
                [("name", AStr (source ++ "/" ++ signal_name s)%string)])
      \/ (k = (signal_name s ++ "_" ++ "error")%string
          /\ v = on_time time (signal_error s) []
          /\ forallb (fun x => scalar_eqb x (Num 0)) (signal_error s) = false)).
Proof.
  unfold signal_vars. intros [[= <- <-]|H]; [split; [reflexivity | now left]|].
  destruct (forallb _ (signal_error s)) eqn:Ez; [contradiction|].
  destruct H as [[= <- <-]|[]]. split; [reflexivity | right; auto].
Qed.

(** X23. The plain pipeline, [MapDict(StandardizeSignalDataset(source))]
    followed by [MergeDatasets()], as registered for most sources. On
    signals that each hold [data] and [error] over one common time
    coordinate of at least two points, whose names and error names are
    pairwise distinct and not [time], the pipeline returns a single dataset
    without attributes, whose only coordinate is [time]; it holds the time
    coordinate, for every signal its data under the name of the signal,
    with the attribute [name] set to [source/name], and its error under
    [name_error], unless the error is all zero, in which case there is no
    such variable; and it holds nothing else. *)
Theorem plain_pipeline_on_signals :
  forall (source : string) (time : list scalar) (signals : dict Signal),
    (2 <= List.length time)%nat ->
    unique_keys (dict_keys signals) = true ->
    unique_keys ("time" :: claimed_names signals) = true ->
    exists merged,
      run [Stage.MapDict (Stage.StandardizeSignalDataset source);
           Stage.MergeDatasets]
          (Datasets (map (fun ks => (fst ks, signal_dataset time (snd ks))) signals))
      = Ok (Merged merged)
      /\ attrs merged = []
      /\ (forall c, In c (coord_names merged) -> c = "time")
      /\ (signals <> [] ->
          dict_get "time" (variables merged) = Some (on_time time time []))
      /\ (forall key s,
            In (key, s) signals ->
            dict_get (signal_name s) (variables merged)
            = Some (on_time time (signal_data s)
                      [("name", AStr (source ++ "/" ++ signal_name s)%string)])
            /\ dict_get (signal_name s ++ "_" ++ "error")%string (variables merged)
               = if forallb (fun x => scalar_eqb x (Num 0)) (signal_error s)
                 then None
                 else Some (on_time time (signal_error s) []))
      /\ (forall k, In k (dict_keys (variables merged)) ->
            k = "time" \/ In k (claimed_names signals)).
Proof.
  intros source time signals Hlen Hu Hnames.
  apply unique_keys_NoDup in Hnames.
  inversion Hnames as [|? ? Htime Hnd]; subst.
  set (out_ds := fun s : Signal =>
         {| variables := ("time", on_time time time []) :: signal_vars source time s;
            coord_names := ["time"];
            attrs := [("name", AStr (source ++ "/" ++ signal_name s)%string)] |}).
  (* the standardised signals *)
  unfold run. cbn [map Pipeline call].
  rewrite (MapDict_on_map (call_signal (Stage.StandardizeSignalDataset source))
             (signal_dataset time) out_ds signals Hu).
  2:{ intros k s Hin. cbn [call_signal]. destruct (claimed_names_In signals k s Hin) as [H1 H2].
      apply standardize_signal; [exact Hlen | |]; intro E; apply Htime;
        now rewrite <- E. }
  cbn [bind]. unfold MergeDatasets. rewrite map_map. cbn [snd].
  set (objects := map (fun ks : string * Signal => out_ds (snd ks)) signals).
  (* the variables that are merged *)
  assert (Hall : forall k v, In (k, v) (all_variables objects) <->
            exists key s, In (key, s) signals /\ In (k, v) (variables (out_ds s))).
  { intros k v. unfold all_variables, objects. rewrite in_flat_map. split.
    - intros (ds & Hds & Hin). apply in_map_iff in Hds.
      destruct Hds as ([key s] & <- & Hs). eauto.
    - intros (key & s & Hs & Hin). exists (out_ds s). split; [|exact Hin].
      apply in_map_iff. exists (key, s). auto. }
  assert (Hcases : forall k v, In (k, v) (all_variables objects) ->
            (k = "time" /\ v = on_time time time [])
            \/ exists key s, In (key, s) signals
                             /\ In (k, v) (signal_vars source time s)).
  { intros k v Hin. apply Hall in Hin. destruct Hin as (key & s & Hs & Hin).
    destruct Hin as [[= <- <-]|Hin]; [now left | right; eauto]. }
  assert (Hclaimed : forall key s k v, In (key, s) signals ->
            In (k, v) (signal_vars source time s) ->
            In k [signal_name s; (signal_name s ++ "_" ++ "error")%string]
            /\ In k (claimed_names signals) /\ k <> "time").
  { intros key s k v Hs Hin. destruct (claimed_names_In signals key s Hs) as [H1 H2].
    apply signal_vars_In in Hin. destruct Hin as [_ [[-> _]|[-> _]]].
    - split; [now left|]. split; [exact H1|]. intros E. apply Htime. now rewrite <- E.
    - split; [right; now left|]. split; [exact H2|]. intros E. apply Htime.
      now rewrite <- E. }
  assert (Hfun : forall k v v', In (k, v) (all_variables objects) ->
            In (k, v') (all_variables objects) -> v = v').
  { intros k v v' H1 H2. apply Hcases in H1, H2.
    destruct H1 as [[-> ->]|(key & s & Hs & Hin)],
             H2 as [[E ->]|(key' & s' & Hs' & Hin')].
    - reflexivity.
    - destruct (Hclaimed _ _ _ _ Hs' Hin') as (_ & _ & Hne). congruence.
    - destruct (Hclaimed _ _ _ _ Hs Hin) as (_ & _ & Hne). congruence.
    - destruct (Hclaimed _ _ _ _ Hs Hin) as (Hk & _).
      destruct (Hclaimed _ _ _ _ Hs' Hin') as (Hk' & _).
      assert (E : (key, s) = (key', s')).
      { apply (NoDup_flat_map_inj
                 (fun ks : string * Signal =>
                    [signal_name (snd ks);
                     (signal_name (snd ks) ++ "_" ++ "error")%string])
                 signals Hnd (key, s) (key', s') k); assumption. }
      injection E as <- <-.
      apply signal_vars_In in Hin, Hin'.
      destruct Hin as [_ [[-> ->]|(-> & -> & _)]],
               Hin' as [_ [[E ->]|(E & -> & _)]]; try reflexivity.
      + exfalso. symmetry in E. apply String.eqb_neq in E; [exact E|].
        apply error_name_not_name.
      + exfalso. apply String.eqb_neq in E; [exact E|].
        apply error_name_not_name. }
  assert (Hlook : forall k v, In (k, v) (all_variables objects) ->
            dict_get k (all_variables objects) = Some v).
  { intros k v Hin. destruct (dict_get k (all_variables objects)) as [first|] eqn:E.
    - f_equal. apply (Hfun k); [now apply dict_get_In | exact Hin].
    - exfalso. apply dict_get_None in E. apply E.
      apply (in_map fst) in Hin. exact Hin. }
  assert (Haxes : forall k v, In (k, v) (all_variables objects) ->
            axes v = [("time", List.length time)]).
  { intros k v Hin. apply Hcases in Hin.
    destruct Hin as [[_ ->]|(key & s & _ & Hin)]; [reflexivity|].
    now apply signal_vars_In in Hin. }
  assert (Hpairs : forall d n, In (d, n) (dim_pairs (all_variables objects)) ->
            d = "time" /\ n = List.length time).
  { intros d n Hin. apply in_dim_pairs in Hin. destruct Hin as (k & v & Hv & Hd).
    rewrite (Haxes k v Hv) in Hd. destruct Hd as [[= <- <-]|[]]. auto. }
  assert (Hdata : mem "time" (flat_map (fun ds => dict_keys (data_vars ds)) objects)
                  = false).
  { apply mem_false. intro Hin. apply in_flat_map in Hin.
    destruct Hin as (ds & Hds & Hin). unfold objects in Hds.
    apply in_map_iff in Hds. destruct Hds as ([key s] & <- & Hs).
    unfold data_vars, dict_keys in Hin. apply in_map_iff in Hin.
    destruct Hin as ([k v] & Hk & Hf). cbn [fst] in Hk. subst k.
    apply filter_In in Hf. destruct Hf as [Hv Hc]. cbn in Hc. discriminate. }
  (* the conditions of the merge *)
  destruct (xr_merge_first_of_each_name objects)
    as (merged & Hm & _ & Hget & Hcn).
  - unfold agree_on_shared. apply forallb_forall. intros [k v] Hin. cbn [fst snd].
    rewrite (Hlook k v Hin). apply var_same_refl.
  - apply sizes_agree_iff. intros d n m Hn Hm.
    destruct (Hpairs d n Hn) as [_ ->]. destruct (Hpairs d m Hm) as [_ ->].
    reflexivity.
  - unfold axis_name_clash. apply not_true_is_false. intro E.
    apply existsb_exists in E. destruct E as ([d n] & Hin & Hd). cbn [fst] in Hd.
    destruct (Hpairs d n Hin) as [-> _]. rewrite Hdata in Hd. cbn [orb] in Hd.
    apply mem_In in Hd. unfold dict_keys in Hd. apply in_map_iff in Hd.
    destruct Hd as ([k v] & _ & Hf). apply filter_In in Hf. destruct Hf as [Hv Hs].
    unfold is_scalar_var in Hs. cbn [snd] in Hs. now rewrite (Haxes k v Hv) in Hs.
  - unfold coordinate_as_data. apply not_true_is_false. intro E.
    apply existsb_exists in E. destruct E as (c & Hc & Hd).
    apply in_flat_map in Hc. destruct Hc as (ds & Hds & Hc). unfold objects in Hds.
    apply in_map_iff in Hds. destruct Hds as ([key s] & <- & Hs).
    unfold coords, dict_keys in Hc. apply in_map_iff in Hc.
    destruct Hc as ([k v] & Hk & Hf). cbn [fst] in Hk. subst k.
    apply filter_In in Hf. destruct Hf as [_ Hf]. cbn in Hf.
    rewrite orb_false_r in Hf. apply String.eqb_eq in Hf. subst c. congruence.
  - rewrite Hm. cbn [bind]. eexists. split; [reflexivity|].
    cbn [variables coord_names attrs]. split; [reflexivity|].
    split; [|split; [|split]].
    + intros c Hc. apply Hcn in Hc. destruct Hc as [(ds & Hds & Hc)|[_ [n Hn]]].
      * unfold objects in Hds. apply in_map_iff in Hds.
        destruct Hds as ([key s] & <- & Hs).
        unfold coords, dict_keys in Hc. apply in_map_iff in Hc.
        destruct Hc as ([k v] & Hk & Hf). cbn [fst] in Hk. subst k.
        apply filter_In in Hf. destruct Hf as [_ Hf]. cbn in Hf.
        rewrite orb_false_r in Hf. now apply String.eqb_eq in Hf.
      * now destruct (Hpairs c n Hn).
    + intro Hne. rewrite Hget. apply Hlook. apply Hall.
      destruct signals as [|[key s] rest]; [congruence|].
      exists key, s. split; [now left | now left].
    + intros key s Hs. rewrite !Hget. split.
      * apply Hlook. apply Hall. exists key, s. split; [exact Hs|].
        right. now left.
      * destruct (forallb (fun x => scalar_eqb x (Num 0)) (signal_error s)) eqn:Ez.
        -- apply dict_get_None. intro Hin. unfold dict_keys in Hin.
           apply in_map_iff in Hin. destruct Hin as ([k v] & Hk & Hin).
           cbn [fst] in Hk. subst k. apply Hcases in Hin.
           destruct Hin as [[E _]|(key' & s' & Hs' & Hin)].
           ++ destruct (claimed_names_In signals key s Hs) as [_ H2].
              apply Htime. now rewrite <- E.
           ++ destruct (Hclaimed _ _ _ _ Hs' Hin) as (Hk' & _).
              assert (E : (key, s) = (key', s')).
              { apply (NoDup_flat_map_inj
                         (fun ks : string * Signal =>
                            [signal_name (snd ks);
                             (signal_name (snd ks) ++ "_" ++ "error")%string])
                         signals Hnd (key, s) (key', s')
                         (signal_name s ++ "_" ++ "error")%string);
                  try assumption. cbn [snd]. right. now left. }
              injection E as <- <-. apply signal_vars_In in Hin.
              destruct Hin as [_ [[E _]|(_ & _ & E)]]; [|congruence].
              apply String.eqb_neq in E; [exact E|]. apply error_name_not_name.
        -- apply Hlook. apply Hall. exists key, s. split; [exact Hs|].
           right. unfold signal_vars. rewrite Ez. right. now left.
    + intros k Hk. destruct (dict_get k (variables merged)) as [v|] eqn:E.
      * rewrite Hget in E. apply dict_get_In in E. apply Hcases in E.
        destruct E as [[-> _]|(key & s & Hs & Hin)]; [now left | right].
        now destruct (Hclaimed _ _ _ _ Hs Hin) as (_ & H & _).
      * apply dict_get_None in E. contradiction.
Qed.

Lemma plain_pipeline_on_signals_witness :
  exists merged,
    run [Stage.MapDict (Stage.StandardizeSignalDataset "amc");
         Stage.MergeDatasets]
        (Datasets (map (fun ks => (fst ks, signal_dataset [Num 0; Num 1] (snd ks)))
                       two_signals))
    = Ok (Merged merged)
    /\ attrs merged = []
    /\ (forall c, In c (coord_names merged) -> c = "time")
    /\ (two_signals <> [] ->
        dict_get "time" (variables merged)
        = Some (on_time [Num 0; Num 1] [Num 0; Num 1] []))
    /\ (forall key s,
          In (key, s) two_signals ->
          dict_get (signal_name s) (variables merged)
          = Some (on_time [Num 0; Num 1] (signal_data s)
                    [("name", AStr ("amc" ++ "/" ++ signal_name s)%string)])
          /\ dict_get (signal_name s ++ "_" ++ "error")%string (variables merged)
             = if forallb (fun x => scalar_eqb x (Num 0)) (signal_error s)
               then None
               else Some (on_time [Num 0; Num 1] (signal_error s) []))
    /\ (forall k, In k (dict_keys (variables merged)) ->
          k = "time" \/ In k (claimed_names two_signals)).
Proof.
  apply (plain_pipeline_on_signals "amc" [Num 0; Num 1] two_signals);
    [cbn; lia | reflexivity | reflexivity].
Defined.
